(** * RIT-WPAN: a shallow embedding of the RIT MAC, its rank forwarding layer,
      the network header codec and the net-device configuration check.

    The development follows the C++ sources of [rit-wpan/model]:
    - [rit-wpan-nwk-header.cc]   -> [Module RitNwkHeader]
    - [time-drift-applier.cc]    -> [Module TimeDriftApplier]
    - [rit-wpan-mac.cc]          -> [Module Mac]
    - [rit-wpan-net-device.cc]   -> [Module NetDevice]
    - [rit-wpan-nwk.cc]          -> [Module Nwk]

    Conventions.
    - A [Time] is ns-3's signed count of nanoseconds, a [Z].
    - Unsigned machine integers are [Z] with the wrap-around written out.
    - The simulator is single threaded: every entry point is a state
      transformer on a [World]; [NS_ASSERT], [NS_ABORT_MSG] and
      [NS_FATAL_ERROR] end the run and are the [Stop] outcome.
    - Calls that leave the MAC (PHY requests, upper-layer callbacks, trace
      sources, channel-access modules) are appended to the world's log. *)

From Stdlib Require Import ZArith QArith Qabs Lia Lqa List Bool String.
From stdpp Require Import base option list gmap.
Import ListNotations.
Local Open Scope Z_scope.

(** ** Outcomes of a call *)

(** Why a run ends before the call returns. *)
Inductive StopReason : Type :=
| AssertFailed (what : string)   (* NS_ASSERT / NS_ASSERT_MSG, debug and default builds *)
| AbortMsg (what : string)       (* NS_ABORT_MSG, every build *)
| FatalError (what : string)     (* NS_FATAL_ERROR, every build *)
| Undefined (what : string).     (* a null Ptr dereferenced, front () of an empty queue *)

Inductive Outcome (A : Type) : Type :=
| Ok (a : A)
| Stop (why : StopReason).
Arguments Ok {A} a.
Arguments Stop {A} why.

Definition is_ok {A} (o : Outcome A) : bool :=
  match o with Ok _ => true | Stop _ => false end.

(** ** Machine integers and time *)

Definition Time := Z.

Definition wrap8 (x : Z) : Z := x mod 256.
Definition wrap16 (x : Z) : Z := x mod 65536.
Definition is_u8 (x : Z) : Prop := 0 <= x < 256.
Definition is_u16 (x : Z) : Prop := 0 <= x < 65536.

(** A [Mac16Address] is its 16-bit value; the first octet is the high one,
    as in [Mac16Address("00:01")]. *)
Definition Mac16Address := Z.
Definition Mac64Address := Z.
Definition Mac16_broadcast : Mac16Address := 0xFFFF.
Definition Mac16_IsBroadcast (a : Mac16Address) : bool := a =? 0xFFFF.

(** ** The RIT network header ([rit-wpan-nwk-header.cc]) *)

Module RitNwkHeader.

Record t : Type := mk {
  m_rank : Z;                 (* uint16_t *)
  m_srcAddr : Mac16Address;
  m_dstAddr : Mac16Address
}.

Definition wf (h : t) : Prop :=
  is_u16 (m_rank h) /\ is_u16 (m_srcAddr h) /\ is_u16 (m_dstAddr h).

(** [Buffer::Iterator::WriteU16]: low octet first. *)
Definition WriteU16 (v : Z) : list Z := [v mod 256; (v / 256) mod 256].

(** [Buffer::Iterator::ReadU16]. *)
Definition ReadU16 (b : list Z) : option (Z * list Z) :=
  match b with
  | b0 :: b1 :: rest => Some (b0 + 256 * b1, rest)
  | _ => None
  end.

(** [WriteTo (i, Mac16Address)]: the two octets of the address in the
    order they are stored (first octet, then second). *)
Definition WriteTo (a : Mac16Address) : list Z := [(a / 256) mod 256; a mod 256].

(** [ReadFrom (i, Mac16Address&)]. *)
Definition ReadFrom (b : list Z) : option (Mac16Address * list Z) :=
  match b with
  | b0 :: b1 :: rest => Some (256 * b0 + b1, rest)
  | _ => None
  end.

(** [RitNwkHeader::Serialize]: rank, source, destination. *)
Definition Serialize (h : t) : list Z :=
  WriteU16 (m_rank h) ++ WriteTo (m_srcAddr h) ++ WriteTo (m_dstAddr h).

(** [RitNwkHeader::Deserialize]: the header read and the number of octets
    consumed ([i.GetDistanceFrom (start)]); [None] when the buffer is
    shorter than the header. *)
Definition Deserialize (b : list Z) : option (t * Z) :=
  match ReadU16 b with
  | None => None
  | Some (r, b1) =>
    match ReadFrom b1 with
    | None => None
    | Some (s, b2) =>
      match ReadFrom b2 with
      | None => None
      | Some (d, b3) => Some (mk r s d, Z.of_nat (length b) - Z.of_nat (length b3))
      end
    end
  end.

(** [RitNwkHeader::GetSerializedSize]. *)
Definition GetSerializedSize (h : t) : Z := 6.

End RitNwkHeader.

(** ** Module configuration ([rit-wpan-mac.h]) *)

Record RitWpanMacModuleConfig : Type := mkModuleConfig {
  dataCsmaEnabled : bool;
  dataPreCsEnabled : bool;
  dataPreCsBEnabled : bool;
  beaconCsmaEnabled : bool;
  beaconPreCsEnabled : bool;
  beaconPreCsBEnabled : bool;
  continuousTxEnabled : bool;
  beaconRandomizeEnabled : bool;
  compactRitDataRequestEnabled : bool;
  beaconAckEnabled : bool
}.

(** The default member initialisers of [RitWpanMacModuleConfig]. *)
Definition defaultModuleConfig : RitWpanMacModuleConfig :=
  mkModuleConfig false false false false false false false false false false.

(** ** Frames, as the MAC sees them *)

(** [LrWpanMacHeader::LrWpanMacType]. *)
Inductive LrWpanMacType : Type :=
| LRWPAN_MAC_BEACON
| LRWPAN_MAC_DATA
| LRWPAN_MAC_ACKNOWLEDGMENT
| LRWPAN_MAC_COMMAND
| LRWPAN_MAC_MULTIPURPOSE
| LRWPAN_MAC_RESERVED.

Definition LrWpanMacType_eqb (a b : LrWpanMacType) : bool :=
  match a, b with
  | LRWPAN_MAC_BEACON, LRWPAN_MAC_BEACON
  | LRWPAN_MAC_DATA, LRWPAN_MAC_DATA
  | LRWPAN_MAC_ACKNOWLEDGMENT, LRWPAN_MAC_ACKNOWLEDGMENT
  | LRWPAN_MAC_COMMAND, LRWPAN_MAC_COMMAND
  | LRWPAN_MAC_MULTIPURPOSE, LRWPAN_MAC_MULTIPURPOSE
  | LRWPAN_MAC_RESERVED, LRWPAN_MAC_RESERVED => true
  | _, _ => false
  end.

(** [AddressMode], by value: the request parameters carry it in an octet. *)
Definition NO_PANID_ADDR : Z := 0.
Definition ADDR_MODE_RESERVED : Z := 1.
Definition SHORT_ADDR : Z := 2.
Definition EXT_ADDR : Z := 3.

(** [TxOption] bits. *)
Definition TX_OPTION_NONE : Z := 0.
Definition TX_OPTION_ACK : Z := 1.
Definition TX_OPTION_GTS : Z := 2.
Definition TX_OPTION_INDIRECT : Z := 4.

Record LrWpanMacHeader : Type := mkMacHeader {
  m_fctrlFrmType : LrWpanMacType;
  m_SeqNum : Z;
  m_fctrlFrmVer : Z;
  m_fctrlAckReq : bool;
  m_fctrlPanIdComp : bool;
  m_fctrlSecU : bool;
  m_fctrlSrcAddrMode : Z;
  m_addrSrcPanId : Z;
  m_addrShortSrcAddr : Mac16Address;
  m_addrExtSrcAddr : Mac64Address;
  m_fctrlDstAddrMode : Z;
  m_addrDstPanId : Z;
  m_addrShortDstAddr : Mac16Address;
  m_addrExtDstAddr : Mac64Address
}.

Definition set_m_fctrlFrmType (v : LrWpanMacType) (r : LrWpanMacHeader) : LrWpanMacHeader :=
  mkMacHeader v (r.(m_SeqNum)) (r.(m_fctrlFrmVer)) (r.(m_fctrlAckReq)) (r.(m_fctrlPanIdComp)) (r.(m_fctrlSecU)) (r.(m_fctrlSrcAddrMode)) (r.(m_addrSrcPanId)) (r.(m_addrShortSrcAddr)) (r.(m_addrExtSrcAddr)) (r.(m_fctrlDstAddrMode)) (r.(m_addrDstPanId)) (r.(m_addrShortDstAddr)) (r.(m_addrExtDstAddr)).
Definition set_m_SeqNum (v : Z) (r : LrWpanMacHeader) : LrWpanMacHeader :=
  mkMacHeader (r.(m_fctrlFrmType)) v (r.(m_fctrlFrmVer)) (r.(m_fctrlAckReq)) (r.(m_fctrlPanIdComp)) (r.(m_fctrlSecU)) (r.(m_fctrlSrcAddrMode)) (r.(m_addrSrcPanId)) (r.(m_addrShortSrcAddr)) (r.(m_addrExtSrcAddr)) (r.(m_fctrlDstAddrMode)) (r.(m_addrDstPanId)) (r.(m_addrShortDstAddr)) (r.(m_addrExtDstAddr)).
Definition set_m_fctrlFrmVer (v : Z) (r : LrWpanMacHeader) : LrWpanMacHeader :=
  mkMacHeader (r.(m_fctrlFrmType)) (r.(m_SeqNum)) v (r.(m_fctrlAckReq)) (r.(m_fctrlPanIdComp)) (r.(m_fctrlSecU)) (r.(m_fctrlSrcAddrMode)) (r.(m_addrSrcPanId)) (r.(m_addrShortSrcAddr)) (r.(m_addrExtSrcAddr)) (r.(m_fctrlDstAddrMode)) (r.(m_addrDstPanId)) (r.(m_addrShortDstAddr)) (r.(m_addrExtDstAddr)).
Definition set_m_fctrlAckReq (v : bool) (r : LrWpanMacHeader) : LrWpanMacHeader :=
  mkMacHeader (r.(m_fctrlFrmType)) (r.(m_SeqNum)) (r.(m_fctrlFrmVer)) v (r.(m_fctrlPanIdComp)) (r.(m_fctrlSecU)) (r.(m_fctrlSrcAddrMode)) (r.(m_addrSrcPanId)) (r.(m_addrShortSrcAddr)) (r.(m_addrExtSrcAddr)) (r.(m_fctrlDstAddrMode)) (r.(m_addrDstPanId)) (r.(m_addrShortDstAddr)) (r.(m_addrExtDstAddr)).
Definition set_m_fctrlPanIdComp (v : bool) (r : LrWpanMacHeader) : LrWpanMacHeader :=
  mkMacHeader (r.(m_fctrlFrmType)) (r.(m_SeqNum)) (r.(m_fctrlFrmVer)) (r.(m_fctrlAckReq)) v (r.(m_fctrlSecU)) (r.(m_fctrlSrcAddrMode)) (r.(m_addrSrcPanId)) (r.(m_addrShortSrcAddr)) (r.(m_addrExtSrcAddr)) (r.(m_fctrlDstAddrMode)) (r.(m_addrDstPanId)) (r.(m_addrShortDstAddr)) (r.(m_addrExtDstAddr)).
Definition set_m_fctrlSecU (v : bool) (r : LrWpanMacHeader) : LrWpanMacHeader :=
  mkMacHeader (r.(m_fctrlFrmType)) (r.(m_SeqNum)) (r.(m_fctrlFrmVer)) (r.(m_fctrlAckReq)) (r.(m_fctrlPanIdComp)) v (r.(m_fctrlSrcAddrMode)) (r.(m_addrSrcPanId)) (r.(m_addrShortSrcAddr)) (r.(m_addrExtSrcAddr)) (r.(m_fctrlDstAddrMode)) (r.(m_addrDstPanId)) (r.(m_addrShortDstAddr)) (r.(m_addrExtDstAddr)).
Definition set_m_fctrlSrcAddrMode (v : Z) (r : LrWpanMacHeader) : LrWpanMacHeader :=
  mkMacHeader (r.(m_fctrlFrmType)) (r.(m_SeqNum)) (r.(m_fctrlFrmVer)) (r.(m_fctrlAckReq)) (r.(m_fctrlPanIdComp)) (r.(m_fctrlSecU)) v (r.(m_addrSrcPanId)) (r.(m_addrShortSrcAddr)) (r.(m_addrExtSrcAddr)) (r.(m_fctrlDstAddrMode)) (r.(m_addrDstPanId)) (r.(m_addrShortDstAddr)) (r.(m_addrExtDstAddr)).
Definition set_m_addrSrcPanId (v : Z) (r : LrWpanMacHeader) : LrWpanMacHeader :=
  mkMacHeader (r.(m_fctrlFrmType)) (r.(m_SeqNum)) (r.(m_fctrlFrmVer)) (r.(m_fctrlAckReq)) (r.(m_fctrlPanIdComp)) (r.(m_fctrlSecU)) (r.(m_fctrlSrcAddrMode)) v (r.(m_addrShortSrcAddr)) (r.(m_addrExtSrcAddr)) (r.(m_fctrlDstAddrMode)) (r.(m_addrDstPanId)) (r.(m_addrShortDstAddr)) (r.(m_addrExtDstAddr)).
Definition set_m_addrShortSrcAddr (v : Mac16Address) (r : LrWpanMacHeader) : LrWpanMacHeader :=
  mkMacHeader (r.(m_fctrlFrmType)) (r.(m_SeqNum)) (r.(m_fctrlFrmVer)) (r.(m_fctrlAckReq)) (r.(m_fctrlPanIdComp)) (r.(m_fctrlSecU)) (r.(m_fctrlSrcAddrMode)) (r.(m_addrSrcPanId)) v (r.(m_addrExtSrcAddr)) (r.(m_fctrlDstAddrMode)) (r.(m_addrDstPanId)) (r.(m_addrShortDstAddr)) (r.(m_addrExtDstAddr)).
Definition set_m_addrExtSrcAddr (v : Mac64Address) (r : LrWpanMacHeader) : LrWpanMacHeader :=
  mkMacHeader (r.(m_fctrlFrmType)) (r.(m_SeqNum)) (r.(m_fctrlFrmVer)) (r.(m_fctrlAckReq)) (r.(m_fctrlPanIdComp)) (r.(m_fctrlSecU)) (r.(m_fctrlSrcAddrMode)) (r.(m_addrSrcPanId)) (r.(m_addrShortSrcAddr)) v (r.(m_fctrlDstAddrMode)) (r.(m_addrDstPanId)) (r.(m_addrShortDstAddr)) (r.(m_addrExtDstAddr)).
Definition set_m_fctrlDstAddrMode (v : Z) (r : LrWpanMacHeader) : LrWpanMacHeader :=
  mkMacHeader (r.(m_fctrlFrmType)) (r.(m_SeqNum)) (r.(m_fctrlFrmVer)) (r.(m_fctrlAckReq)) (r.(m_fctrlPanIdComp)) (r.(m_fctrlSecU)) (r.(m_fctrlSrcAddrMode)) (r.(m_addrSrcPanId)) (r.(m_addrShortSrcAddr)) (r.(m_addrExtSrcAddr)) v (r.(m_addrDstPanId)) (r.(m_addrShortDstAddr)) (r.(m_addrExtDstAddr)).
Definition set_m_addrDstPanId (v : Z) (r : LrWpanMacHeader) : LrWpanMacHeader :=
  mkMacHeader (r.(m_fctrlFrmType)) (r.(m_SeqNum)) (r.(m_fctrlFrmVer)) (r.(m_fctrlAckReq)) (r.(m_fctrlPanIdComp)) (r.(m_fctrlSecU)) (r.(m_fctrlSrcAddrMode)) (r.(m_addrSrcPanId)) (r.(m_addrShortSrcAddr)) (r.(m_addrExtSrcAddr)) (r.(m_fctrlDstAddrMode)) v (r.(m_addrShortDstAddr)) (r.(m_addrExtDstAddr)).
Definition set_m_addrShortDstAddr (v : Mac16Address) (r : LrWpanMacHeader) : LrWpanMacHeader :=
  mkMacHeader (r.(m_fctrlFrmType)) (r.(m_SeqNum)) (r.(m_fctrlFrmVer)) (r.(m_fctrlAckReq)) (r.(m_fctrlPanIdComp)) (r.(m_fctrlSecU)) (r.(m_fctrlSrcAddrMode)) (r.(m_addrSrcPanId)) (r.(m_addrShortSrcAddr)) (r.(m_addrExtSrcAddr)) (r.(m_fctrlDstAddrMode)) (r.(m_addrDstPanId)) v (r.(m_addrExtDstAddr)).
Definition set_m_addrExtDstAddr (v : Mac64Address) (r : LrWpanMacHeader) : LrWpanMacHeader :=
  mkMacHeader (r.(m_fctrlFrmType)) (r.(m_SeqNum)) (r.(m_fctrlFrmVer)) (r.(m_fctrlAckReq)) (r.(m_fctrlPanIdComp)) (r.(m_fctrlSecU)) (r.(m_fctrlSrcAddrMode)) (r.(m_addrSrcPanId)) (r.(m_addrShortSrcAddr)) (r.(m_addrExtSrcAddr)) (r.(m_fctrlDstAddrMode)) (r.(m_addrDstPanId)) (r.(m_addrShortDstAddr)) v.

(** [LrWpanMacHeader (type, seqNum)]: everything else cleared. *)
Definition newMacHeader (ty : LrWpanMacType) (seq : Z) : LrWpanMacHeader :=
  mkMacHeader ty seq 0 false false false NO_PANID_ADDR 0 0 0 NO_PANID_ADDR 0 0 0.

(** The default-constructed header. *)
Definition defaultMacHeader : LrWpanMacHeader := newMacHeader LRWPAN_MAC_RESERVED 0.

Definition IsCommand (h : LrWpanMacHeader) : bool :=
  LrWpanMacType_eqb (m_fctrlFrmType h) LRWPAN_MAC_COMMAND.
Definition IsData (h : LrWpanMacHeader) : bool :=
  LrWpanMacType_eqb (m_fctrlFrmType h) LRWPAN_MAC_DATA.
Definition IsAcknowledgment (h : LrWpanMacHeader) : bool :=
  LrWpanMacType_eqb (m_fctrlFrmType h) LRWPAN_MAC_ACKNOWLEDGMENT.
Definition IsMultipurpose (h : LrWpanMacHeader) : bool :=
  LrWpanMacType_eqb (m_fctrlFrmType h) LRWPAN_MAC_MULTIPURPOSE.

(** [SetSrcAddrFields (panId, shortAddr)] and its extended overload. *)
Definition SetSrcAddrFields (pan : Z) (a : Mac16Address) (h : LrWpanMacHeader) :=
  set_m_addrShortSrcAddr a (set_m_addrSrcPanId pan h).
Definition SetSrcAddrFieldsExt (pan : Z) (a : Mac64Address) (h : LrWpanMacHeader) :=
  set_m_addrExtSrcAddr a (set_m_addrSrcPanId pan h).
Definition SetDstAddrFields (pan : Z) (a : Mac16Address) (h : LrWpanMacHeader) :=
  set_m_addrShortDstAddr a (set_m_addrDstPanId pan h).
Definition SetDstAddrFieldsExt (pan : Z) (a : Mac64Address) (h : LrWpanMacHeader) :=
  set_m_addrExtDstAddr a (set_m_addrDstPanId pan h).

(** [CommandPayloadHeader::MacCommand], the two RIT commands and the rest. *)
Inductive MacCommand : Type :=
| RIT_DATA_REQ
| RIT_DATA_RES
| CMD_OTHER (id : Z).

Inductive PacketHeader : Type :=
| PH_Mac (h : LrWpanMacHeader)
| PH_Command (c : MacCommand).

(** A [Packet]: the headers added by the MAC (outermost first), the octets
    below them (network header and payload), whether an [LrWpanMacTrailer]
    is attached, and whether the frame check sequence it carries matches. *)
Record Packet : Type := mkPacket {
  pkt_headers : list PacketHeader;
  pkt_data : list Z;
  pkt_trailer : bool;
  pkt_fcsGood : bool
}.

Definition Packet_AddHeader (h : PacketHeader) (p : Packet) : Packet :=
  mkPacket (h :: pkt_headers p) (pkt_data p) (pkt_trailer p) (pkt_fcsGood p).

Definition Packet_AddTrailer (p : Packet) : Packet :=
  mkPacket (pkt_headers p) (pkt_data p) true (pkt_fcsGood p).

Definition Packet_RemoveTrailer (p : Packet) : Packet :=
  mkPacket (pkt_headers p) (pkt_data p) false (pkt_fcsGood p).

(** [p->PeekHeader (macHdr)]: the outermost header when it is a MAC header;
    the default-constructed header otherwise. *)
Definition Packet_PeekMacHeader (p : Packet) : LrWpanMacHeader :=
  match pkt_headers p with
  | PH_Mac h :: _ => h
  | _ => defaultMacHeader
  end.

(** [p->RemoveHeader (macHdr)]. *)
Definition Packet_RemoveMacHeader (p : Packet) : LrWpanMacHeader * Packet :=
  match pkt_headers p with
  | PH_Mac h :: rest => (h, mkPacket rest (pkt_data p) (pkt_trailer p) (pkt_fcsGood p))
  | _ => (defaultMacHeader, p)
  end.

Definition Packet_PeekCommandHeader (p : Packet) : MacCommand :=
  match pkt_headers p with
  | PH_Command c :: _ => c
  | _ => CMD_OTHER 0
  end.

Definition Packet_RemoveCommandHeader (p : Packet) : MacCommand * Packet :=
  match pkt_headers p with
  | PH_Command c :: rest => (c, mkPacket rest (pkt_data p) (pkt_trailer p) (pkt_fcsGood p))
  | _ => (CMD_OTHER 0, p)
  end.

(** [Create<Packet> (buffer, size)]. *)
Definition Packet_Create (data : list Z) : Packet := mkPacket [] data false true.

Record TxQueueElement : Type := mkTxQueueElement {
  txQMsduHandle : Z;
  txQPkt : Packet
}.

(** ** Enumerations of the base MAC and of the PHY *)

Inductive RitMacMode : Type :=
| RIT_MODE_DISABLED
| SENDER_MODE
| RECEIVER_MODE
| SLEEP_MODE
| BOOTSTRAP_MODE.

Definition RitMacMode_eqb (a b : RitMacMode) : bool :=
  match a, b with
  | RIT_MODE_DISABLED, RIT_MODE_DISABLED
  | SENDER_MODE, SENDER_MODE
  | RECEIVER_MODE, RECEIVER_MODE
  | SLEEP_MODE, SLEEP_MODE
  | BOOTSTRAP_MODE, BOOTSTRAP_MODE => true
  | _, _ => false
  end.

Inductive MacState : Type :=
| MAC_IDLE
| MAC_CSMA
| MAC_SENDING
| MAC_ACK_PENDING
| CHANNEL_ACCESS_FAILURE
| CHANNEL_IDLE
| SET_PHY_TX_ON
| MAC_GTS
| MAC_INACTIVE
| MAC_CSMA_DEFERRED.

Definition MacState_eqb (a b : MacState) : bool :=
  match a, b with
  | MAC_IDLE, MAC_IDLE
  | MAC_CSMA, MAC_CSMA
  | MAC_SENDING, MAC_SENDING
  | MAC_ACK_PENDING, MAC_ACK_PENDING
  | CHANNEL_ACCESS_FAILURE, CHANNEL_ACCESS_FAILURE
  | CHANNEL_IDLE, CHANNEL_IDLE
  | SET_PHY_TX_ON, SET_PHY_TX_ON
  | MAC_GTS, MAC_GTS
  | MAC_INACTIVE, MAC_INACTIVE
  | MAC_CSMA_DEFERRED, MAC_CSMA_DEFERRED => true
  | _, _ => false
  end.

Inductive MacStatus : Type :=
| SUCCESS
| NO_ACK
| CHANNEL_ACCESS_FAILURE_STATUS
| FRAME_TOO_LONG
| INVALID_ADDRESS
| INVALID_PARAMETER
| UNSUPPORTED_ATTRIBUTE
| STATUS_OTHER (code : Z).

Inductive PhyEnumeration : Type :=
| IEEE_802_15_4_PHY_SUCCESS
| IEEE_802_15_4_PHY_RX_ON
| IEEE_802_15_4_PHY_TX_ON
| IEEE_802_15_4_PHY_TRX_OFF
| IEEE_802_15_4_PHY_FORCE_TRX_OFF
| IEEE_802_15_4_PHY_IDLE
| IEEE_802_15_4_PHY_BUSY
| IEEE_802_15_4_PHY_OTHER (code : Z).

Definition Phy_is_SUCCESS (s : PhyEnumeration) : bool :=
  match s with IEEE_802_15_4_PHY_SUCCESS => true | _ => false end.
Definition Phy_is_RX_ON (s : PhyEnumeration) : bool :=
  match s with IEEE_802_15_4_PHY_RX_ON => true | _ => false end.

(** [MacPibAttributeIdentifier]: the seven RIT attributes of the vendor
    range and every other identifier by its value. *)
Inductive MacPibAttributeIdentifier : Type :=
| macRitPeriod
| macRitDataWaitDuration
| macRitTxWaitDuration
| macRitRequestPayload
| macRitPeriodTime
| macRitDataWaitDurationTime
| macRitTxWaitDurationTime
| pibOther (id : Z).

(** [id >= 0xF0]. *)
Definition pib_in_rit_range (id : MacPibAttributeIdentifier) : bool :=
  match id with
  | pibOther n => 0xF0 <=? n
  | _ => true
  end.

(** The fields of [MacPibAttributes] that the RIT MAC reads. *)
Record MacPibAttributes : Type := mkPib {
  pib_macRitPeriod : Z;
  pib_macRitDataWaitDuration : Z;
  pib_macRitTxWaitDuration : Z;
  pib_macRitRequestPayload : list Z;
  pib_macRitPeriodTime : Time;
  pib_macRitDataWaitDurationTime : Time;
  pib_macRitTxWaitDurationTime : Time
}.

Definition emptyPib : MacPibAttributes := mkPib 0 0 0 [] 0 0 0.

Record McpsDataRequestParams : Type := mkMcpsDataRequestParams {
  req_srcAddrMode : Z;
  req_dstAddrMode : Z;
  req_dstPanId : Z;
  req_dstAddr : Mac16Address;
  req_dstExtAddr : Mac64Address;
  req_msduHandle : Z;
  req_txOptions : Z
}.

Record McpsDataConfirmParams : Type := mkMcpsDataConfirmParams {
  cfm_msduHandle : Z;
  cfm_status : MacStatus
}.

Record McpsDataIndicationParams : Type := mkMcpsDataIndicationParams {
  ind_srcAddrMode : Z;
  ind_srcPanId : Z;
  ind_srcAddr : Mac16Address;
  ind_srcExtAddr : Mac64Address;
  ind_dstAddrMode : Z;
  ind_dstPanId : Z;
  ind_dstAddr : Mac16Address;
  ind_dstExtAddr : Mac64Address;
  ind_mpduLinkQuality : Z;
  ind_dsn : Z
}.

Record MlmeRitRequestIndicationParams : Type := mkMlmeRitRequestIndicationParams {
  rit_srcAddrMode : Z;
  rit_srcPanId : Z;
  rit_srcAddr : Mac16Address;
  rit_srcExtAddr : Mac64Address;
  rit_dstAddrMode : Z;
  rit_dstPanId : Z;
  rit_dstAddr : Mac16Address;
  rit_dstExtAddr : Mac64Address;
  rit_ritRequestPayload : list Z;
  rit_linkQuality : Z;
  rit_dsn : Z;
  rit_timestamp : Z
}.

(** ** Scheduled events *)

(** The member functions the MAC hands to [Simulator::Schedule]. *)
Inductive Handler : Type :=
| H_PeriodicRitDataRequest
| H_ReceiverCycleTimeout
| H_SenderCycleTimeout
| H_AckWaitTimeout
| H_SetLrWpanMacState (s : MacState)
| H_SendAck (seqno : Z)
| H_IfsWaitTimeout (ifsTime : Time).

Record EventImpl : Type := mkEvent {
  ev_time : Time;
  ev_handler : Handler
}.

(** An [EventId] member: [Some e] while the event it names is pending,
    [None] once it ran or was cancelled, or when nothing was scheduled.
    An event whose [EventId] is overwritten while pending stays in the
    simulator's queue: the world keeps it among its [orphans]. *)
Definition EventId := option EventImpl.

Definition IsPending (e : EventId) : bool :=
  match e with Some _ => true | None => false end.
Definition IsExpired (e : EventId) : bool := negb (IsPending e).

(** ** What the MAC does to its surroundings *)

Inductive Action : Type :=
| McpsDataConfirmCallback (p : McpsDataConfirmParams)
| McpsDataIndicationCallback (p : McpsDataIndicationParams) (pkt : Packet)
| MlmeRitRequestIndicationCallback (p : MlmeRitRequestIndicationParams)
| MlmeSetConfirmCallback (status : MacStatus) (id : MacPibAttributeIdentifier)
| MlmeGetConfirmCallback (status : MacStatus) (id : MacPibAttributeIdentifier)
    (attr : MacPibAttributes)
| PlmeSetTRXStateRequest (s : PhyEnumeration)
| PreCsB_Cancel
| PreCs_Cancel
| CsmaCa_Cancel
| PreCs_Start
| MacStateLogger (old new : MacState)
| MacRxTrace (p : Packet)
| MacRxDropTrace (p : Packet)
| MacTxOkTrace (p : option Packet)
| MacTxDropTrace (p : option Packet)
| MacIfsEndTrace (t : Time)
| BeaconWaitTrace (what : string) (t : Time)
| DataWaitTrace (what : string) (t : Time)
| ClockDriftApplier_Initialize (nodeId runId : Z)
| BaseAction (tag : Z).

(** ** The members of the MAC

    The members of the base class [LrWpanMac] that [RitWpanMac] reads or
    writes. A callback member is [true] when a callback is bound. Each
    record comes with one setter per field. *)
Record LrWpanMac : Type := mkLrWpanMac {
  m_macState : MacState;
  m_txPkt : option Packet;
  m_rxPkt : option Packet;
  m_txQueue : list TxQueueElement;
  m_macDsn : Z;
  m_macPanId : Z;
  m_shortAddress : Mac16Address;
  m_macExtendedAddress : Mac64Address;
  m_macPromiscuousMode : bool;
  m_macRxOnWhenIdle : bool;
  m_lastRxFrameLqi : Z;
  m_setMacState : EventId;
  m_ackWaitTimeout : EventId;
  m_ifsEvent : EventId;
  m_mcpsDataConfirmCallback : bool;
  m_mcpsDataIndicationCallback : bool;
  m_mlmeSetConfirmCallback : bool;
  m_mlmeGetConfirmCallback : bool
}.

Definition set_m_macState (v : MacState) (r : LrWpanMac) : LrWpanMac :=
  mkLrWpanMac v (r.(m_txPkt)) (r.(m_rxPkt)) (r.(m_txQueue)) (r.(m_macDsn)) (r.(m_macPanId)) (r.(m_shortAddress)) (r.(m_macExtendedAddress)) (r.(m_macPromiscuousMode)) (r.(m_macRxOnWhenIdle)) (r.(m_lastRxFrameLqi)) (r.(m_setMacState)) (r.(m_ackWaitTimeout)) (r.(m_ifsEvent)) (r.(m_mcpsDataConfirmCallback)) (r.(m_mcpsDataIndicationCallback)) (r.(m_mlmeSetConfirmCallback)) (r.(m_mlmeGetConfirmCallback)).
Definition set_m_txPkt (v : option Packet) (r : LrWpanMac) : LrWpanMac :=
  mkLrWpanMac (r.(m_macState)) v (r.(m_rxPkt)) (r.(m_txQueue)) (r.(m_macDsn)) (r.(m_macPanId)) (r.(m_shortAddress)) (r.(m_macExtendedAddress)) (r.(m_macPromiscuousMode)) (r.(m_macRxOnWhenIdle)) (r.(m_lastRxFrameLqi)) (r.(m_setMacState)) (r.(m_ackWaitTimeout)) (r.(m_ifsEvent)) (r.(m_mcpsDataConfirmCallback)) (r.(m_mcpsDataIndicationCallback)) (r.(m_mlmeSetConfirmCallback)) (r.(m_mlmeGetConfirmCallback)).
Definition set_m_rxPkt (v : option Packet) (r : LrWpanMac) : LrWpanMac :=
  mkLrWpanMac (r.(m_macState)) (r.(m_txPkt)) v (r.(m_txQueue)) (r.(m_macDsn)) (r.(m_macPanId)) (r.(m_shortAddress)) (r.(m_macExtendedAddress)) (r.(m_macPromiscuousMode)) (r.(m_macRxOnWhenIdle)) (r.(m_lastRxFrameLqi)) (r.(m_setMacState)) (r.(m_ackWaitTimeout)) (r.(m_ifsEvent)) (r.(m_mcpsDataConfirmCallback)) (r.(m_mcpsDataIndicationCallback)) (r.(m_mlmeSetConfirmCallback)) (r.(m_mlmeGetConfirmCallback)).
Definition set_m_txQueue (v : list TxQueueElement) (r : LrWpanMac) : LrWpanMac :=
  mkLrWpanMac (r.(m_macState)) (r.(m_txPkt)) (r.(m_rxPkt)) v (r.(m_macDsn)) (r.(m_macPanId)) (r.(m_shortAddress)) (r.(m_macExtendedAddress)) (r.(m_macPromiscuousMode)) (r.(m_macRxOnWhenIdle)) (r.(m_lastRxFrameLqi)) (r.(m_setMacState)) (r.(m_ackWaitTimeout)) (r.(m_ifsEvent)) (r.(m_mcpsDataConfirmCallback)) (r.(m_mcpsDataIndicationCallback)) (r.(m_mlmeSetConfirmCallback)) (r.(m_mlmeGetConfirmCallback)).
Definition set_m_macDsn (v : Z) (r : LrWpanMac) : LrWpanMac :=
  mkLrWpanMac (r.(m_macState)) (r.(m_txPkt)) (r.(m_rxPkt)) (r.(m_txQueue)) v (r.(m_macPanId)) (r.(m_shortAddress)) (r.(m_macExtendedAddress)) (r.(m_macPromiscuousMode)) (r.(m_macRxOnWhenIdle)) (r.(m_lastRxFrameLqi)) (r.(m_setMacState)) (r.(m_ackWaitTimeout)) (r.(m_ifsEvent)) (r.(m_mcpsDataConfirmCallback)) (r.(m_mcpsDataIndicationCallback)) (r.(m_mlmeSetConfirmCallback)) (r.(m_mlmeGetConfirmCallback)).
Definition set_m_macPanId (v : Z) (r : LrWpanMac) : LrWpanMac :=
  mkLrWpanMac (r.(m_macState)) (r.(m_txPkt)) (r.(m_rxPkt)) (r.(m_txQueue)) (r.(m_macDsn)) v (r.(m_shortAddress)) (r.(m_macExtendedAddress)) (r.(m_macPromiscuousMode)) (r.(m_macRxOnWhenIdle)) (r.(m_lastRxFrameLqi)) (r.(m_setMacState)) (r.(m_ackWaitTimeout)) (r.(m_ifsEvent)) (r.(m_mcpsDataConfirmCallback)) (r.(m_mcpsDataIndicationCallback)) (r.(m_mlmeSetConfirmCallback)) (r.(m_mlmeGetConfirmCallback)).
Definition set_m_shortAddress (v : Mac16Address) (r : LrWpanMac) : LrWpanMac :=
  mkLrWpanMac (r.(m_macState)) (r.(m_txPkt)) (r.(m_rxPkt)) (r.(m_txQueue)) (r.(m_macDsn)) (r.(m_macPanId)) v (r.(m_macExtendedAddress)) (r.(m_macPromiscuousMode)) (r.(m_macRxOnWhenIdle)) (r.(m_lastRxFrameLqi)) (r.(m_setMacState)) (r.(m_ackWaitTimeout)) (r.(m_ifsEvent)) (r.(m_mcpsDataConfirmCallback)) (r.(m_mcpsDataIndicationCallback)) (r.(m_mlmeSetConfirmCallback)) (r.(m_mlmeGetConfirmCallback)).
Definition set_m_macExtendedAddress (v : Mac64Address) (r : LrWpanMac) : LrWpanMac :=
  mkLrWpanMac (r.(m_macState)) (r.(m_txPkt)) (r.(m_rxPkt)) (r.(m_txQueue)) (r.(m_macDsn)) (r.(m_macPanId)) (r.(m_shortAddress)) v (r.(m_macPromiscuousMode)) (r.(m_macRxOnWhenIdle)) (r.(m_lastRxFrameLqi)) (r.(m_setMacState)) (r.(m_ackWaitTimeout)) (r.(m_ifsEvent)) (r.(m_mcpsDataConfirmCallback)) (r.(m_mcpsDataIndicationCallback)) (r.(m_mlmeSetConfirmCallback)) (r.(m_mlmeGetConfirmCallback)).
Definition set_m_macPromiscuousMode (v : bool) (r : LrWpanMac) : LrWpanMac :=
  mkLrWpanMac (r.(m_macState)) (r.(m_txPkt)) (r.(m_rxPkt)) (r.(m_txQueue)) (r.(m_macDsn)) (r.(m_macPanId)) (r.(m_shortAddress)) (r.(m_macExtendedAddress)) v (r.(m_macRxOnWhenIdle)) (r.(m_lastRxFrameLqi)) (r.(m_setMacState)) (r.(m_ackWaitTimeout)) (r.(m_ifsEvent)) (r.(m_mcpsDataConfirmCallback)) (r.(m_mcpsDataIndicationCallback)) (r.(m_mlmeSetConfirmCallback)) (r.(m_mlmeGetConfirmCallback)).
Definition set_m_macRxOnWhenIdle (v : bool) (r : LrWpanMac) : LrWpanMac :=
  mkLrWpanMac (r.(m_macState)) (r.(m_txPkt)) (r.(m_rxPkt)) (r.(m_txQueue)) (r.(m_macDsn)) (r.(m_macPanId)) (r.(m_shortAddress)) (r.(m_macExtendedAddress)) (r.(m_macPromiscuousMode)) v (r.(m_lastRxFrameLqi)) (r.(m_setMacState)) (r.(m_ackWaitTimeout)) (r.(m_ifsEvent)) (r.(m_mcpsDataConfirmCallback)) (r.(m_mcpsDataIndicationCallback)) (r.(m_mlmeSetConfirmCallback)) (r.(m_mlmeGetConfirmCallback)).
Definition set_m_lastRxFrameLqi (v : Z) (r : LrWpanMac) : LrWpanMac :=
  mkLrWpanMac (r.(m_macState)) (r.(m_txPkt)) (r.(m_rxPkt)) (r.(m_txQueue)) (r.(m_macDsn)) (r.(m_macPanId)) (r.(m_shortAddress)) (r.(m_macExtendedAddress)) (r.(m_macPromiscuousMode)) (r.(m_macRxOnWhenIdle)) v (r.(m_setMacState)) (r.(m_ackWaitTimeout)) (r.(m_ifsEvent)) (r.(m_mcpsDataConfirmCallback)) (r.(m_mcpsDataIndicationCallback)) (r.(m_mlmeSetConfirmCallback)) (r.(m_mlmeGetConfirmCallback)).
Definition set_m_setMacState (v : EventId) (r : LrWpanMac) : LrWpanMac :=
  mkLrWpanMac (r.(m_macState)) (r.(m_txPkt)) (r.(m_rxPkt)) (r.(m_txQueue)) (r.(m_macDsn)) (r.(m_macPanId)) (r.(m_shortAddress)) (r.(m_macExtendedAddress)) (r.(m_macPromiscuousMode)) (r.(m_macRxOnWhenIdle)) (r.(m_lastRxFrameLqi)) v (r.(m_ackWaitTimeout)) (r.(m_ifsEvent)) (r.(m_mcpsDataConfirmCallback)) (r.(m_mcpsDataIndicationCallback)) (r.(m_mlmeSetConfirmCallback)) (r.(m_mlmeGetConfirmCallback)).
Definition set_m_ackWaitTimeout (v : EventId) (r : LrWpanMac) : LrWpanMac :=
  mkLrWpanMac (r.(m_macState)) (r.(m_txPkt)) (r.(m_rxPkt)) (r.(m_txQueue)) (r.(m_macDsn)) (r.(m_macPanId)) (r.(m_shortAddress)) (r.(m_macExtendedAddress)) (r.(m_macPromiscuousMode)) (r.(m_macRxOnWhenIdle)) (r.(m_lastRxFrameLqi)) (r.(m_setMacState)) v (r.(m_ifsEvent)) (r.(m_mcpsDataConfirmCallback)) (r.(m_mcpsDataIndicationCallback)) (r.(m_mlmeSetConfirmCallback)) (r.(m_mlmeGetConfirmCallback)).
Definition set_m_ifsEvent (v : EventId) (r : LrWpanMac) : LrWpanMac :=
  mkLrWpanMac (r.(m_macState)) (r.(m_txPkt)) (r.(m_rxPkt)) (r.(m_txQueue)) (r.(m_macDsn)) (r.(m_macPanId)) (r.(m_shortAddress)) (r.(m_macExtendedAddress)) (r.(m_macPromiscuousMode)) (r.(m_macRxOnWhenIdle)) (r.(m_lastRxFrameLqi)) (r.(m_setMacState)) (r.(m_ackWaitTimeout)) v (r.(m_mcpsDataConfirmCallback)) (r.(m_mcpsDataIndicationCallback)) (r.(m_mlmeSetConfirmCallback)) (r.(m_mlmeGetConfirmCallback)).
Definition set_m_mcpsDataConfirmCallback (v : bool) (r : LrWpanMac) : LrWpanMac :=
  mkLrWpanMac (r.(m_macState)) (r.(m_txPkt)) (r.(m_rxPkt)) (r.(m_txQueue)) (r.(m_macDsn)) (r.(m_macPanId)) (r.(m_shortAddress)) (r.(m_macExtendedAddress)) (r.(m_macPromiscuousMode)) (r.(m_macRxOnWhenIdle)) (r.(m_lastRxFrameLqi)) (r.(m_setMacState)) (r.(m_ackWaitTimeout)) (r.(m_ifsEvent)) v (r.(m_mcpsDataIndicationCallback)) (r.(m_mlmeSetConfirmCallback)) (r.(m_mlmeGetConfirmCallback)).
Definition set_m_mcpsDataIndicationCallback (v : bool) (r : LrWpanMac) : LrWpanMac :=
  mkLrWpanMac (r.(m_macState)) (r.(m_txPkt)) (r.(m_rxPkt)) (r.(m_txQueue)) (r.(m_macDsn)) (r.(m_macPanId)) (r.(m_shortAddress)) (r.(m_macExtendedAddress)) (r.(m_macPromiscuousMode)) (r.(m_macRxOnWhenIdle)) (r.(m_lastRxFrameLqi)) (r.(m_setMacState)) (r.(m_ackWaitTimeout)) (r.(m_ifsEvent)) (r.(m_mcpsDataConfirmCallback)) v (r.(m_mlmeSetConfirmCallback)) (r.(m_mlmeGetConfirmCallback)).
Definition set_m_mlmeSetConfirmCallback (v : bool) (r : LrWpanMac) : LrWpanMac :=
  mkLrWpanMac (r.(m_macState)) (r.(m_txPkt)) (r.(m_rxPkt)) (r.(m_txQueue)) (r.(m_macDsn)) (r.(m_macPanId)) (r.(m_shortAddress)) (r.(m_macExtendedAddress)) (r.(m_macPromiscuousMode)) (r.(m_macRxOnWhenIdle)) (r.(m_lastRxFrameLqi)) (r.(m_setMacState)) (r.(m_ackWaitTimeout)) (r.(m_ifsEvent)) (r.(m_mcpsDataConfirmCallback)) (r.(m_mcpsDataIndicationCallback)) v (r.(m_mlmeGetConfirmCallback)).
Definition set_m_mlmeGetConfirmCallback (v : bool) (r : LrWpanMac) : LrWpanMac :=
  mkLrWpanMac (r.(m_macState)) (r.(m_txPkt)) (r.(m_rxPkt)) (r.(m_txQueue)) (r.(m_macDsn)) (r.(m_macPanId)) (r.(m_shortAddress)) (r.(m_macExtendedAddress)) (r.(m_macPromiscuousMode)) (r.(m_macRxOnWhenIdle)) (r.(m_lastRxFrameLqi)) (r.(m_setMacState)) (r.(m_ackWaitTimeout)) (r.(m_ifsEvent)) (r.(m_mcpsDataConfirmCallback)) (r.(m_mcpsDataIndicationCallback)) (r.(m_mlmeSetConfirmCallback)) v.

(** The members [RitWpanMac] adds ([rit-wpan-mac.h]), with the base
    class object as [base]. *)
Record RitWpanMac : Type := mkRitWpanMac {
  base : LrWpanMac;
  m_rxAlwaysOn : bool;
  m_continuousRxEnabled : bool;
  m_useTimeBasedRitParams : bool;
  m_ritSending : bool;
  m_macRitPeriod : Z;
  m_macRitDataWaitDuration : Z;
  m_macRitTxWaitDuration : Z;
  m_macRitRequestPayload : list Z;
  m_macRitPeriodTime : Time;
  m_macRitDataWaitDurationTime : Time;
  m_macRitTxWaitDurationTime : Time;
  m_ritMacMode : RitMacMode;
  m_ritDataWaitTimeout : EventId;
  m_ritTxWaitTimeout : EventId;
  m_periodicRitDataRequestEvent : EventId;
  m_mlmeRitRequestIndicationCallback : bool;
  m_lastRxRitReqFrameSrcAddr : Mac16Address;
  m_moduleConfig : RitWpanMacModuleConfig;
  m_lastDataTxStartTime : Time
}.

Definition set_base (v : LrWpanMac) (r : RitWpanMac) : RitWpanMac :=
  mkRitWpanMac v (r.(m_rxAlwaysOn)) (r.(m_continuousRxEnabled)) (r.(m_useTimeBasedRitParams)) (r.(m_ritSending)) (r.(m_macRitPeriod)) (r.(m_macRitDataWaitDuration)) (r.(m_macRitTxWaitDuration)) (r.(m_macRitRequestPayload)) (r.(m_macRitPeriodTime)) (r.(m_macRitDataWaitDurationTime)) (r.(m_macRitTxWaitDurationTime)) (r.(m_ritMacMode)) (r.(m_ritDataWaitTimeout)) (r.(m_ritTxWaitTimeout)) (r.(m_periodicRitDataRequestEvent)) (r.(m_mlmeRitRequestIndicationCallback)) (r.(m_lastRxRitReqFrameSrcAddr)) (r.(m_moduleConfig)) (r.(m_lastDataTxStartTime)).
Definition set_m_rxAlwaysOn (v : bool) (r : RitWpanMac) : RitWpanMac :=
  mkRitWpanMac (r.(base)) v (r.(m_continuousRxEnabled)) (r.(m_useTimeBasedRitParams)) (r.(m_ritSending)) (r.(m_macRitPeriod)) (r.(m_macRitDataWaitDuration)) (r.(m_macRitTxWaitDuration)) (r.(m_macRitRequestPayload)) (r.(m_macRitPeriodTime)) (r.(m_macRitDataWaitDurationTime)) (r.(m_macRitTxWaitDurationTime)) (r.(m_ritMacMode)) (r.(m_ritDataWaitTimeout)) (r.(m_ritTxWaitTimeout)) (r.(m_periodicRitDataRequestEvent)) (r.(m_mlmeRitRequestIndicationCallback)) (r.(m_lastRxRitReqFrameSrcAddr)) (r.(m_moduleConfig)) (r.(m_lastDataTxStartTime)).
Definition set_m_continuousRxEnabled (v : bool) (r : RitWpanMac) : RitWpanMac :=
  mkRitWpanMac (r.(base)) (r.(m_rxAlwaysOn)) v (r.(m_useTimeBasedRitParams)) (r.(m_ritSending)) (r.(m_macRitPeriod)) (r.(m_macRitDataWaitDuration)) (r.(m_macRitTxWaitDuration)) (r.(m_macRitRequestPayload)) (r.(m_macRitPeriodTime)) (r.(m_macRitDataWaitDurationTime)) (r.(m_macRitTxWaitDurationTime)) (r.(m_ritMacMode)) (r.(m_ritDataWaitTimeout)) (r.(m_ritTxWaitTimeout)) (r.(m_periodicRitDataRequestEvent)) (r.(m_mlmeRitRequestIndicationCallback)) (r.(m_lastRxRitReqFrameSrcAddr)) (r.(m_moduleConfig)) (r.(m_lastDataTxStartTime)).
Definition set_m_useTimeBasedRitParams (v : bool) (r : RitWpanMac) : RitWpanMac :=
  mkRitWpanMac (r.(base)) (r.(m_rxAlwaysOn)) (r.(m_continuousRxEnabled)) v (r.(m_ritSending)) (r.(m_macRitPeriod)) (r.(m_macRitDataWaitDuration)) (r.(m_macRitTxWaitDuration)) (r.(m_macRitRequestPayload)) (r.(m_macRitPeriodTime)) (r.(m_macRitDataWaitDurationTime)) (r.(m_macRitTxWaitDurationTime)) (r.(m_ritMacMode)) (r.(m_ritDataWaitTimeout)) (r.(m_ritTxWaitTimeout)) (r.(m_periodicRitDataRequestEvent)) (r.(m_mlmeRitRequestIndicationCallback)) (r.(m_lastRxRitReqFrameSrcAddr)) (r.(m_moduleConfig)) (r.(m_lastDataTxStartTime)).
Definition set_m_ritSending (v : bool) (r : RitWpanMac) : RitWpanMac :=
  mkRitWpanMac (r.(base)) (r.(m_rxAlwaysOn)) (r.(m_continuousRxEnabled)) (r.(m_useTimeBasedRitParams)) v (r.(m_macRitPeriod)) (r.(m_macRitDataWaitDuration)) (r.(m_macRitTxWaitDuration)) (r.(m_macRitRequestPayload)) (r.(m_macRitPeriodTime)) (r.(m_macRitDataWaitDurationTime)) (r.(m_macRitTxWaitDurationTime)) (r.(m_ritMacMode)) (r.(m_ritDataWaitTimeout)) (r.(m_ritTxWaitTimeout)) (r.(m_periodicRitDataRequestEvent)) (r.(m_mlmeRitRequestIndicationCallback)) (r.(m_lastRxRitReqFrameSrcAddr)) (r.(m_moduleConfig)) (r.(m_lastDataTxStartTime)).
Definition set_m_macRitPeriod (v : Z) (r : RitWpanMac) : RitWpanMac :=
  mkRitWpanMac (r.(base)) (r.(m_rxAlwaysOn)) (r.(m_continuousRxEnabled)) (r.(m_useTimeBasedRitParams)) (r.(m_ritSending)) v (r.(m_macRitDataWaitDuration)) (r.(m_macRitTxWaitDuration)) (r.(m_macRitRequestPayload)) (r.(m_macRitPeriodTime)) (r.(m_macRitDataWaitDurationTime)) (r.(m_macRitTxWaitDurationTime)) (r.(m_ritMacMode)) (r.(m_ritDataWaitTimeout)) (r.(m_ritTxWaitTimeout)) (r.(m_periodicRitDataRequestEvent)) (r.(m_mlmeRitRequestIndicationCallback)) (r.(m_lastRxRitReqFrameSrcAddr)) (r.(m_moduleConfig)) (r.(m_lastDataTxStartTime)).
Definition set_m_macRitDataWaitDuration (v : Z) (r : RitWpanMac) : RitWpanMac :=
  mkRitWpanMac (r.(base)) (r.(m_rxAlwaysOn)) (r.(m_continuousRxEnabled)) (r.(m_useTimeBasedRitParams)) (r.(m_ritSending)) (r.(m_macRitPeriod)) v (r.(m_macRitTxWaitDuration)) (r.(m_macRitRequestPayload)) (r.(m_macRitPeriodTime)) (r.(m_macRitDataWaitDurationTime)) (r.(m_macRitTxWaitDurationTime)) (r.(m_ritMacMode)) (r.(m_ritDataWaitTimeout)) (r.(m_ritTxWaitTimeout)) (r.(m_periodicRitDataRequestEvent)) (r.(m_mlmeRitRequestIndicationCallback)) (r.(m_lastRxRitReqFrameSrcAddr)) (r.(m_moduleConfig)) (r.(m_lastDataTxStartTime)).
Definition set_m_macRitTxWaitDuration (v : Z) (r : RitWpanMac) : RitWpanMac :=
  mkRitWpanMac (r.(base)) (r.(m_rxAlwaysOn)) (r.(m_continuousRxEnabled)) (r.(m_useTimeBasedRitParams)) (r.(m_ritSending)) (r.(m_macRitPeriod)) (r.(m_macRitDataWaitDuration)) v (r.(m_macRitRequestPayload)) (r.(m_macRitPeriodTime)) (r.(m_macRitDataWaitDurationTime)) (r.(m_macRitTxWaitDurationTime)) (r.(m_ritMacMode)) (r.(m_ritDataWaitTimeout)) (r.(m_ritTxWaitTimeout)) (r.(m_periodicRitDataRequestEvent)) (r.(m_mlmeRitRequestIndicationCallback)) (r.(m_lastRxRitReqFrameSrcAddr)) (r.(m_moduleConfig)) (r.(m_lastDataTxStartTime)).
Definition set_m_macRitRequestPayload (v : list Z) (r : RitWpanMac) : RitWpanMac :=
  mkRitWpanMac (r.(base)) (r.(m_rxAlwaysOn)) (r.(m_continuousRxEnabled)) (r.(m_useTimeBasedRitParams)) (r.(m_ritSending)) (r.(m_macRitPeriod)) (r.(m_macRitDataWaitDuration)) (r.(m_macRitTxWaitDuration)) v (r.(m_macRitPeriodTime)) (r.(m_macRitDataWaitDurationTime)) (r.(m_macRitTxWaitDurationTime)) (r.(m_ritMacMode)) (r.(m_ritDataWaitTimeout)) (r.(m_ritTxWaitTimeout)) (r.(m_periodicRitDataRequestEvent)) (r.(m_mlmeRitRequestIndicationCallback)) (r.(m_lastRxRitReqFrameSrcAddr)) (r.(m_moduleConfig)) (r.(m_lastDataTxStartTime)).
Definition set_m_macRitPeriodTime (v : Time) (r : RitWpanMac) : RitWpanMac :=
  mkRitWpanMac (r.(base)) (r.(m_rxAlwaysOn)) (r.(m_continuousRxEnabled)) (r.(m_useTimeBasedRitParams)) (r.(m_ritSending)) (r.(m_macRitPeriod)) (r.(m_macRitDataWaitDuration)) (r.(m_macRitTxWaitDuration)) (r.(m_macRitRequestPayload)) v (r.(m_macRitDataWaitDurationTime)) (r.(m_macRitTxWaitDurationTime)) (r.(m_ritMacMode)) (r.(m_ritDataWaitTimeout)) (r.(m_ritTxWaitTimeout)) (r.(m_periodicRitDataRequestEvent)) (r.(m_mlmeRitRequestIndicationCallback)) (r.(m_lastRxRitReqFrameSrcAddr)) (r.(m_moduleConfig)) (r.(m_lastDataTxStartTime)).
Definition set_m_macRitDataWaitDurationTime (v : Time) (r : RitWpanMac) : RitWpanMac :=
  mkRitWpanMac (r.(base)) (r.(m_rxAlwaysOn)) (r.(m_continuousRxEnabled)) (r.(m_useTimeBasedRitParams)) (r.(m_ritSending)) (r.(m_macRitPeriod)) (r.(m_macRitDataWaitDuration)) (r.(m_macRitTxWaitDuration)) (r.(m_macRitRequestPayload)) (r.(m_macRitPeriodTime)) v (r.(m_macRitTxWaitDurationTime)) (r.(m_ritMacMode)) (r.(m_ritDataWaitTimeout)) (r.(m_ritTxWaitTimeout)) (r.(m_periodicRitDataRequestEvent)) (r.(m_mlmeRitRequestIndicationCallback)) (r.(m_lastRxRitReqFrameSrcAddr)) (r.(m_moduleConfig)) (r.(m_lastDataTxStartTime)).
Definition set_m_macRitTxWaitDurationTime (v : Time) (r : RitWpanMac) : RitWpanMac :=
  mkRitWpanMac (r.(base)) (r.(m_rxAlwaysOn)) (r.(m_continuousRxEnabled)) (r.(m_useTimeBasedRitParams)) (r.(m_ritSending)) (r.(m_macRitPeriod)) (r.(m_macRitDataWaitDuration)) (r.(m_macRitTxWaitDuration)) (r.(m_macRitRequestPayload)) (r.(m_macRitPeriodTime)) (r.(m_macRitDataWaitDurationTime)) v (r.(m_ritMacMode)) (r.(m_ritDataWaitTimeout)) (r.(m_ritTxWaitTimeout)) (r.(m_periodicRitDataRequestEvent)) (r.(m_mlmeRitRequestIndicationCallback)) (r.(m_lastRxRitReqFrameSrcAddr)) (r.(m_moduleConfig)) (r.(m_lastDataTxStartTime)).
Definition set_m_ritMacMode (v : RitMacMode) (r : RitWpanMac) : RitWpanMac :=
  mkRitWpanMac (r.(base)) (r.(m_rxAlwaysOn)) (r.(m_continuousRxEnabled)) (r.(m_useTimeBasedRitParams)) (r.(m_ritSending)) (r.(m_macRitPeriod)) (r.(m_macRitDataWaitDuration)) (r.(m_macRitTxWaitDuration)) (r.(m_macRitRequestPayload)) (r.(m_macRitPeriodTime)) (r.(m_macRitDataWaitDurationTime)) (r.(m_macRitTxWaitDurationTime)) v (r.(m_ritDataWaitTimeout)) (r.(m_ritTxWaitTimeout)) (r.(m_periodicRitDataRequestEvent)) (r.(m_mlmeRitRequestIndicationCallback)) (r.(m_lastRxRitReqFrameSrcAddr)) (r.(m_moduleConfig)) (r.(m_lastDataTxStartTime)).
Definition set_m_ritDataWaitTimeout (v : EventId) (r : RitWpanMac) : RitWpanMac :=
  mkRitWpanMac (r.(base)) (r.(m_rxAlwaysOn)) (r.(m_continuousRxEnabled)) (r.(m_useTimeBasedRitParams)) (r.(m_ritSending)) (r.(m_macRitPeriod)) (r.(m_macRitDataWaitDuration)) (r.(m_macRitTxWaitDuration)) (r.(m_macRitRequestPayload)) (r.(m_macRitPeriodTime)) (r.(m_macRitDataWaitDurationTime)) (r.(m_macRitTxWaitDurationTime)) (r.(m_ritMacMode)) v (r.(m_ritTxWaitTimeout)) (r.(m_periodicRitDataRequestEvent)) (r.(m_mlmeRitRequestIndicationCallback)) (r.(m_lastRxRitReqFrameSrcAddr)) (r.(m_moduleConfig)) (r.(m_lastDataTxStartTime)).
Definition set_m_ritTxWaitTimeout (v : EventId) (r : RitWpanMac) : RitWpanMac :=
  mkRitWpanMac (r.(base)) (r.(m_rxAlwaysOn)) (r.(m_continuousRxEnabled)) (r.(m_useTimeBasedRitParams)) (r.(m_ritSending)) (r.(m_macRitPeriod)) (r.(m_macRitDataWaitDuration)) (r.(m_macRitTxWaitDuration)) (r.(m_macRitRequestPayload)) (r.(m_macRitPeriodTime)) (r.(m_macRitDataWaitDurationTime)) (r.(m_macRitTxWaitDurationTime)) (r.(m_ritMacMode)) (r.(m_ritDataWaitTimeout)) v (r.(m_periodicRitDataRequestEvent)) (r.(m_mlmeRitRequestIndicationCallback)) (r.(m_lastRxRitReqFrameSrcAddr)) (r.(m_moduleConfig)) (r.(m_lastDataTxStartTime)).
Definition set_m_periodicRitDataRequestEvent (v : EventId) (r : RitWpanMac) : RitWpanMac :=
  mkRitWpanMac (r.(base)) (r.(m_rxAlwaysOn)) (r.(m_continuousRxEnabled)) (r.(m_useTimeBasedRitParams)) (r.(m_ritSending)) (r.(m_macRitPeriod)) (r.(m_macRitDataWaitDuration)) (r.(m_macRitTxWaitDuration)) (r.(m_macRitRequestPayload)) (r.(m_macRitPeriodTime)) (r.(m_macRitDataWaitDurationTime)) (r.(m_macRitTxWaitDurationTime)) (r.(m_ritMacMode)) (r.(m_ritDataWaitTimeout)) (r.(m_ritTxWaitTimeout)) v (r.(m_mlmeRitRequestIndicationCallback)) (r.(m_lastRxRitReqFrameSrcAddr)) (r.(m_moduleConfig)) (r.(m_lastDataTxStartTime)).
Definition set_m_mlmeRitRequestIndicationCallback (v : bool) (r : RitWpanMac) : RitWpanMac :=
  mkRitWpanMac (r.(base)) (r.(m_rxAlwaysOn)) (r.(m_continuousRxEnabled)) (r.(m_useTimeBasedRitParams)) (r.(m_ritSending)) (r.(m_macRitPeriod)) (r.(m_macRitDataWaitDuration)) (r.(m_macRitTxWaitDuration)) (r.(m_macRitRequestPayload)) (r.(m_macRitPeriodTime)) (r.(m_macRitDataWaitDurationTime)) (r.(m_macRitTxWaitDurationTime)) (r.(m_ritMacMode)) (r.(m_ritDataWaitTimeout)) (r.(m_ritTxWaitTimeout)) (r.(m_periodicRitDataRequestEvent)) v (r.(m_lastRxRitReqFrameSrcAddr)) (r.(m_moduleConfig)) (r.(m_lastDataTxStartTime)).
Definition set_m_lastRxRitReqFrameSrcAddr (v : Mac16Address) (r : RitWpanMac) : RitWpanMac :=
  mkRitWpanMac (r.(base)) (r.(m_rxAlwaysOn)) (r.(m_continuousRxEnabled)) (r.(m_useTimeBasedRitParams)) (r.(m_ritSending)) (r.(m_macRitPeriod)) (r.(m_macRitDataWaitDuration)) (r.(m_macRitTxWaitDuration)) (r.(m_macRitRequestPayload)) (r.(m_macRitPeriodTime)) (r.(m_macRitDataWaitDurationTime)) (r.(m_macRitTxWaitDurationTime)) (r.(m_ritMacMode)) (r.(m_ritDataWaitTimeout)) (r.(m_ritTxWaitTimeout)) (r.(m_periodicRitDataRequestEvent)) (r.(m_mlmeRitRequestIndicationCallback)) v (r.(m_moduleConfig)) (r.(m_lastDataTxStartTime)).
Definition set_m_moduleConfig (v : RitWpanMacModuleConfig) (r : RitWpanMac) : RitWpanMac :=
  mkRitWpanMac (r.(base)) (r.(m_rxAlwaysOn)) (r.(m_continuousRxEnabled)) (r.(m_useTimeBasedRitParams)) (r.(m_ritSending)) (r.(m_macRitPeriod)) (r.(m_macRitDataWaitDuration)) (r.(m_macRitTxWaitDuration)) (r.(m_macRitRequestPayload)) (r.(m_macRitPeriodTime)) (r.(m_macRitDataWaitDurationTime)) (r.(m_macRitTxWaitDurationTime)) (r.(m_ritMacMode)) (r.(m_ritDataWaitTimeout)) (r.(m_ritTxWaitTimeout)) (r.(m_periodicRitDataRequestEvent)) (r.(m_mlmeRitRequestIndicationCallback)) (r.(m_lastRxRitReqFrameSrcAddr)) v (r.(m_lastDataTxStartTime)).
Definition set_m_lastDataTxStartTime (v : Time) (r : RitWpanMac) : RitWpanMac :=
  mkRitWpanMac (r.(base)) (r.(m_rxAlwaysOn)) (r.(m_continuousRxEnabled)) (r.(m_useTimeBasedRitParams)) (r.(m_ritSending)) (r.(m_macRitPeriod)) (r.(m_macRitDataWaitDuration)) (r.(m_macRitTxWaitDuration)) (r.(m_macRitRequestPayload)) (r.(m_macRitPeriodTime)) (r.(m_macRitDataWaitDurationTime)) (r.(m_macRitTxWaitDurationTime)) (r.(m_ritMacMode)) (r.(m_ritDataWaitTimeout)) (r.(m_ritTxWaitTimeout)) (r.(m_periodicRitDataRequestEvent)) (r.(m_mlmeRitRequestIndicationCallback)) (r.(m_lastRxRitReqFrameSrcAddr)) (r.(m_moduleConfig)) v.

(** The MAC in the simulator: the object, [Simulator::Now ()], the events
    that stayed queued when the [EventId] naming them was overwritten, the
    log of what left the MAC, and the number of values drawn from the
    random variables so far. *)
Record World : Type := mkWorld {
  self : RitWpanMac;
  now : Time;
  orphans : list EventImpl;
  out : list Action;
  draws : nat
}.

Definition set_self (v : RitWpanMac) (r : World) : World :=
  mkWorld v (r.(now)) (r.(orphans)) (r.(out)) (r.(draws)).
Definition set_now (v : Time) (r : World) : World :=
  mkWorld (r.(self)) v (r.(orphans)) (r.(out)) (r.(draws)).
Definition set_orphans (v : list EventImpl) (r : World) : World :=
  mkWorld (r.(self)) (r.(now)) v (r.(out)) (r.(draws)).
Definition set_out (v : list Action) (r : World) : World :=
  mkWorld (r.(self)) (r.(now)) (r.(orphans)) v (r.(draws)).
Definition set_draws (v : nat) (r : World) : World :=
  mkWorld (r.(self)) (r.(now)) (r.(orphans)) (r.(out)) v.


(** ** What the model takes from ns-3 and from the base MAC *)

(** Functions and constants of the ns-3 libraries that the sources call
    and that are not part of [rit-wpan/model]. Random variables are
    functions of the number of draws made so far. Doubles are rationals:
    the only double arithmetic the model performs itself (in
    [TimeDriftApplier::ApplyByRatio]) is exact. *)
Class Ns3 : Type := {
  (* NS_ASSERT is compiled in (debug and default build profiles) *)
  NS3_ASSERT_ENABLE : bool;
  Node_ChecksumEnabled : bool;
  aMaxPhyPacketSize : Z;
  aMinMPDUOverhead : Z;
  aBaseSuperframeDuration : Z;
  (* Time::IsPositive () *)
  Time_IsPositive : Time -> bool;
  Mac16_IsMulticast : Mac16Address -> bool;
  PacketHeader_GetSerializedSize : PacketHeader -> Z;
  (* the octets of the attached LrWpanMacTrailer *)
  Packet_trailerOctets : Packet -> list Z;
  (* Seconds (static_cast<double> (symbols) / m_phy->GetDataOrSymbolRate (false)) *)
  SymbolsToTime : Z -> Time;
  (* Seconds (GetMacAckWaitDuration () / m_phy->GetDataOrSymbolRate (false)) *)
  AckWaitTime : Time;
  CsmaCa_IsUnSlottedCsmaCa : bool;
  (* UniformRandomVariable::GetValue with bounds Min and Max *)
  UniformRandomVariable_GetValue : nat -> Q -> Q -> Q;
  (* Seconds (double) and MilliSeconds (double) *)
  Seconds_of_double : Q -> Time;
  MilliSeconds_of_double : Q -> Time;
  (* ClockDriftApplier::Apply, which draws its noise *)
  ClockDriftApplier_Apply : nat -> Time -> Time
}.

(** The result of a call into the base class [LrWpanMac]: its members
    after the call, what it did to its surroundings, and the events whose
    [EventId] it overwrote while they were pending. *)
Record BaseResult : Type := mkBaseResult {
  br_mac : LrWpanMac;
  br_out : list Action;
  br_orphans : list EventImpl
}.

(** A member function of [LrWpanMac], given the current virtual time. The
    base class cannot name the private members of [RitWpanMac]: a base
    call is a function of the base members alone. *)
Definition BaseOp := Time -> LrWpanMac -> BaseResult.

(** The member functions of [LrWpanMac] that [RitWpanMac] calls. *)
Class LrWpanMacOps : Type := {
  LrWpanMac_McpsDataRequest : McpsDataRequestParams -> Packet -> BaseOp;
  LrWpanMac_PdDataIndication : Z -> Packet -> Z -> BaseOp;
  LrWpanMac_PdDataConfirm : PhyEnumeration -> BaseOp;
  LrWpanMac_PlmeSetTRXStateConfirm : PhyEnumeration -> BaseOp;
  LrWpanMac_MlmeSetRequest : MacPibAttributeIdentifier -> MacPibAttributes -> BaseOp;
  LrWpanMac_MlmeGetRequest : MacPibAttributeIdentifier -> BaseOp;
  LrWpanMac_IfsWaitTimeout : Time -> BaseOp;
  LrWpanMac_SetLrWpanMacState : MacState -> BaseOp;
  LrWpanMac_AckWaitTimeout : BaseOp;
  LrWpanMac_DoInitialize : BaseOp;
  LrWpanMac_DoDispose : BaseOp;
  LrWpanMac_SendAck : Z -> BaseOp;
  EnqueueTxQElement : TxQueueElement -> BaseOp;
  RemoveFirstTxQElement : BaseOp;
  CheckQueue : BaseOp;
  PrepareRetransmission : BaseOp;
  SetRxOnWhenIdle : bool -> BaseOp
}.

(** ** The state monad of a call *)

Definition M (A : Type) : Type := World -> Outcome (A * World).

Definition ret {A} (a : A) : M A := fun w => Ok (a, w).

Definition bind {A B} (m : M A) (k : A -> M B) : M B :=
  fun w => match m w with
           | Ok (a, w') => k a w'
           | Stop why => Stop why
           end.

Notation "x <- c ;; k" := (bind c (fun x => k))
  (at level 100, c at next level, right associativity).
Notation "c ;; k" := (bind c (fun _ => k))
  (at level 100, right associativity).

Definition gets {A} (f : World -> A) : M A := fun w => Ok (f w, w).
Definition modify (f : World -> World) : M unit := fun w => Ok (tt, f w).
Definition stop {A} (why : StopReason) : M A := fun _ => Stop why.
Definition emit (a : Action) : M unit := modify (fun w => set_out (out w ++ [a]) w).
Definition when (c : bool) (m : M unit) : M unit := if c then m else ret tt.

(** The world after a call, when the call returns. *)
Definition exec {A} (m : M A) (w : World) : Outcome World :=
  match m w with
  | Ok (_, w') => Ok w'
  | Stop why => Stop why
  end.

Definition upd_self (f : RitWpanMac -> RitWpanMac) (w : World) : World :=
  set_self (f (self w)) w.
Definition upd_base (f : LrWpanMac -> LrWpanMac) (w : World) : World :=
  upd_self (fun m => set_base (f (base m)) m) w.

Definition getm {A} (f : RitWpanMac -> A) : M A := gets (fun w => f (self w)).
Definition getb {A} (f : LrWpanMac -> A) : M A := gets (fun w => f (base (self w))).
Definition setm (f : RitWpanMac -> RitWpanMac) : M unit := modify (upd_self f).
Definition setb (f : LrWpanMac -> LrWpanMac) : M unit := modify (upd_base f).

(** Dereferencing a null [Ptr], or [front ()] of an empty queue. *)
Definition undefined {A} (what : string) : M A := stop (Undefined what).

Definition deref {A} (what : string) (o : option A) : M A :=
  match o with
  | Some a => ret a
  | None => undefined what
  end.

Section WithNs3.
Context {ns3 : Ns3}.

Definition NS_ASSERT (what : string) (c : bool) : M unit :=
  if NS3_ASSERT_ENABLE && negb c then stop (AssertFailed what) else ret tt.

Definition NS_ABORT_MSG_IF (c : bool) (what : string) : M unit :=
  if c then stop (AbortMsg what) else ret tt.

(** A call into the base class. *)
Definition callBase (op : BaseOp) : M unit :=
  fun w =>
    let r := op (now w) (base (self w)) in
    Ok (tt, set_orphans (orphans w ++ br_orphans r)
              (set_out (out w ++ br_out r)
                 (upd_base (fun _ => br_mac r) w))).

(** [p->GetSize ()]. *)
Definition Packet_GetSize (p : Packet) : Z :=
  fold_right Z.add 0 (map PacketHeader_GetSerializedSize (pkt_headers p))
  + Z.of_nat (length (pkt_data p))
  + (if pkt_trailer p then 2 else 0).

(** [LrWpanMacTrailer::CheckFcs]: always true when the FCS is not enabled. *)
Definition CheckFcs (p : Packet) : bool :=
  negb Node_ChecksumEnabled || pkt_fcsGood p.

(** *** The simulator's side of an [EventId] member *)

Record EventField : Type := mkEventField {
  ef_get : World -> EventId;
  ef_set : EventId -> World -> World
}.

Definition f_ritDataWaitTimeout : EventField :=
  mkEventField (fun w => m_ritDataWaitTimeout (self w))
               (fun e => upd_self (set_m_ritDataWaitTimeout e)).
Definition f_ritTxWaitTimeout : EventField :=
  mkEventField (fun w => m_ritTxWaitTimeout (self w))
               (fun e => upd_self (set_m_ritTxWaitTimeout e)).
Definition f_periodicRitDataRequestEvent : EventField :=
  mkEventField (fun w => m_periodicRitDataRequestEvent (self w))
               (fun e => upd_self (set_m_periodicRitDataRequestEvent e)).
Definition f_setMacState : EventField :=
  mkEventField (fun w => m_setMacState (base (self w)))
               (fun e => upd_base (set_m_setMacState e)).
Definition f_ackWaitTimeout : EventField :=
  mkEventField (fun w => m_ackWaitTimeout (base (self w)))
               (fun e => upd_base (set_m_ackWaitTimeout e)).
Definition f_ifsEvent : EventField :=
  mkEventField (fun w => m_ifsEvent (base (self w)))
               (fun e => upd_base (set_m_ifsEvent e)).

(** [m_x.Cancel ()]. *)
Definition Cancel (f : EventField) : M unit := modify (ef_set f None).

(** [m_x = Simulator::Schedule (delay, handler)]: the event scheduled
    before stays queued when it is still pending. *)
Definition Schedule (f : EventField) (delay : Time) (h : Handler) : M unit :=
  old <- gets (ef_get f);;
  t <- gets now;;
  modify (fun w => set_orphans (orphans w ++ match old with Some e => [e] | None => [] end) w);;
  modify (ef_set f (Some (mkEvent (t + delay) h))).

Definition ScheduleNow (f : EventField) (h : Handler) : M unit := Schedule f 0 h.

(** A draw from a random variable. *)
Definition draw {A} (f : nat -> A) : M A :=
  n <- gets draws;;
  modify (set_draws (S n));;
  ret (f n).

End WithNs3.

(** ** [TimeDriftApplier] ([time-drift-applier.cc]) *)

Module TimeDriftApplier.
Section WithNs3.
Context {ns3 : Ns3}.

(** [Time::GetMilliSeconds]: integer division of the nanosecond count. *)
Definition GetMilliSeconds (t : Time) : Z := Z.quot t 1000000.

(** [Time::GetSeconds], as a double. *)
Definition GetSeconds (t : Time) : Q := inject_Z t / inject_Z 1000000000.

(** The bounds handed to the random variable. [inputTimeMs] is an integer
    below 2^53 in magnitude and [driftRatio] is 50 at the only call, so
    the products and quotients below are exact in double precision. *)
Definition minDrift (inputTime : Time) (driftRatio : Q) : Q :=
  (- inject_Z (GetMilliSeconds inputTime) * driftRatio / 100)%Q.
Definition maxDrift (inputTime : Time) (driftRatio : Q) : Q :=
  (inject_Z (GetMilliSeconds inputTime) * driftRatio / 100)%Q.

(** [TimeDriftApplier::ApplyByRatio (inputTime, driftRatio)]. *)
Definition ApplyByRatio (inputTime : Time) (driftRatio : Q) : M Time :=
  NS_ABORT_MSG_IF (if Qlt_le_dec driftRatio 0 then true else false)
    "driftRatio must be >= 0";;
  NS_ABORT_MSG_IF (if Qlt_le_dec 100 driftRatio then true else false)
    "driftRatio must be <= 100";;
  randomDelay <- draw (fun n => UniformRandomVariable_GetValue n
                                  (minDrift inputTime driftRatio)
                                  (maxDrift inputTime driftRatio));;
  ret (inputTime + MilliSeconds_of_double randomDelay).

End WithNs3.
End TimeDriftApplier.

(** ** [RitWpanMac] ([rit-wpan-mac.cc]) *)

Module Mac.
Section WithNs3.
Context {ns3 : Ns3} {ops : LrWpanMacOps}.

(** [LrWpanMac::ChangeMacState]: the state logger sees the old and the
    new state. *)
Definition ChangeMacState (newState : MacState) : M unit :=
  old <- getb m_macState;;
  emit (MacStateLogger old newState);;
  setb (set_m_macState newState).

Definition ChangeRitMacMode (newMode : RitMacMode) : M unit :=
  cur <- getm m_ritMacMode;;
  if RitMacMode_eqb cur newMode then ret tt
  else setm (set_m_ritMacMode newMode).

Definition IsRitModeEnabled (m : RitWpanMac) : bool :=
  if m_useTimeBasedRitParams m
  then Time_IsPositive (m_macRitPeriodTime m)
  else 0 <? m_macRitPeriod m.

Definition DurationToTime (duration : Z) : M Time :=
  tb <- getm m_useTimeBasedRitParams;;
  NS_ASSERT "!m_useTimeBasedRitParams" (negb tb);;
  ret (SymbolsToTime ((duration * aBaseSuperframeDuration) mod 2 ^ 64)).

Definition GetRitPeriodTime : M Time :=
  m <- gets self;;
  if m_useTimeBasedRitParams m then ret (m_macRitPeriodTime m)
  else DurationToTime (m_macRitPeriod m).

Definition GetRitDataWaitDurationTime : M Time :=
  m <- gets self;;
  if m_useTimeBasedRitParams m then ret (m_macRitDataWaitDurationTime m)
  else DurationToTime (m_macRitDataWaitDuration m).

Definition GetRitTxWaitDurationTime : M Time :=
  m <- gets self;;
  if m_useTimeBasedRitParams m then ret (m_macRitTxWaitDurationTime m)
  else DurationToTime (m_macRitTxWaitDuration m).

(** [MilliSeconds (10)]. *)
Definition GetContinuousTxTimeoutTime : Time := 10 * 1000000.

Definition SetSleep : M unit :=
  m <- gets self;;
  NS_ASSERT "IsRitModeEnabled()" (IsRitModeEnabled m);;
  NS_ASSERT "m_ritDataWaitTimeout.IsExpired() && m_ritTxWaitTimeout.IsExpired()"
    (IsExpired (m_ritDataWaitTimeout m) && IsExpired (m_ritTxWaitTimeout m));;
  ChangeMacState MAC_IDLE;;
  if m_rxAlwaysOn m then ret tt
  else
    ChangeRitMacMode SLEEP_MODE;;
    emit (PlmeSetTRXStateRequest IEEE_802_15_4_PHY_FORCE_TRX_OFF);;
    callBase (SetRxOnWhenIdle false).

Definition EndReceiverCycle : M unit :=
  m <- gets self;;
  NS_ASSERT "IsRitModeEnabled()" (IsRitModeEnabled m);;
  NS_ASSERT "m_ritMacMode == RECEIVER_MODE" (RitMacMode_eqb (m_ritMacMode m) RECEIVER_MODE);;
  when (IsPending (m_ritDataWaitTimeout m)) (Cancel f_ritDataWaitTimeout);;
  SetSleep.

Definition EndSenderCycle : M unit :=
  m <- gets self;;
  NS_ASSERT "IsRitModeEnabled()" (IsRitModeEnabled m);;
  NS_ASSERT "m_ritMacMode == SENDER_MODE" (RitMacMode_eqb (m_ritMacMode m) SENDER_MODE);;
  when (negb (IsExpired (m_ritTxWaitTimeout m))) (Cancel f_ritTxWaitTimeout);;
  setm (set_m_ritSending false);;
  SetSleep.

(** [m_txQueue.front ()->txQMsduHandle]. *)
Definition frontMsduHandle : M Z :=
  q <- getb m_txQueue;;
  e <- deref "m_txQueue.front()" (head q);;
  ret (txQMsduHandle e).

(** [if (!m_mcpsDataConfirmCallback.IsNull ()) m_mcpsDataConfirmCallback (params)]. *)
Definition confirm (handle : Z) (status : MacStatus) : M unit :=
  set <- getb m_mcpsDataConfirmCallback;;
  when set (emit (McpsDataConfirmCallback (mkMcpsDataConfirmParams handle status))).

Definition SetLrWpanMacState (macState : MacState) : M unit :=
  m <- gets self;;
  if negb (IsRitModeEnabled m) then callBase (LrWpanMac_SetLrWpanMacState macState)
  else if MacState_eqb (m_macState (base m)) MAC_CSMA
          && MacState_eqb macState CHANNEL_ACCESS_FAILURE
  then
    NS_ASSERT "m_txPkt" (match m_txPkt (base m) with Some _ => true | None => false end);;
    emit (MacTxDropTrace (m_txPkt (base m)));;
    pkt <- deref "m_txPkt->Copy()" (m_txPkt (base m));;
    let (macHdr, pkt1) := Packet_RemoveMacHeader pkt in
    if IsData macHdr then
      set <- getb m_mcpsDataConfirmCallback;;
      (if set then
         h <- frontMsduHandle;;
         emit (McpsDataConfirmCallback (mkMcpsDataConfirmParams h CHANNEL_ACCESS_FAILURE_STATUS))
       else ret tt);;
      callBase RemoveFirstTxQElement;;
      EndSenderCycle
    else if IsCommand macHdr then
      match fst (Packet_RemoveCommandHeader pkt1) with
      | RIT_DATA_REQ => EndReceiverCycle
      | RIT_DATA_RES => ret tt
      | CMD_OTHER _ => ret tt
      end
    else ret tt
  else callBase (LrWpanMac_SetLrWpanMacState macState).

Definition StartRitDataWaitPeriod : M unit :=
  m <- gets self;;
  NS_ASSERT "IsRitModeEnabled() && m_ritMacMode == RECEIVER_MODE"
    (IsRitModeEnabled m && RitMacMode_eqb (m_ritMacMode m) RECEIVER_MODE);;
  callBase (SetRxOnWhenIdle true);;
  SetLrWpanMacState MAC_IDLE;;
  m <- gets self;;
  let hasValidWait :=
    (m_useTimeBasedRitParams m && (0 <? m_macRitDataWaitDurationTime m))
    || (negb (m_useTimeBasedRitParams m) && (0 <? m_macRitDataWaitDuration m)) in
  if negb hasValidWait then ret tt
  else
    dataWaitTime <- GetRitDataWaitDurationTime;;
    e <- getm m_ritDataWaitTimeout;;
    NS_ASSERT "m_ritDataWaitTimeout.IsExpired()" (IsExpired e);;
    Schedule f_ritDataWaitTimeout dataWaitTime H_ReceiverCycleTimeout.

Definition StartRitTxWaitPeriod : M unit :=
  m <- gets self;;
  NS_ASSERT "IsRitModeEnabled() && m_ritMacMode == SENDER_MODE"
    (IsRitModeEnabled m && RitMacMode_eqb (m_ritMacMode m) SENDER_MODE);;
  t <- gets now;;
  emit (BeaconWaitTrace "start" t);;
  callBase (SetRxOnWhenIdle true);;
  SetLrWpanMacState MAC_IDLE;;
  m <- gets self;;
  let hasValidWait :=
    (m_useTimeBasedRitParams m && (0 <? m_macRitTxWaitDurationTime m))
    || (negb (m_useTimeBasedRitParams m) && (0 <? m_macRitTxWaitDuration m)) in
  if negb hasValidWait then ret tt
  else
    txWaitTime <- GetRitTxWaitDurationTime;;
    e <- getm m_ritTxWaitTimeout;;
    NS_ASSERT "m_ritTxWaitTimeout.IsExpired()" (IsExpired e);;
    Schedule f_ritTxWaitTimeout txWaitTime H_SenderCycleTimeout.

Definition CheckTxAndStartSender : M bool :=
  m <- gets self;;
  NS_ASSERT "IsRitModeEnabled()" (IsRitModeEnabled m);;
  match m_txQueue (base m) with
  | [] => ret false
  | _ :: _ =>
    NS_ASSERT "m_ritMacMode != SENDER_MODE" (negb (RitMacMode_eqb (m_ritMacMode m) SENDER_MODE));;
    ChangeRitMacMode SENDER_MODE;;
    StartRitTxWaitPeriod;;
    ret true
  end.

Definition SenderCycleTimeout : M unit :=
  m <- gets self;;
  NS_ASSERT "IsRitModeEnabled() && m_ritMacMode == SENDER_MODE"
    (IsRitModeEnabled m && RitMacMode_eqb (m_ritMacMode m) SENDER_MODE);;
  t <- gets now;;
  emit (BeaconWaitTrace "timeout" t);;
  EndSenderCycle.

Definition ReceiverCycleTimeout : M unit :=
  m <- gets self;;
  NS_ASSERT "IsRitModeEnabled() && m_ritMacMode == RECEIVER_MODE"
    (IsRitModeEnabled m && RitMacMode_eqb (m_ritMacMode m) RECEIVER_MODE);;
  t <- gets now;;
  emit (DataWaitTrace "timeout" t);;
  EndReceiverCycle.

Definition AckWaitTimeout : M unit :=
  m <- gets self;;
  if negb (IsRitModeEnabled m) then callBase LrWpanMac_AckWaitTimeout
  else if negb (RitMacMode_eqb (m_ritMacMode m) SENDER_MODE) then ret tt
  else
    setm (set_m_ritSending false);;
    callBase LrWpanMac_AckWaitTimeout;;
    EndSenderCycle.

Definition StartRitCycle : M unit :=
  m <- gets self;;
  NS_ASSERT "IsRitModeEnabled()" (IsRitModeEnabled m);;
  period <- GetRitPeriodTime;;
  dataWait <- GetRitDataWaitDurationTime;;
  NS_ASSERT "period >= dataWait" (dataWait <=? period);;
  if negb (MacState_eqb (m_macState (base m)) MAC_IDLE) then ret tt
  else
    NS_ASSERT "!m_periodicRitDataRequestEvent.IsPending()"
      (negb (IsPending (m_periodicRitDataRequestEvent m)));;
    ChangeRitMacMode SLEEP_MODE;;
    callBase (SetRxOnWhenIdle false);;
    delaySec <- draw (fun n => UniformRandomVariable_GetValue n 0
                                 (TimeDriftApplier.GetSeconds period));;
    Schedule f_periodicRitDataRequestEvent (Seconds_of_double delaySec)
      H_PeriodicRitDataRequest.

Definition StopRitCycle : M unit :=
  m <- gets self;;
  NS_ASSERT "IsRitModeEnabled()" (IsRitModeEnabled m);;
  Cancel f_periodicRitDataRequestEvent;;
  Cancel f_ritDataWaitTimeout;;
  Cancel f_ritTxWaitTimeout;;
  ChangeRitMacMode RIT_MODE_DISABLED;;
  SetLrWpanMacState MAC_IDLE.

(** [m_txQueue.front ()->txQPkt = pkt]. *)
Definition set_front_txQPkt (pkt : Packet) (q : list TxQueueElement) : list TxQueueElement :=
  match q with
  | e :: rest => mkTxQueueElement (txQMsduHandle e) pkt :: rest
  | [] => []
  end.

(** [macTrailer.SetFcs (p)] when the checksum is enabled, then
    [p->AddTrailer (macTrailer)]. *)
Definition addTrailer (p : Packet) : Packet := Packet_AddTrailer p.

Definition DoSendRitDataRequest : M unit :=
  m <- gets self;;
  NS_ASSERT "IsRitModeEnabled()" (IsRitModeEnabled m);;
  NS_ASSERT "m_macState == MAC_IDLE" (MacState_eqb (m_macState (base m)) MAC_IDLE);;
  let ritDataRequestPacket := Packet_Create (m_macRitRequestPayload m) in
  let macHdr := newMacHeader LRWPAN_MAC_COMMAND (m_macDsn (base m)) in
  setb (set_m_macDsn (wrap8 (m_macDsn (base m) + 1)));;
  let macHdr := set_m_fctrlFrmVer 1 macHdr in
  let cfg := m_moduleConfig m in
  let macHdr :=
    if compactRitDataRequestEnabled cfg then
      set_m_fctrlSecU false
        (set_m_fctrlPanIdComp true
           (set_m_fctrlDstAddrMode NO_PANID_ADDR
              (SetSrcAddrFields (m_macPanId (base m)) (m_shortAddress (base m))
                 (set_m_fctrlSrcAddrMode SHORT_ADDR macHdr))))
    else
      set_m_fctrlSecU false
        (set_m_fctrlPanIdComp false
           (SetDstAddrFields (m_macPanId (base m)) Mac16_broadcast
              (set_m_fctrlDstAddrMode SHORT_ADDR
                 (SetSrcAddrFields (m_macPanId (base m)) (m_shortAddress (base m))
                    (set_m_fctrlSrcAddrMode SHORT_ADDR macHdr))))) in
  let macHdr := set_m_fctrlAckReq false macHdr in
  let ritDataRequestPacket :=
    addTrailer (Packet_AddHeader (PH_Mac macHdr)
                  (Packet_AddHeader (PH_Command RIT_DATA_REQ) ritDataRequestPacket)) in
  if beaconCsmaEnabled cfg || beaconPreCsEnabled cfg || beaconPreCsBEnabled cfg then
    b <- gets (fun w => base (self w));;
    if MacState_eqb (m_macState b) MAC_IDLE && negb (IsPending (m_setMacState b)) then
      NS_ASSERT "m_csmaCa->IsUnSlottedCsmaCa()" CsmaCa_IsUnSlottedCsmaCa;;
      if negb (IsPending (m_ifsEvent b)) then
        setb (set_m_txPkt (Some ritDataRequestPacket));;
        ScheduleNow f_setMacState (H_SetLrWpanMacState MAC_CSMA)
      else ret tt
    else ret tt
  else
    setb (set_m_txPkt (Some ritDataRequestPacket));;
    ChangeMacState MAC_SENDING;;
    emit (PlmeSetTRXStateRequest IEEE_802_15_4_PHY_TX_ON).

Definition DoSendRitBeaconAck : M unit :=
  m <- gets self;;
  NS_ASSERT "IsRitModeEnabled()" (IsRitModeEnabled m);;
  NS_ASSERT "m_macState == MAC_IDLE" (MacState_eqb (m_macState (base m)) MAC_IDLE);;
  let macHdr := newMacHeader LRWPAN_MAC_MULTIPURPOSE (m_macDsn (base m)) in
  setb (set_m_macDsn (wrap8 (m_macDsn (base m) + 1)));;
  let macHdr :=
    set_m_fctrlAckReq false
      (set_m_fctrlSecU false
         (set_m_fctrlPanIdComp true
            (SetDstAddrFields (m_macPanId (base m)) (m_lastRxRitReqFrameSrcAddr m)
               (set_m_fctrlDstAddrMode SHORT_ADDR
                  (set_m_fctrlSrcAddrMode NO_PANID_ADDR
                     (set_m_fctrlFrmVer 1 macHdr)))))) in
  let ritBeaconAckPacket := addTrailer (Packet_AddHeader (PH_Mac macHdr) (Packet_Create [])) in
  setb (set_m_txPkt (Some ritBeaconAckPacket));;
  ChangeMacState MAC_SENDING;;
  emit (PlmeSetTRXStateRequest IEEE_802_15_4_PHY_TX_ON).

Definition DoSendRitData : M unit :=
  m <- gets self;;
  NS_ASSERT "IsRitModeEnabled() && m_ritMacMode == SENDER_MODE"
    (IsRitModeEnabled m && RitMacMode_eqb (m_ritMacMode m) SENDER_MODE);;
  NS_ASSERT "m_txQueue.size() > 0"
    (match m_txQueue (base m) with [] => false | _ => true end);;
  txQElement <- deref "m_txQueue.front()" (head (m_txQueue (base m)));;
  let (macHdr, pkt) := Packet_RemoveMacHeader (txQPkt txQElement) in
  let macHdr := SetDstAddrFields (m_macPanId (base m)) (m_lastRxRitReqFrameSrcAddr m)
                  (set_m_fctrlDstAddrMode SHORT_ADDR macHdr) in
  let pkt := Packet_AddHeader (PH_Mac macHdr) pkt in
  setb (fun b => set_m_txQueue (set_front_txQPkt pkt (m_txQueue b)) b);;
  let cfg := m_moduleConfig m in
  if dataCsmaEnabled cfg || dataPreCsEnabled cfg || dataPreCsBEnabled cfg then
    NS_ASSERT "!(dataCsmaEnabled && dataPreCsEnabled)"
      (negb (dataCsmaEnabled cfg && dataPreCsEnabled cfg));;
    callBase CheckQueue
  else
    setb (set_m_txPkt (Some pkt));;
    ChangeMacState MAC_SENDING;;
    emit (PlmeSetTRXStateRequest IEEE_802_15_4_PHY_TX_ON).

Definition SendRitData : M unit :=
  m <- gets self;;
  NS_ASSERT "IsRitModeEnabled() && m_ritMacMode == SENDER_MODE"
    (IsRitModeEnabled m && RitMacMode_eqb (m_ritMacMode m) SENDER_MODE);;
  NS_ASSERT "m_txQueue.size() > 0"
    (match m_txQueue (base m) with [] => false | _ => true end);;
  t <- gets now;;
  if MacState_eqb (m_macState (base m)) MAC_IDLE then
    emit (BeaconWaitTrace "end" t);;
    setm (set_m_ritSending true);;
    if beaconAckEnabled (m_moduleConfig m) then DoSendRitBeaconAck
    else DoSendRitData
  else emit (BeaconWaitTrace "skip" t).

Definition PeriodicRitDataRequest : M unit :=
  m <- gets self;;
  NS_ASSERT "IsRitModeEnabled()" (IsRitModeEnabled m);;
  NS_ASSERT "!m_periodicRitDataRequestEvent.IsPending()"
    (negb (IsPending (m_periodicRitDataRequestEvent m)));;
  ritPeriodTime <- GetRitPeriodTime;;
  ritPeriodTime <- draw (fun n => ClockDriftApplier_Apply n ritPeriodTime);;
  ritPeriodTime <-
    (if beaconRandomizeEnabled (m_moduleConfig m)
     then TimeDriftApplier.ApplyByRatio ritPeriodTime 50
     else ret ritPeriodTime);;
  Schedule f_periodicRitDataRequestEvent ritPeriodTime H_PeriodicRitDataRequest;;
  if RitMacMode_eqb (m_ritMacMode m) SENDER_MODE then ret tt
  else
    started <- CheckTxAndStartSender;;
    if started then ret tt
    else
      ChangeRitMacMode RECEIVER_MODE;;
      DoSendRitDataRequest.

(** [Simulator::Now ().GetMicroSeconds () / 16], stored in a [uint32_t]. *)
Definition symbolTimestamp (t : Time) : Z := (Z.quot (Z.quot t 1000) 16) mod 2 ^ 32.

Definition ReceiveCommand (lqi : Z) (p : Packet) : M unit :=
  let (receivedMacHdr, p1) := Packet_RemoveMacHeader p in
  match Packet_PeekCommandHeader p1 with
  | RIT_DATA_REQ =>
    m <- gets self;;
    match m_ritMacMode m with
    | SENDER_MODE =>
      if m_ritSending m then ret tt
      else
        Cancel f_ritTxWaitTimeout;;
        let p2 := snd (Packet_RemoveCommandHeader p1) in
        setm (set_m_lastRxRitReqFrameSrcAddr (m_addrShortSrcAddr receivedMacHdr));;
        t <- gets now;;
        let ritReqParams :=
          mkMlmeRitRequestIndicationParams
            (m_fctrlSrcAddrMode receivedMacHdr) (m_addrSrcPanId receivedMacHdr)
            (m_addrShortSrcAddr receivedMacHdr) (m_addrExtSrcAddr receivedMacHdr)
            (m_fctrlDstAddrMode receivedMacHdr) (m_addrDstPanId receivedMacHdr)
            (m_addrShortDstAddr receivedMacHdr) (m_addrExtDstAddr receivedMacHdr)
            (pkt_data p2 ++ (if pkt_trailer p2 then Packet_trailerOctets p2 else []))
            lqi (m_SeqNum receivedMacHdr) (symbolTimestamp t) in
        when (m_mlmeRitRequestIndicationCallback m)
          (emit (MlmeRitRequestIndicationCallback ritReqParams))
    | RECEIVER_MODE => ret tt
    | BOOTSTRAP_MODE => ret tt
    | _ => ret tt
    end
  | RIT_DATA_RES => ret tt
  | CMD_OTHER _ => ret tt
  end.

(** [ReceiveData (lqi, p)]: the packet is stripped in place; the result
    is the packet the caller's [Ptr] then points to. *)
Definition ReceiveData (lqi : Z) (p : Packet) : M Packet :=
  let (receivedMacHdr, p1) := Packet_RemoveMacHeader (Packet_RemoveTrailer p) in
  m <- gets self;;
  if RitMacMode_eqb (m_ritMacMode m) SENDER_MODE then ret p1
  else
    when (m_mcpsDataIndicationCallback (base m))
      (let srcMode := m_fctrlSrcAddrMode receivedMacHdr in
       let dstMode := m_fctrlDstAddrMode receivedMacHdr in
       emit (McpsDataIndicationCallback
               (mkMcpsDataIndicationParams
                  srcMode (m_addrSrcPanId receivedMacHdr)
                  (if srcMode =? SHORT_ADDR then m_addrShortSrcAddr receivedMacHdr else 0)
                  (if srcMode =? EXT_ADDR then m_addrExtSrcAddr receivedMacHdr else 0)
                  dstMode (m_addrDstPanId receivedMacHdr)
                  (if dstMode =? SHORT_ADDR then m_addrShortDstAddr receivedMacHdr else 0)
                  (if dstMode =? EXT_ADDR then m_addrExtDstAddr receivedMacHdr else 0)
                  lqi (m_SeqNum receivedMacHdr))
               p1));;
    ret p1.

(** The [switch] on an addressing mode in [McpsDataRequest]. *)
Inductive AddrSwitch : Type :=
| AddrOk (h : LrWpanMacHeader)
| AddrAbort (what : string)
| AddrInvalid.

Definition switchSrcAddrMode (b : LrWpanMac) (params : McpsDataRequestParams)
    (macHdr : LrWpanMacHeader) : AddrSwitch :=
  let mode := req_srcAddrMode params in
  if mode =? NO_PANID_ADDR then
    AddrOk (set_m_fctrlPanIdComp false (set_m_fctrlSrcAddrMode mode macHdr))
  else if mode =? ADDR_MODE_RESERVED then
    AddrAbort "Can not set source address type to ADDR_MODE_RESERVED. Aborting."
  else if mode =? SHORT_ADDR then
    AddrOk (SetSrcAddrFields (m_macPanId b) (m_shortAddress b)
              (set_m_fctrlSrcAddrMode mode macHdr))
  else if mode =? EXT_ADDR then
    AddrOk (SetSrcAddrFieldsExt (m_macPanId b) (m_macExtendedAddress b)
              (set_m_fctrlSrcAddrMode mode macHdr))
  else AddrInvalid.

Definition switchDstAddrMode (params : McpsDataRequestParams)
    (macHdr : LrWpanMacHeader) : AddrSwitch :=
  let mode := req_dstAddrMode params in
  if mode =? NO_PANID_ADDR then
    AddrOk (set_m_fctrlPanIdComp false (set_m_fctrlDstAddrMode mode macHdr))
  else if mode =? ADDR_MODE_RESERVED then
    AddrAbort "Can not set destination address type to ADDR_MODE_RESERVED. Aborting."
  else if mode =? SHORT_ADDR then
    AddrOk (SetDstAddrFields (req_dstPanId params) (req_dstAddr params)
              (set_m_fctrlDstAddrMode mode macHdr))
  else if mode =? EXT_ADDR then
    AddrOk (SetDstAddrFieldsExt (req_dstPanId params) (req_dstExtAddr params)
              (set_m_fctrlDstAddrMode mode macHdr))
  else AddrInvalid.

(** The ACK-request bit of an outgoing data frame. *)
Definition setAckReq (params : McpsDataRequestParams) (macHdr : LrWpanMacHeader) :
    LrWpanMacHeader :=
  if Z.land (req_txOptions params) TX_OPTION_ACK =? TX_OPTION_ACK then
    if m_fctrlDstAddrMode macHdr =? SHORT_ADDR then
      let shortAddr := m_addrShortDstAddr macHdr in
      if Mac16_IsBroadcast shortAddr || Mac16_IsMulticast shortAddr
      then set_m_fctrlAckReq false macHdr
      else set_m_fctrlAckReq true macHdr
    else set_m_fctrlAckReq true macHdr
  else set_m_fctrlAckReq false macHdr.

Definition McpsDataRequest (params : McpsDataRequestParams) (p : Packet) : M unit :=
  m <- gets self;;
  if negb (IsRitModeEnabled m) then callBase (LrWpanMac_McpsDataRequest params p)
  else
    let handle := req_msduHandle params in
    let macHdr := newMacHeader LRWPAN_MAC_DATA (m_macDsn (base m)) in
    setb (set_m_macDsn (wrap8 (m_macDsn (base m) + 1)));;
    if aMaxPhyPacketSize - aMinMPDUOverhead <? Packet_GetSize p then
      confirm handle FRAME_TOO_LONG
    else if (req_srcAddrMode params =? NO_PANID_ADDR)
            && (req_dstAddrMode params =? NO_PANID_ADDR) then
      confirm handle INVALID_ADDRESS
    else
      match switchSrcAddrMode (base m) params macHdr with
      | AddrAbort what => stop (AbortMsg what)
      | AddrInvalid => confirm handle INVALID_ADDRESS
      | AddrOk macHdr =>
        match switchDstAddrMode params macHdr with
        | AddrAbort what => stop (AbortMsg what)
        | AddrInvalid => confirm handle INVALID_ADDRESS
        | AddrOk macHdr =>
          let macHdr :=
            if negb (req_dstAddrMode params =? NO_PANID_ADDR)
               && negb (req_srcAddrMode params =? NO_PANID_ADDR)
               && (m_addrDstPanId macHdr =? m_addrSrcPanId macHdr)
            then set_m_fctrlPanIdComp true macHdr
            else macHdr in
          let macHdr := set_m_fctrlSecU false macHdr in
          let macHdr := setAckReq params macHdr in
          if (Z.land (req_txOptions params) TX_OPTION_GTS =? TX_OPTION_GTS)
             || (Z.land (req_txOptions params) TX_OPTION_INDIRECT =? TX_OPTION_INDIRECT) then
            confirm handle INVALID_PARAMETER
          else
            let p := addTrailer (Packet_AddHeader (PH_Mac macHdr) p) in
            callBase (EnqueueTxQElement (mkTxQueueElement handle p));;
            mode <- getm m_ritMacMode;;
            if RitMacMode_eqb mode SLEEP_MODE then
              _ <- CheckTxAndStartSender;; ret tt
            else ret tt
        end
      end.

(** The level 3 filter of [PdDataIndication]. *)
Definition acceptFrame (b : LrWpanMac) (h : LrWpanMacHeader) : bool :=
  let a := negb (LrWpanMacType_eqb (m_fctrlFrmType h) LRWPAN_MAC_RESERVED) in
  let a := if a then m_fctrlFrmVer h <=? 1 else a in
  let a :=
    if a && (1 <? m_fctrlDstAddrMode h) then
      ((m_addrDstPanId h =? m_macPanId b) || (m_addrDstPanId h =? 0xffff))
      || ((m_macPanId b =? 0xffff) && IsCommand h)
    else a in
  let a :=
    if a && (m_fctrlDstAddrMode h =? SHORT_ADDR) then
      if m_addrShortDstAddr h =? m_shortAddress b then true
      else if (Mac16_IsBroadcast (m_addrShortDstAddr h)
               || Mac16_IsMulticast (m_addrShortDstAddr h)) && IsCommand h
      then negb (m_fctrlAckReq h)
      else false
    else a in
  if a && (m_fctrlDstAddrMode h =? EXT_ADDR)
  then m_addrExtDstAddr h =? m_macExtendedAddress b
  else a.

(** [m_preCsB] (rit-wpan-mac.h:370): a private [Ptr] that no constructor,
    setter or other member of the class assigns, so it is null wherever it
    is used; its one use is the [Cancel] call of [PdDataIndication]. *)
Definition m_preCsB : option unit := None.

Definition PdDataIndication (psduLength : Z) (p : Packet) (lqi : Z) : M unit :=
  m <- gets self;;
  NS_ASSERT "m_macState == MAC_IDLE || m_macState == MAC_ACK_PENDING || m_macState == MAC_CSMA"
    (MacState_eqb (m_macState (base m)) MAC_IDLE
     || MacState_eqb (m_macState (base m)) MAC_ACK_PENDING
     || MacState_eqb (m_macState (base m)) MAC_CSMA);;
  if negb (IsRitModeEnabled m) then callBase (LrWpanMac_PdDataIndication psduLength p lqi)
  else
    let originalPkt := p in
    let (receivedMacHdr, p1) := Packet_RemoveMacHeader (Packet_RemoveTrailer p) in
    if negb (CheckFcs p1) then emit (MacRxDropTrace originalPkt)
    else if m_macPromiscuousMode (base m) then ret tt
    else if negb (acceptFrame (base m) receivedMacHdr) then emit (MacRxDropTrace originalPkt)
    else
      emit (MacRxTrace originalPkt);;
      if IsCommand receivedMacHdr then ReceiveCommand lqi originalPkt
      else if IsData receivedMacHdr && RitMacMode_eqb (m_ritMacMode m) RECEIVER_MODE then
        t <- gets now;;
        emit (DataWaitTrace "end" t);;
        originalPkt <- ReceiveData lqi originalPkt;;
        if m_fctrlAckReq receivedMacHdr then
          st <- getb m_macState;;
          (if MacState_eqb st MAC_ACK_PENDING then
             Cancel f_ackWaitTimeout;;
             callBase PrepareRetransmission
           else if MacState_eqb st MAC_CSMA then
             _ <- deref "m_preCsB->Cancel()" m_preCsB;;
             emit PreCsB_Cancel;;
             emit PreCs_Cancel;;
             emit CsmaCa_Cancel
           else ret tt);;
          Cancel f_setMacState;;
          ChangeMacState MAC_IDLE;;
          setb (set_m_rxPkt (Some originalPkt));;
          setb (set_m_lastRxFrameLqi lqi);;
          ScheduleNow f_setMacState (H_SendAck (m_SeqNum receivedMacHdr));;
          Cancel f_ritDataWaitTimeout;;
          dataWait <- GetRitDataWaitDurationTime;;
          Schedule f_ritDataWaitTimeout dataWait H_ReceiverCycleTimeout
        else EndReceiverCycle
      else if IsMultipurpose receivedMacHdr then
        NS_ASSERT "m_moduleConfig.beaconAckEnabled" (beaconAckEnabled (m_moduleConfig m));;
        if RitMacMode_eqb (m_ritMacMode m) RECEIVER_MODE then
          Cancel f_ritDataWaitTimeout;;
          Schedule f_ritDataWaitTimeout GetContinuousTxTimeoutTime H_ReceiverCycleTimeout
        else ret tt
      else if IsAcknowledgment receivedMacHdr
              && (match m_txPkt (base m) with Some _ => true | None => false end)
              && MacState_eqb (m_macState (base m)) MAC_ACK_PENDING then
        txPkt <- deref "m_txPkt->PeekHeader()" (m_txPkt (base m));;
        if m_SeqNum receivedMacHdr =? m_SeqNum (Packet_PeekMacHeader txPkt) then
          setm (set_m_ritSending false);;
          Cancel f_ackWaitTimeout;;
          emit (MacTxOkTrace (m_txPkt (base m)));;
          (if m_mcpsDataConfirmCallback (base m) then
             h <- frontMsduHandle;;
             emit (McpsDataConfirmCallback (mkMcpsDataConfirmParams h SUCCESS))
           else ret tt);;
          Cancel f_setMacState;;
          ScheduleNow f_setMacState (H_SetLrWpanMacState MAC_IDLE);;
          callBase RemoveFirstTxQElement;;
          EndSenderCycle
        else ret tt
      else ret tt.

(** The part of [PdDataConfirm] before its common tail: [None] when the
    function returned there, the IFS wait time otherwise. *)
Definition PdDataConfirm_body (status : PhyEnumeration) (txPkt : Packet) : M (option Time) :=
  m <- gets self;;
  let macHdr := Packet_PeekMacHeader txPkt in
  if Phy_is_SUCCESS status then
    if negb (IsAcknowledgment macHdr) then
      if IsCommand macHdr then
        match Packet_PeekCommandHeader (snd (Packet_RemoveMacHeader txPkt)) with
        | RIT_DATA_REQ =>
          t <- gets now;;
          emit (DataWaitTrace "start" t);;
          StartRitDataWaitPeriod;;
          setm (set_m_lastDataTxStartTime t);;
          ret (Some 0)
        | _ => ret (Some 0)
        end
      else if IsData macHdr then
        if m_fctrlAckReq macHdr then
          NS_ASSERT "m_ackWaitTimeout.IsExpired()" (IsExpired (m_ackWaitTimeout (base m)));;
          Schedule f_ackWaitTimeout AckWaitTime H_AckWaitTimeout;;
          Cancel f_setMacState;;
          ScheduleNow f_setMacState (H_SetLrWpanMacState MAC_ACK_PENDING);;
          ret None
        else
          setm (set_m_ritSending false);;
          emit (MacTxOkTrace (m_txPkt (base m)));;
          (if m_mcpsDataConfirmCallback (base m) then
             h <- frontMsduHandle;;
             emit (McpsDataConfirmCallback (mkMcpsDataConfirmParams h SUCCESS))
           else ret tt);;
          if continuousTxEnabled (m_moduleConfig m)
             && (match m_txQueue (base m) with [] => false | _ => true end) then
            DoSendRitData;;
            ret None
          else
            NS_ASSERT "m_ritTxWaitTimeout.IsExpired()" (IsExpired (m_ritTxWaitTimeout m));;
            callBase RemoveFirstTxQElement;;
            EndSenderCycle;;
            ret (Some 0)
      else if IsMultipurpose macHdr then
        NS_ASSERT "m_ritMacMode == SENDER_MODE && m_moduleConfig.beaconAckEnabled"
          (RitMacMode_eqb (m_ritMacMode m) SENDER_MODE && beaconAckEnabled (m_moduleConfig m));;
        ret (Some 1)
      else ret (Some 0)
    else
      setb (set_m_txPkt None);;
      if continuousTxEnabled (m_moduleConfig m) && m_continuousRxEnabled m then
        Schedule f_ritDataWaitTimeout GetContinuousTxTimeoutTime H_ReceiverCycleTimeout;;
        ret None
      else
        EndReceiverCycle;;
        ret (Some 0)
  else
    emit (MacTxDropTrace (m_txPkt (base m)));;
    setb (set_m_txPkt None);;
    ret (Some 0).

Definition PdDataConfirm (status : PhyEnumeration) : M unit :=
  m <- gets self;;
  NS_ASSERT "m_macState == MAC_SENDING" (MacState_eqb (m_macState (base m)) MAC_SENDING);;
  if negb (IsRitModeEnabled m) then callBase (LrWpanMac_PdDataConfirm status)
  else
    txPkt <- deref "m_txPkt->PeekHeader()" (m_txPkt (base m));;
    r <- PdDataConfirm_body status txPkt;;
    match r with
    | None => ret tt
    | Some ifsWaitTime =>
      when (negb (ifsWaitTime =? 0))
        (Schedule f_ifsEvent ifsWaitTime (H_IfsWaitTimeout ifsWaitTime));;
      Cancel f_setMacState;;
      ScheduleNow f_setMacState (H_SetLrWpanMacState MAC_IDLE)
    end.

Definition PlmeSetTRXStateConfirm (status : PhyEnumeration) : M unit :=
  m <- gets self;;
  if negb (IsRitModeEnabled m) then callBase (LrWpanMac_PlmeSetTRXStateConfirm status)
  else
    let rxReady := Phy_is_RX_ON status || Phy_is_SUCCESS status in
    if MacState_eqb (m_macState (base m)) MAC_IDLE && rxReady then ret tt
    else if MacState_eqb (m_macState (base m)) MAC_CSMA && rxReady then
      txPkt <- deref "m_txPkt->PeekHeader()" (m_txPkt (base m));;
      let macHdr := Packet_PeekMacHeader txPkt in
      if (IsCommand macHdr && beaconPreCsEnabled (m_moduleConfig m))
         || (IsData macHdr && dataPreCsEnabled (m_moduleConfig m))
      then emit PreCs_Start
      else callBase (LrWpanMac_PlmeSetTRXStateConfirm status)
    else callBase (LrWpanMac_PlmeSetTRXStateConfirm status).

Definition MlmeSetRequest (id : MacPibAttributeIdentifier) (attribute : MacPibAttributes) :
    M unit :=
  if pib_in_rit_range id then
    status <-
      match id with
      | macRitPeriod =>
        setm (set_m_macRitPeriod (pib_macRitPeriod attribute));;
        m <- gets self;;
        (if m_macRitPeriod m =? 0 then StopRitCycle
         else if RitMacMode_eqb (m_ritMacMode m) RIT_MODE_DISABLED then StartRitCycle
         else ret tt);;
        ret SUCCESS
      | macRitDataWaitDuration =>
        setm (set_m_macRitDataWaitDuration (pib_macRitDataWaitDuration attribute));;
        ret SUCCESS
      | macRitTxWaitDuration =>
        setm (set_m_macRitTxWaitDuration (pib_macRitTxWaitDuration attribute));;
        ret SUCCESS
      | macRitRequestPayload =>
        setm (set_m_macRitRequestPayload (pib_macRitRequestPayload attribute));;
        ret SUCCESS
      | macRitPeriodTime =>
        setm (set_m_macRitPeriodTime (pib_macRitPeriodTime attribute));;
        m <- gets self;;
        (if m_macRitPeriodTime m =? 0 then StopRitCycle
         else if RitMacMode_eqb (m_ritMacMode m) RIT_MODE_DISABLED then StartRitCycle
         else ret tt);;
        ret SUCCESS
      | macRitDataWaitDurationTime =>
        setm (set_m_macRitDataWaitDurationTime (pib_macRitDataWaitDurationTime attribute));;
        ret SUCCESS
      | macRitTxWaitDurationTime =>
        setm (set_m_macRitTxWaitDurationTime (pib_macRitTxWaitDurationTime attribute));;
        ret SUCCESS
      | pibOther _ => ret UNSUPPORTED_ATTRIBUTE
      end;;
    set <- getb m_mlmeSetConfirmCallback;;
    when set (emit (MlmeSetConfirmCallback status id))
  else callBase (LrWpanMac_MlmeSetRequest id attribute).

Definition MlmeGetRequest (id : MacPibAttributeIdentifier) : M unit :=
  if pib_in_rit_range id then
    m <- gets self;;
    let (status, attribute) :=
      match id with
      | macRitPeriod => (SUCCESS, mkPib (m_macRitPeriod m) 0 0 [] 0 0 0)
      | macRitDataWaitDuration => (SUCCESS, mkPib 0 (m_macRitDataWaitDuration m) 0 [] 0 0 0)
      | macRitTxWaitDuration => (SUCCESS, mkPib 0 0 (m_macRitTxWaitDuration m) [] 0 0 0)
      | macRitRequestPayload => (SUCCESS, mkPib 0 0 0 (m_macRitRequestPayload m) 0 0 0)
      | _ => (UNSUPPORTED_ATTRIBUTE, emptyPib)
      end in
    when (m_mlmeGetConfirmCallback (base m)) (emit (MlmeGetConfirmCallback status id attribute))
  else callBase (LrWpanMac_MlmeGetRequest id).

Definition IfsWaitTimeout (ifsTime : Time) : M unit :=
  m <- gets self;;
  when (negb (IsRitModeEnabled m)) (callBase (LrWpanMac_IfsWaitTimeout ifsTime));;
  emit (MacIfsEndTrace ifsTime);;
  m <- gets self;;
  match m_ritMacMode m with
  | SENDER_MODE =>
    NS_ASSERT "(continuousTxEnabled || beaconAckEnabled) && m_txQueue.size() > 0"
      ((continuousTxEnabled (m_moduleConfig m) || beaconAckEnabled (m_moduleConfig m))
       && (match m_txQueue (base m) with [] => false | _ => true end));;
    DoSendRitData
  | SLEEP_MODE => _ <- CheckTxAndStartSender;; ret tt
  | _ => callBase (LrWpanMac_IfsWaitTimeout ifsTime)
  end.

Definition DoInitialize : M unit :=
  ChangeRitMacMode SLEEP_MODE;;
  a <- getb m_shortAddress;;
  emit (ClockDriftApplier_Initialize a 1);;
  callBase LrWpanMac_DoInitialize.

Definition DoDispose : M unit :=
  Cancel f_ritDataWaitTimeout;;
  Cancel f_ritTxWaitTimeout;;
  Cancel f_periodicRitDataRequestEvent;;
  callBase LrWpanMac_DoDispose.

Definition SetModuleConfig (config : RitWpanMacModuleConfig) : M unit :=
  setm (set_m_moduleConfig config).

Definition GetModuleConfig (m : RitWpanMac) : RitWpanMacModuleConfig := m_moduleConfig m.

Definition SetRitModuleConfig (config : RitWpanMacModuleConfig) : M unit :=
  setm (set_m_moduleConfig config).

Definition SetRxAlwaysOn (alwaysOn : bool) : M unit :=
  setm (set_m_rxAlwaysOn alwaysOn).

Definition SetMlmeRitRequestIndicationCallback (isSet : bool) : M unit :=
  setm (set_m_mlmeRitRequestIndicationCallback isSet).

(** [RitWpanMac::RitWpanMac ()] on top of a constructed base object, with
    the attribute defaults of [GetTypeId] and the member initialisers of
    the class. [m_continuousRxEnabled] is not initialised by the sources:
    its value is the caller's. *)
Definition constructor (b : LrWpanMac) (continuousRx : bool) : RitWpanMac :=
  mkRitWpanMac b false continuousRx true false
    0 1 65 []
    (5 * 1000000000) (10 * 1000000) (5000 * 1000000)
    RIT_MODE_DISABLED None None None false 0 defaultModuleConfig 0.

(** *** The MAC under the simulator *)

(** The [EventId] members of the MAC. *)
Inductive Timer : Type :=
| T_ritDataWaitTimeout
| T_ritTxWaitTimeout
| T_periodicRitDataRequestEvent
| T_setMacState
| T_ackWaitTimeout
| T_ifsEvent.

Definition field (t : Timer) : EventField :=
  match t with
  | T_ritDataWaitTimeout => f_ritDataWaitTimeout
  | T_ritTxWaitTimeout => f_ritTxWaitTimeout
  | T_periodicRitDataRequestEvent => f_periodicRitDataRequestEvent
  | T_setMacState => f_setMacState
  | T_ackWaitTimeout => f_ackWaitTimeout
  | T_ifsEvent => f_ifsEvent
  end.

(** Running the member function an event was scheduled with. The
    handlers are virtual: a pointer to [LrWpanMac::SetLrWpanMacState]
    runs the override of [RitWpanMac]. *)
Definition run_handler (h : Handler) : M unit :=
  match h with
  | H_PeriodicRitDataRequest => PeriodicRitDataRequest
  | H_ReceiverCycleTimeout => ReceiverCycleTimeout
  | H_SenderCycleTimeout => SenderCycleTimeout
  | H_AckWaitTimeout => AckWaitTimeout
  | H_SetLrWpanMacState s => SetLrWpanMacState s
  | H_SendAck seqno => callBase (LrWpanMac_SendAck seqno)
  | H_IfsWaitTimeout t => IfsWaitTimeout t
  end.

(** The simulator runs the event an [EventId] member names: the member
    is expired while and after the handler runs. *)
Definition fire (t : Timer) : M unit :=
  e <- gets (ef_get (field t));;
  match e with
  | None => ret tt
  | Some ev =>
    modify (ef_set (field t) None);;
    modify (set_now (ev_time ev));;
    run_handler (ev_handler ev)
  end.

(** The simulator runs an event whose [EventId] was overwritten. *)
Definition fire_orphan (i : nat) : M unit :=
  os <- gets orphans;;
  match nth_error os i with
  | None => ret tt
  | Some ev =>
    modify (set_orphans (firstn i os ++ skipn (S i) os));;
    modify (set_now (ev_time ev));;
    run_handler (ev_handler ev)
  end.

(** What can happen to a MAC between two instants of the simulation. *)
Inductive Input : Type :=
| CallMcpsDataRequest (params : McpsDataRequestParams) (p : Packet)
| CallMlmeSetRequest (id : MacPibAttributeIdentifier) (attribute : MacPibAttributes)
| CallMlmeGetRequest (id : MacPibAttributeIdentifier)
| CallSendRitData
| CallSetModuleConfig (config : RitWpanMacModuleConfig)
| CallSetRxAlwaysOn (alwaysOn : bool)
| CallDoInitialize
| CallDoDispose
| PhyPdDataIndication (psduLength : Z) (p : Packet) (lqi : Z)
| PhyPdDataConfirm (status : PhyEnumeration)
| PhyPlmeSetTRXStateConfirm (status : PhyEnumeration)
| ChannelAccessSetLrWpanMacState (macState : MacState)
| Fire (t : Timer)
| FireOrphan (i : nat)
| Advance (t : Time).

Definition step (i : Input) : M unit :=
  match i with
  | CallMcpsDataRequest params p => McpsDataRequest params p
  | CallMlmeSetRequest id attribute => MlmeSetRequest id attribute
  | CallMlmeGetRequest id => MlmeGetRequest id
  | CallSendRitData => SendRitData
  | CallSetModuleConfig config => SetModuleConfig config
  | CallSetRxAlwaysOn alwaysOn => SetRxAlwaysOn alwaysOn
  | CallDoInitialize => DoInitialize
  | CallDoDispose => DoDispose
  | PhyPdDataIndication psduLength p lqi => PdDataIndication psduLength p lqi
  | PhyPdDataConfirm status => PdDataConfirm status
  | PhyPlmeSetTRXStateConfirm status => PlmeSetTRXStateConfirm status
  | ChannelAccessSetLrWpanMacState macState => SetLrWpanMacState macState
  | Fire t => fire t
  | FireOrphan i => fire_orphan i
  | Advance t => modify (fun w => set_now (Z.max (now w) t) w)
  end.

(** A world with a freshly constructed MAC at time zero. *)
Definition initialWorld (b : LrWpanMac) (continuousRx : bool) : World :=
  mkWorld (constructor b continuousRx) 0 [] [] 0%nat.

End WithNs3.
End Mac.

(** ** [RitWpanNetDevice] ([rit-wpan-net-device.cc]) *)

Module NetDevice.
Section WithNs3.
Context {ns3 : Ns3} {ops : LrWpanMacOps}.

(** The members of the device that [SetRitModuleConfig] touches: the
    stored configuration and the MAC ([None] for a null [m_mac]) with the
    world it lives in. *)
Record t : Type := mk {
  nd_moduleConfig : RitWpanMacModuleConfig;
  nd_mac : option World
}.

Definition dataTxModes (config : RitWpanMacModuleConfig) : Z :=
  (if dataCsmaEnabled config then 1 else 0)
  + (if dataPreCsEnabled config then 1 else 0)
  + (if dataPreCsBEnabled config then 1 else 0).

Definition beaconTxModes (config : RitWpanMacModuleConfig) : Z :=
  (if beaconCsmaEnabled config then 1 else 0)
  + (if beaconPreCsEnabled config then 1 else 0)
  + (if beaconPreCsBEnabled config then 1 else 0).

Definition SetRitModuleConfig (config : RitWpanMacModuleConfig) (d : t) : Outcome t :=
  if 1 <? dataTxModes config then
    Stop (FatalError "Invalid module config: only one of dataCsmaEnabled, dataPreCsEnabled, or dataPreCsBEnabled can be true.")
  else if 1 <? beaconTxModes config then
    Stop (FatalError "Invalid module config: only one of beaconCsmaEnabled, beaconPreCsEnabled, or beaconPreCsBEnabled can be true.")
  else
    match nd_mac d with
    | None => Ok (mk config None)
    | Some w =>
      match exec (Mac.SetModuleConfig config) w with
      | Ok w' => Ok (mk config (Some w'))
      | Stop why => Stop why
      end
    end.

End WithNs3.
End NetDevice.

(** ** [RitSimpleRouting] ([rit-wpan-nwk.cc]) *)

Module Nwk.
Section WithNs3.
Context {ns3 : Ns3} {ops : LrWpanMacOps}.

Definition MAX_RETRIES : Z := 0.

(** Trace sources fired, upper-layer callbacks made and events scheduled
    by the network layer. *)
Inductive NwkAction : Type :=
| NwkTxTrace (p : Packet)
| NwkTxOkTrace (p : Packet)
| NwkTxDropTrace (p : Packet)
| NwkRxTrace (p : Packet)
| NwkRxDropTrace (p : Packet)
| NwkReTxTrace (p : Packet)
| NwkRxCallback (p : Packet) (src : Mac16Address)
| ScheduleSendRequest (delay : Time) (p : Packet) (dst : Mac16Address) (nwkHandle : Z)
| ScheduleNowSendRitData.

Record t : Type := mk {
  m_rank : Z;
  m_shortAddr : Mac16Address;
  m_nwkRxCallback : bool;
  m_handleToPktMap : gmap Z (Packet * Mac16Address);
  m_retryCountMap : gmap Z Z;
  m_msduToNwkHandleMap : gmap Z Z;
  m_nwkHandle : Z;
  m_macHandle : Z;
  nwk_out : list NwkAction
}.

(** A node: the network layer and the MAC it drives. *)
Record Node : Type := mkNode {
  nwk : t;
  macWorld : World
}.

(** [RitSimpleRouting::RitSimpleRouting ()]: the sequence numbers start
    at zero, the maps are empty. *)
Definition constructor : t := mk 0 0 false ∅ ∅ ∅ 0 0 [].

Definition trace (a : NwkAction) (n : t) : t :=
  mk (m_rank n) (m_shortAddr n) (m_nwkRxCallback n) (m_handleToPktMap n)
     (m_retryCountMap n) (m_msduToNwkHandleMap n) (m_nwkHandle n) (m_macHandle n)
     (nwk_out n ++ [a]).

Definition set_maps (h : gmap Z (Packet * Mac16Address)) (r : gmap Z Z) (u : gmap Z Z)
    (n : t) : t :=
  mk (m_rank n) (m_shortAddr n) (m_nwkRxCallback n) h r u
     (m_nwkHandle n) (m_macHandle n) (nwk_out n).

Definition set_m_macHandle (v : Z) (n : t) : t :=
  mk (m_rank n) (m_shortAddr n) (m_nwkRxCallback n) (m_handleToPktMap n)
     (m_retryCountMap n) (m_msduToNwkHandleMap n) (m_nwkHandle n) v (nwk_out n).

Definition set_m_rank (v : Z) (n : t) : t :=
  mk v (m_shortAddr n) (m_nwkRxCallback n) (m_handleToPktMap n)
     (m_retryCountMap n) (m_msduToNwkHandleMap n) (m_nwkHandle n) (m_macHandle n)
     (nwk_out n).

(** [packet->AddHeader (hdr)] for a [RitNwkHeader]: its octets go in
    front of the packet's. *)
Definition Packet_AddNwkHeader (h : RitNwkHeader.t) (p : Packet) : Packet :=
  mkPacket (pkt_headers p) (RitNwkHeader.Serialize h ++ pkt_data p)
           (pkt_trailer p) (pkt_fcsGood p).

(** [packet->RemoveHeader (nwkHdr)]; [None] when the packet is shorter
    than the header. *)
Definition Packet_RemoveNwkHeader (p : Packet) : option (RitNwkHeader.t * Packet) :=
  match RitNwkHeader.Deserialize (pkt_data p) with
  | Some (h, _) =>
    Some (h, mkPacket (pkt_headers p) (skipn 6 (pkt_data p)) (pkt_trailer p) (pkt_fcsGood p))
  | None => None
  end.

(** [RitSimpleRouting::McpsDataConfirm]. [std::map::operator[]] on
    [m_retryCountMap] creates the entry it reads. *)
Definition McpsDataConfirm (draw : nat) (params : McpsDataConfirmParams) (n : t) :
    Outcome t :=
  let msduHandle := cfm_msduHandle params in
  match m_msduToNwkHandleMap n !! msduHandle with
  | None => Ok n
  | Some nwkHandle =>
    match m_handleToPktMap n !! nwkHandle with
    | None =>
      Ok (set_maps (m_handleToPktMap n) (m_retryCountMap n)
            (delete msduHandle (m_msduToNwkHandleMap n)) n)
    | Some (packet, dst) =>
      let retries := default 0 (m_retryCountMap n !! nwkHandle) in
      let n := set_maps (m_handleToPktMap n) (<[nwkHandle := retries]> (m_retryCountMap n))
                 (m_msduToNwkHandleMap n) n in
      let cleanup (n : t) : t :=
        set_maps (delete nwkHandle (m_handleToPktMap n))
                 (delete nwkHandle (m_retryCountMap n))
                 (delete msduHandle (m_msduToNwkHandleMap n)) n in
      match cfm_status params with
      | SUCCESS => Ok (cleanup (trace (NwkTxOkTrace packet) n))
      | NO_ACK =>
        if retries <? MAX_RETRIES then
          match Packet_RemoveNwkHeader packet with
          | None => Stop (Undefined "packet->RemoveHeader(nwkHdr)")
          | Some (_, packet1) =>
            let n := set_maps (<[nwkHandle := (packet1, dst)]> (m_handleToPktMap n))
                       (<[nwkHandle := wrap8 (retries + 1)]> (m_retryCountMap n))
                       (m_msduToNwkHandleMap n) n in
            let n := trace (NwkReTxTrace packet1) n in
            let delay := Seconds_of_double (UniformRandomVariable_GetValue draw 0 5) in
            let n := trace (ScheduleSendRequest delay packet1 dst nwkHandle) n in
            Ok (set_maps (m_handleToPktMap n) (m_retryCountMap n)
                  (delete msduHandle (m_msduToNwkHandleMap n)) n)
          end
        else Ok (cleanup (trace (NwkTxDropTrace packet) n))
      | _ => Ok (cleanup (trace (NwkTxDropTrace packet) n))
      end
    end
  end.

(** The MCPS-DATA.confirm callbacks the MAC made during a call that took
    its world from [w] to [w']. *)
Definition confirmsBetween (w w' : World) : list McpsDataConfirmParams :=
  omap (fun a => match a with McpsDataConfirmCallback p => Some p | _ => None end)
       (skipn (length (out w)) (out w')).

Fixpoint deliverConfirms (draw : nat) (cs : list McpsDataConfirmParams) (n : t) : Outcome t :=
  match cs with
  | [] => Ok n
  | c :: cs =>
    match McpsDataConfirm draw c n with
    | Ok n' => deliverConfirms draw cs n'
    | Stop why => Stop why
    end
  end.

(** [RitSimpleRouting::SendRequest (packet, dst, nwkHandle)]. The MAC's
    confirm callback is bound to [McpsDataConfirm]: a confirm the MAC
    makes inside [McpsDataRequest] is handled before the call returns. *)
Definition SendRequest3 (packet : Packet) (dst : Mac16Address) (nwkHandle : Z) (nd : Node) :
    Outcome Node :=
  let n := nwk nd in
  let msduHandle := m_macHandle n in
  let n := set_m_macHandle (wrap8 (m_macHandle n + 1)) n in
  let params :=
    mkMcpsDataRequestParams SHORT_ADDR SHORT_ADDR 0 dst 0 msduHandle
      (Z.lor TX_OPTION_NONE TX_OPTION_ACK) in
  let hdr := RitNwkHeader.mk (m_rank n) (m_shortAddr n) dst in
  let packet := Packet_AddNwkHeader hdr packet in
  let pktCopy := packet in
  let n := trace (NwkTxTrace pktCopy) n in
  let n := set_maps (<[nwkHandle := (pktCopy, dst)]> (m_handleToPktMap n))
             (m_retryCountMap n)
             (<[msduHandle := nwkHandle]> (m_msduToNwkHandleMap n)) n in
  let w := macWorld nd in
  match exec (Mac.McpsDataRequest params packet) w with
  | Stop why => Stop why
  | Ok w' =>
    match deliverConfirms (draws w') (confirmsBetween w w') n with
    | Stop why => Stop why
    | Ok n' => Ok (mkNode n' w')
    end
  end.

(** [RitSimpleRouting::SendRequest (packet, dst)]. *)
Definition SendRequest (packet : Packet) (dst : Mac16Address) (nd : Node) : Outcome Node :=
  let n := nwk nd in
  let nwkHandle := m_nwkHandle n in
  let n := set_maps (m_handleToPktMap n) (<[nwkHandle := 0]> (m_retryCountMap n))
             (m_msduToNwkHandleMap n) n in
  SendRequest3 packet dst nwkHandle (mkNode n (macWorld nd)).

(** [RitSimpleRouting::McpsDataIndication]. *)
Definition McpsDataIndication (params : McpsDataIndicationParams) (p : Packet) (nd : Node) :
    Outcome Node :=
  match Packet_RemoveNwkHeader p with
  | None => Stop (Undefined "p->RemoveHeader(nwkHdr)")
  | Some (nwkHdr, p1) =>
    let n := nwk nd in
    if RitNwkHeader.m_dstAddr nwkHdr =? m_shortAddr n then
      if negb (m_nwkRxCallback n) then Ok nd
      else Ok (mkNode (trace (NwkRxCallback p1 (RitNwkHeader.m_srcAddr nwkHdr))
                         (trace (NwkRxTrace p1) n))
                      (macWorld nd))
    else if m_rank n <? RitNwkHeader.m_rank nwkHdr then
      SendRequest p1 (RitNwkHeader.m_dstAddr nwkHdr)
        (mkNode (trace (NwkRxTrace p1) n) (macWorld nd))
    else Ok (mkNode (trace (NwkRxDropTrace p1) n) (macWorld nd))
  end.

(** [RitSimpleRouting::MlmeRitRequestIndication]. *)
Definition MlmeRitRequestIndication (params : MlmeRitRequestIndicationParams) (n : t) :
    Outcome t :=
  match RitNwkHeader.Deserialize (rit_ritRequestPayload params) with
  | None => Stop (Undefined "ritPayload->PeekHeader(nwkHdr)")
  | Some (nwkHdr, _) =>
    if RitNwkHeader.m_rank nwkHdr + 1 =? m_rank n
    then Ok (trace ScheduleNowSendRitData n)
    else Ok n
  end.

(** [RitSimpleRouting::SetRank]. *)
Definition SetRank (rank : Z) (nd : Node) : Outcome Node :=
  let n := set_m_rank rank (nwk nd) in
  let nwkHeader := RitNwkHeader.mk (m_rank n) 0 Mac16_broadcast in
  let payload := RitNwkHeader.Serialize nwkHeader in
  let attribute := mkPib 0 0 0 payload 0 0 0 in
  match exec (Mac.MlmeSetRequest macRitRequestPayload attribute) (macWorld nd) with
  | Ok w' => Ok (mkNode n w')
  | Stop why => Stop why
  end.

End WithNs3.
End Nwk.

(** ** A stand-in for ns-3 and for the base MAC

    The theorems below hold for every instance of [Ns3] and
    [LrWpanMacOps]. To run the model on concrete inputs one instance of
    each is fixed here: the constants of IEEE 802.15.4, a random variable
    that returns [lo + u * (hi - lo)] for a fixed [u], conversions from
    doubles that truncate, and a base MAC that keeps its queue and its
    state the way the RIT code expects. *)

Module Ref.

Definition truncate (q : Q) : Z := Z.quot (Qnum q) (Zpos (Qden q)).

Definition ns3 (asserts : bool) (u : Q) : Ns3 := {|
  NS3_ASSERT_ENABLE := asserts;
  Node_ChecksumEnabled := false;
  aMaxPhyPacketSize := 127;
  aMinMPDUOverhead := 9;
  aBaseSuperframeDuration := 960;
  Time_IsPositive := fun t => 0 <=? t;
  Mac16_IsMulticast := fun a => a / 8192 =? 4;
  PacketHeader_GetSerializedSize :=
    fun h => match h with PH_Mac _ => 9 | PH_Command _ => 1 end;
  Packet_trailerOctets := fun _ => [0; 0];
  SymbolsToTime := fun n => n * 16000;
  AckWaitTime := 54 * 16000;
  CsmaCa_IsUnSlottedCsmaCa := true;
  UniformRandomVariable_GetValue := fun _ lo hi => (lo + u * (hi - lo))%Q;
  Seconds_of_double := fun q => truncate (q * 1000000000);
  MilliSeconds_of_double := fun q => truncate q * 1000000;
  ClockDriftApplier_Apply := fun _ t => t
|}.

Definition same : BaseOp := fun _ b => mkBaseResult b [] [].

Definition enqueue (e : TxQueueElement) : BaseOp :=
  fun _ b => mkBaseResult (set_m_txQueue (m_txQueue b ++ [e]) b) [] [].

Definition removeFirst : BaseOp :=
  fun _ b => mkBaseResult (set_m_txPkt None (set_m_txQueue (tail (m_txQueue b)) b)) [] [].

Definition setState (s : MacState) : BaseOp :=
  fun _ b =>
    match s with
    | MAC_IDLE | MAC_ACK_PENDING | MAC_CSMA =>
      mkBaseResult (set_m_macState s b) [MacStateLogger (m_macState b) s] []
    | CHANNEL_IDLE =>
      if MacState_eqb (m_macState b) MAC_CSMA
      then mkBaseResult (set_m_macState MAC_SENDING b)
             [MacStateLogger MAC_CSMA MAC_SENDING;
              PlmeSetTRXStateRequest IEEE_802_15_4_PHY_TX_ON] []
      else mkBaseResult b [] []
    | _ => mkBaseResult b [] []
    end.

Definition checkQueue : BaseOp :=
  fun t b =>
    match m_txQueue b with
    | e :: _ =>
      if MacState_eqb (m_macState b) MAC_IDLE && negb (IsPending (m_setMacState b))
      then mkBaseResult
             (set_m_setMacState (Some (mkEvent t (H_SetLrWpanMacState MAC_CSMA)))
                (set_m_txPkt (Some (txQPkt e)) b)) [] []
      else mkBaseResult b [] []
    | [] => mkBaseResult b [] []
    end.

Definition setRxOnWhenIdle (v : bool) : BaseOp :=
  fun _ b => mkBaseResult (set_m_macRxOnWhenIdle v b) [] [].

Definition ops : LrWpanMacOps := {|
  LrWpanMac_McpsDataRequest := fun _ _ => same;
  LrWpanMac_PdDataIndication := fun _ _ _ => same;
  LrWpanMac_PdDataConfirm := fun _ => same;
  LrWpanMac_PlmeSetTRXStateConfirm := fun _ => same;
  LrWpanMac_MlmeSetRequest := fun _ _ => same;
  LrWpanMac_MlmeGetRequest := fun _ => same;
  LrWpanMac_IfsWaitTimeout := fun _ => same;
  LrWpanMac_SetLrWpanMacState := setState;
  LrWpanMac_AckWaitTimeout := setState MAC_IDLE;
  LrWpanMac_DoInitialize := same;
  LrWpanMac_DoDispose := same;
  LrWpanMac_SendAck := fun _ => same;
  EnqueueTxQElement := enqueue;
  RemoveFirstTxQElement := removeFirst;
  CheckQueue := checkQueue;
  PrepareRetransmission := same;
  SetRxOnWhenIdle := setRxOnWhenIdle
|}.

(** A constructed base MAC: idle, nothing queued, PAN 0, short address
    [a], the data-confirm and data-indication callbacks bound. *)
Definition baseMac (a : Mac16Address) : LrWpanMac :=
  mkLrWpanMac MAC_IDLE None None [] 0 0 a 0 false false 0 None None None
    true true false false.

(** A data frame of [n] zero octets. *)
Definition payload (n : nat) : Packet := Packet_Create (repeat 0 n).

End Ref.

(** * Properties *)

(** ** The network header codec *)

Lemma u16_octets (v : Z) : is_u16 v -> v mod 256 + 256 * ((v / 256) mod 256) = v.
Proof.
  unfold is_u16. intros Hv.
  rewrite (Z.mod_small (v / 256) 256) by (Z.div_mod_to_equations; lia).
  Z.div_mod_to_equations; lia.
Qed.

Lemma ReadU16_WriteU16 (v : Z) (rest : list Z) :
  is_u16 v -> RitNwkHeader.ReadU16 (RitNwkHeader.WriteU16 v ++ rest) = Some (v, rest).
Proof.
  intros Hv. unfold RitNwkHeader.ReadU16, RitNwkHeader.WriteU16. simpl.
  now rewrite u16_octets.
Qed.

Lemma ReadFrom_WriteTo (a : Mac16Address) (rest : list Z) :
  is_u16 a -> RitNwkHeader.ReadFrom (RitNwkHeader.WriteTo a ++ rest) = Some (a, rest).
Proof.
  intros Ha. unfold RitNwkHeader.ReadFrom, RitNwkHeader.WriteTo. simpl.
  do 2 f_equal. pose proof (u16_octets a Ha). lia.
Qed.

(** C9. For every header whose rank, source and destination are 16-bit
    values, deserializing its serialization gives the same header back
    and consumes six octets; the serialization is six octets long, which
    is what [GetSerializedSize] reports, and it is the rank (low octet
    first), then the source address, then the destination address. *)
Theorem C9_nwk_header_roundtrip (h : RitNwkHeader.t) :
  RitNwkHeader.wf h ->
  RitNwkHeader.Deserialize (RitNwkHeader.Serialize h) = Some (h, 6)
  /\ Z.of_nat (length (RitNwkHeader.Serialize h)) = 6
  /\ RitNwkHeader.GetSerializedSize h = 6
  /\ RitNwkHeader.Serialize h
     = RitNwkHeader.WriteU16 (RitNwkHeader.m_rank h)
       ++ RitNwkHeader.WriteTo (RitNwkHeader.m_srcAddr h)
       ++ RitNwkHeader.WriteTo (RitNwkHeader.m_dstAddr h).
Proof.
  intros (Hr & Hs & Hd). destruct h as [r s d]; simpl in *.
  repeat split.
  unfold RitNwkHeader.Deserialize, RitNwkHeader.Serialize; simpl RitNwkHeader.m_rank;
    simpl RitNwkHeader.m_srcAddr; simpl RitNwkHeader.m_dstAddr.
  rewrite ReadU16_WriteU16 by assumption.
  rewrite ReadFrom_WriteTo by assumption.
  rewrite <- (app_nil_r (RitNwkHeader.WriteTo d)).
  rewrite ReadFrom_WriteTo by assumption.
  reflexivity.
Qed.

Lemma C9_nwk_header_roundtrip_witness :
  RitNwkHeader.wf (RitNwkHeader.mk 2 0x0001 0xFFFF)
  /\ RitNwkHeader.Deserialize (RitNwkHeader.Serialize (RitNwkHeader.mk 2 0x0001 0xFFFF))
     = Some (RitNwkHeader.mk 2 0x0001 0xFFFF, 6).
Proof.
  assert (H : RitNwkHeader.wf (RitNwkHeader.mk 2 0x0001 0xFFFF)).
  { unfold RitNwkHeader.wf, is_u16; simpl; lia. }
  split; [exact H | exact (proj1 (C9_nwk_header_roundtrip _ H))].
Defined.

(** ** The configuration check of the net device *)

(** At most one channel-access flag of a family is set. *)
Definition exclusive (a b c : bool) : bool :=
  negb (a && b) && negb (a && c) && negb (b && c).

Definition config_ok (config : RitWpanMacModuleConfig) : bool :=
  exclusive (dataCsmaEnabled config) (dataPreCsEnabled config) (dataPreCsBEnabled config)
  && exclusive (beaconCsmaEnabled config) (beaconPreCsEnabled config)
       (beaconPreCsBEnabled config).

(** C8. [RitWpanNetDevice::SetRitModuleConfig] ends the run with a fatal
    error, and so before the device or the MAC changes and before any
    event is scheduled, exactly when more than one flag of the data family
    or more than one flag of the beacon family is set. Otherwise it
    returns, the device stores the configuration unchanged, the MAC (when
    there is one) holds the same configuration, and the MAC's pending
    events, its mode and its base state are what they were. *)
Theorem C8_module_config_exclusive (config : RitWpanMacModuleConfig) (d : NetDevice.t) :
  (config_ok config = false ->
     exists what, NetDevice.SetRitModuleConfig config d = Stop (FatalError what))
  /\ (config_ok config = true ->
      exists d', NetDevice.SetRitModuleConfig config d = Ok d'
        /\ NetDevice.nd_moduleConfig d' = config
        /\ match NetDevice.nd_mac d, NetDevice.nd_mac d' with
           | None, None => True
           | Some w, Some w' =>
             Mac.GetModuleConfig (self w') = config
             /\ w' = upd_self (set_m_moduleConfig config) w
             /\ orphans w' = orphans w
             /\ m_periodicRitDataRequestEvent (self w') = m_periodicRitDataRequestEvent (self w)
             /\ m_ritDataWaitTimeout (self w') = m_ritDataWaitTimeout (self w)
             /\ m_ritTxWaitTimeout (self w') = m_ritTxWaitTimeout (self w)
             /\ base (self w') = base (self w)
           | _, _ => False
           end).
Proof.
  destruct config as [dc dp db bc bp bb ct br cr ba].
  unfold config_ok, exclusive, NetDevice.SetRitModuleConfig, NetDevice.dataTxModes,
    NetDevice.beaconTxModes; simpl.
  split; intros H.
  - destruct dc, dp, db, bc, bp, bb; simpl in *; try discriminate; eauto.
  - destruct dc, dp, db, bc, bp, bb; simpl in *; try discriminate;
      destruct (NetDevice.nd_mac d) as [w|]; simpl;
      eexists; (split; [reflexivity|]); simpl; auto 10.
Qed.

Lemma C8_module_config_exclusive_witness :
  (exists what,
     NetDevice.SetRitModuleConfig
       (mkModuleConfig true true false false false false false false false false)
       (NetDevice.mk defaultModuleConfig
          (Some (Mac.initialWorld (Ref.baseMac 1) false)))
     = Stop (FatalError what))
  /\ (exists d',
     NetDevice.SetRitModuleConfig
       (mkModuleConfig true false false false true false false true false false)
       (NetDevice.mk defaultModuleConfig
          (Some (Mac.initialWorld (Ref.baseMac 1) false)))
     = Ok d'
     /\ NetDevice.nd_moduleConfig d'
        = mkModuleConfig true false false false true false false true false false).
Proof.
  split.
  - apply C8_module_config_exclusive.
    reflexivity.
  - destruct (proj2 (C8_module_config_exclusive
               (mkModuleConfig true false false false true false false true false false)
               (NetDevice.mk defaultModuleConfig
                  (Some (Mac.initialWorld (Ref.baseMac 1) false)))) eq_refl)
      as (d' & H1 & H2 & _).
    exists d'. split; assumption.
Defined.

(** ** The RIT MAC *)

Arguments RitMacMode_eqb !a !b /.
Arguments MacState_eqb !a !b /.
Arguments LrWpanMacType_eqb !a !b /.

Lemma RitMacMode_eqb_eq a b : RitMacMode_eqb a b = true <-> a = b.
Proof. destruct a, b; simpl; split; congruence. Qed.

Lemma RitMacMode_eqb_neq a b : RitMacMode_eqb a b = false <-> a <> b.
Proof. destruct a, b; simpl; split; congruence. Qed.

Lemma MacState_eqb_eq a b : MacState_eqb a b = true <-> a = b.
Proof. destruct a, b; simpl; split; congruence. Qed.

Lemma MacState_eqb_neq a b : MacState_eqb a b = false <-> a <> b.
Proof. destruct a, b; simpl; split; congruence. Qed.

Section MacProperties.
Context {ns3 : Ns3} {ops : LrWpanMacOps}.

Definition wp {A} (m : M A) (Q : A -> World -> Prop) (w : World) : Prop :=
  match m w with
  | Ok (a, w') => Q a w'
  | Stop _ => True
  end.

Lemma wp_bind {A B} (m : M A) (k : A -> M B) Q w :
  wp m (fun a w1 => wp (k a) Q w1) w -> wp (bind m k) Q w.
Proof. unfold wp, bind. destruct (m w) as [[a w1]|]; auto. Qed.

Lemma wp_mono {A} (m : M A) (Q Q' : A -> World -> Prop) w :
  wp m Q w -> (forall a w', Q a w' -> Q' a w') -> wp m Q' w.
Proof. unfold wp. destruct (m w) as [[a w1]|]; auto. Qed.

Lemma wp_exec {A} (m : M A) Q w w' :
  wp m (fun _ => Q) w -> exec m w = Ok w' -> Q w'.
Proof. unfold wp, exec. destruct (m w) as [[a w1]|]; [|discriminate]. congruence. Qed.

Lemma wp_ret {A} (a : A) Q w : Q a w -> wp (ret a) Q w.
Proof. auto. Qed.

Lemma wp_gets {A} (f : World -> A) Q w : Q (f w) w -> wp (gets f) Q w.
Proof. auto. Qed.

Lemma wp_modify (f : World -> World) Q w : Q tt (f w) -> wp (modify f) Q w.
Proof. auto. Qed.

Lemma wp_stop {A} why (Q : A -> World -> Prop) w : wp (stop why) Q w.
Proof. exact I. Qed.

Lemma wp_assert what c Q w :
  (NS3_ASSERT_ENABLE = true -> c = true -> Q tt w) ->
  (NS3_ASSERT_ENABLE = false -> Q tt w) ->
  wp (NS_ASSERT what c) Q w.
Proof.
  unfold wp, NS_ASSERT. destruct NS3_ASSERT_ENABLE, c; cbn; auto.
Qed.

Lemma wp_callBase (op : BaseOp) Q w :
  Q tt (set_orphans (orphans w ++ br_orphans (op (now w) (base (self w))))
          (set_out (out w ++ br_out (op (now w) (base (self w))))
             (upd_base (fun _ => br_mac (op (now w) (base (self w)))) w))) ->
  wp (callBase op) Q w.
Proof. auto. Qed.

Definition mode_of (w : World) : RitMacMode := m_ritMacMode (self w).
Definition periodic_of (w : World) : EventId := m_periodicRitDataRequestEvent (self w).

(** Relative to [w0], the world [w] still has the periodic event of [w0],
    and its mode is that of [w0] or both are modes of a running cycle. *)
Definition inCycle (w0 w : World) : Prop :=
  periodic_of w = periodic_of w0
  /\ (mode_of w = mode_of w0
      \/ (mode_of w0 <> RIT_MODE_DISABLED /\ mode_of w <> RIT_MODE_DISABLED)).

Lemma inCycle_refl w : inCycle w w.
Proof. split; auto. Qed.

Ltac prim :=
  unfold getm, getb, setm, setb, emit, when, Cancel, Schedule, ScheduleNow, draw,
    Mac.confirm, Mac.frontMsduHandle, deref, undefined, NS_ABORT_MSG_IF.

Ltac wp_step :=
  match goal with
  | |- wp (bind _ _) _ _ => apply wp_bind
  | |- wp (NS_ASSERT _ _) _ _ => apply wp_assert; intros; try congruence
  | |- wp (ret _) _ _ => apply wp_ret
  | |- wp (gets _) _ _ => apply wp_gets
  | |- wp (modify _) _ _ => apply wp_modify
  | |- wp (stop _) _ _ => apply wp_stop
  | |- wp (callBase _) _ _ => apply wp_callBase
  | |- wp (if ?c then _ else _) _ _ => destruct c eqn:?
  | |- wp (match ?x with _ => _ end) _ _ => destruct x eqn:?
  end; cbv beta.

Ltac modes :=
  repeat match goal with
  | H : RitMacMode_eqb _ _ = true |- _ => apply RitMacMode_eqb_eq in H
  | H : RitMacMode_eqb _ _ = false |- _ => apply RitMacMode_eqb_neq in H
  | H : _ && _ = true |- _ => apply andb_prop in H; destruct H
  end.

Ltac cyc :=
  unfold inCycle, mode_of, periodic_of in *; cbn in *; modes;
  try solve [intuition congruence].

Ltac wp_call := fail.

Ltac wp_auto :=
  repeat first [ wp_step | progress prim | wp_call ].

Ltac unfold_time :=
  unfold Mac.GetRitPeriodTime, Mac.GetRitDataWaitDurationTime, Mac.GetRitTxWaitDurationTime,
    Mac.DurationToTime, TimeDriftApplier.ApplyByRatio.

(** *** What a call does to the mode and to the periodic event *)

(** The periodic event is pending exactly when the mode is not Disabled,
    and what is pending there is [PeriodicRitDataRequest]. *)
Definition cycle_invariant (w : World) : Prop :=
  IsPending (periodic_of w) = negb (RitMacMode_eqb (mode_of w) RIT_MODE_DISABLED)
  /\ (forall e, periodic_of w = Some e -> ev_handler e = H_PeriodicRitDataRequest).

Definition cycle_view (w : World) : RitMacMode * EventId := (mode_of w, periodic_of w).

Ltac view := unfold cycle_view, mode_of, periodic_of in *; cbn in *; modes.

Ltac view_solve :=
  view;
  first [ congruence
        | f_equal; congruence
        | repeat match goal with
                 | H : m_ritMacMode _ = _ |- _ => rewrite H
                 | H : m_periodicRitDataRequestEvent _ = _ |- _ => rewrite H
                 end; reflexivity ].

Ltac wp_view lem :=
  eapply wp_mono; [ apply lem; first [ eassumption | view_solve ] | cbv beta; intros ].

Lemma ChangeMacState_view s v w :
  cycle_view w = v -> wp (Mac.ChangeMacState s) (fun _ w' => cycle_view w' = v) w.
Proof. intros H. unfold Mac.ChangeMacState. wp_auto. exact H. Qed.

Lemma SetLrWpanMacState_idle_view v w :
  cycle_view w = v -> wp (Mac.SetLrWpanMacState MAC_IDLE) (fun _ w' => cycle_view w' = v) w.
Proof.
  intros H. unfold Mac.SetLrWpanMacState. wp_step. wp_step. wp_step.
  { wp_step. exact H. }
  rewrite andb_false_r. cbv iota. wp_step. exact H.
Qed.

Lemma StartRitTxWaitPeriod_view v w :
  cycle_view w = v -> wp Mac.StartRitTxWaitPeriod (fun _ w' => cycle_view w' = v) w.
Proof.
  intros H. unfold Mac.StartRitTxWaitPeriod. unfold_time.
  repeat first [ wp_step | progress prim | wp_view SetLrWpanMacState_idle_view ].
  all: view; congruence.
Qed.

Lemma DoSendRitDataRequest_view v w :
  cycle_view w = v -> wp Mac.DoSendRitDataRequest (fun _ w' => cycle_view w' = v) w.
Proof.
  intros H. unfold Mac.DoSendRitDataRequest.
  repeat first [ wp_step | progress prim | wp_view ChangeMacState_view ].
  all: view; congruence.
Qed.

(** [CheckTxAndStartSender] leaves the periodic event alone; it returns
    [true] having entered sender mode, or [false] having done nothing. *)
Lemma CheckTxAndStartSender_spec w :
  wp Mac.CheckTxAndStartSender
     (fun r w' => periodic_of w' = periodic_of w
                  /\ (if r then mode_of w' = SENDER_MODE else mode_of w' = mode_of w)) w.
Proof.
  unfold Mac.CheckTxAndStartSender, Mac.ChangeRitMacMode.
  repeat first [ wp_step | progress prim ].
  all: try solve [ view; auto ].
  all: wp_view (StartRitTxWaitPeriod_view (SENDER_MODE, periodic_of w)).
  all: wp_step; view; split; congruence.
Qed.

(** What [PeriodicRitDataRequest] does after re-arming itself: the
    periodic event stays, and the mode it leaves is sender or receiver. *)
Lemma PeriodicRitDataRequest_tail w :
  wp (if RitMacMode_eqb (mode_of w) SENDER_MODE then ret tt
      else
        started <- Mac.CheckTxAndStartSender;;
        if started then ret tt
        else Mac.ChangeRitMacMode RECEIVER_MODE;; Mac.DoSendRitDataRequest)
     (fun _ w' => periodic_of w' = periodic_of w
                  /\ (mode_of w' = SENDER_MODE \/ mode_of w' = RECEIVER_MODE)) w.
Proof.
  destruct (RitMacMode_eqb (mode_of w) SENDER_MODE) eqn:Hm.
  { apply wp_ret. apply RitMacMode_eqb_eq in Hm. auto. }
  apply wp_bind. eapply wp_mono; [apply CheckTxAndStartSender_spec|].
  cbv beta. intros [] w1 [Hp Hmode].
  { apply wp_ret. auto. }
  unfold Mac.ChangeRitMacMode. repeat first [ wp_step | progress prim ].
  all: wp_view (DoSendRitDataRequest_view (RECEIVER_MODE, periodic_of w)).
  all: view; split; [congruence|right; congruence].
Qed.

Ltac wp_tail :=
  match goal with
  | |- wp (if RitMacMode_eqb _ SENDER_MODE then ret tt else _) _ ?w =>
    eapply wp_mono; [ exact (PeriodicRitDataRequest_tail w) | cbv beta; intros ? ? [? ?] ]
  end.

Lemma PeriodicRitDataRequest_invariant w :
  wp Mac.PeriodicRitDataRequest (fun _ w' => cycle_invariant w') w.
Proof.
  unfold Mac.PeriodicRitDataRequest. unfold_time.
  repeat first [ wp_tail | wp_step | progress prim ].
  all: unfold cycle_invariant; view.
  all: match goal with H : m_periodicRitDataRequestEvent _ = Some _ |- _ => rewrite H end.
  all: split; [|intros ? [= <-]; reflexivity].
  all: match goal with H : _ \/ _ |- _ => destruct H as [-> | ->]; reflexivity end.
Qed.

Lemma StopRitCycle_invariant w :
  wp Mac.StopRitCycle (fun _ w' => cycle_invariant w') w.
Proof.
  unfold Mac.StopRitCycle, Mac.ChangeRitMacMode.
  repeat first [ wp_step | progress prim ].
  all: wp_view (SetLrWpanMacState_idle_view (RIT_MODE_DISABLED, None)).
  all: unfold cycle_invariant; view.
  all: match goal with H : (_, _) = (_, _) |- _ => injection H as -> -> end.
  all: split; [reflexivity | discriminate].
Qed.

Lemma StartRitCycle_invariant w :
  cycle_invariant w -> wp Mac.StartRitCycle (fun _ w' => cycle_invariant w') w.
Proof.
  intros H. unfold Mac.StartRitCycle, Mac.ChangeRitMacMode. unfold_time.
  repeat first [ wp_step | progress prim ].
  all: try exact H.
  all: unfold cycle_invariant; view.
  all: try match goal with Hm : m_ritMacMode _ = _ |- _ => rewrite Hm end.
  all: split; [reflexivity | intros ? [= <-]; reflexivity].
Qed.

Lemma MlmeSetRequest_invariant id attribute w :
  cycle_invariant w -> wp (Mac.MlmeSetRequest id attribute) (fun _ w' => cycle_invariant w') w.
Proof.
  intros H. unfold Mac.MlmeSetRequest.
  repeat first [ wp_step | progress prim
               | eapply wp_mono; [ apply StopRitCycle_invariant | cbv beta; intros ]
               | eapply wp_mono; [ apply StartRitCycle_invariant; exact H | cbv beta; intros ] ].
  all: try exact H; try assumption.
Qed.

Lemma DoInitialize_invariant w :
  mode_of w <> RIT_MODE_DISABLED -> cycle_invariant w ->
  wp Mac.DoInitialize (fun _ w' => cycle_invariant w') w.
Proof.
  intros Hm H. unfold Mac.DoInitialize, Mac.ChangeRitMacMode.
  repeat first [ wp_step | progress prim ].
  all: try exact H.
  all: destruct H as [H1 H2]; split; [|exact H2]; view.
  all: rewrite H1; apply RitMacMode_eqb_neq in Hm; now rewrite Hm.
Qed.

(** *** Total correctness *)

Definition wpt {A} (m : M A) (Q : A -> World -> Prop) (w : World) : Prop :=
  match m w with
  | Ok (a, w') => Q a w'
  | Stop _ => False
  end.

Lemma wpt_bind {A B} (m : M A) (k : A -> M B) Q w :
  wpt m (fun a w1 => wpt (k a) Q w1) w -> wpt (bind m k) Q w.
Proof. unfold wpt, bind. destruct (m w) as [[a w1]|]; auto. Qed.

Lemma wpt_mono {A} (m : M A) (Q Q' : A -> World -> Prop) w :
  wpt m Q w -> (forall a w', Q a w' -> Q' a w') -> wpt m Q' w.
Proof. unfold wpt. destruct (m w) as [[a w1]|]; auto. Qed.

Lemma wpt_exec {A} (m : M A) (Q : World -> Prop) w :
  wpt m (fun _ => Q) w -> exists w', exec m w = Ok w' /\ Q w'.
Proof. unfold wpt, exec. destruct (m w) as [[a w1]|]; [eauto|contradiction]. Qed.

Lemma wpt_ret {A} (a : A) Q w : Q a w -> wpt (ret a) Q w.
Proof. auto. Qed.

Lemma wpt_gets {A} (f : World -> A) Q w : Q (f w) w -> wpt (gets f) Q w.
Proof. auto. Qed.

Lemma wpt_modify (f : World -> World) Q w : Q tt (f w) -> wpt (modify f) Q w.
Proof. auto. Qed.

Lemma wpt_assert what c Q w :
  NS3_ASSERT_ENABLE = false \/ c = true -> Q tt w -> wpt (NS_ASSERT what c) Q w.
Proof.
  unfold wpt, NS_ASSERT. intros [-> | ->]; [|rewrite andb_false_r]; cbn; auto.
Qed.

Lemma wpt_callBase (op : BaseOp) Q w :
  Q tt (set_orphans (orphans w ++ br_orphans (op (now w) (base (self w))))
          (set_out (out w ++ br_out (op (now w) (base (self w))))
             (upd_base (fun _ => br_mac (op (now w) (base (self w)))) w))) ->
  wpt (callBase op) Q w.
Proof. auto. Qed.

Ltac wpt_step :=
  match goal with
  | |- wpt (bind _ _) _ _ => apply wpt_bind
  | |- wpt (ret _) _ _ => apply wpt_ret
  | |- wpt (gets _) _ _ => apply wpt_gets
  | |- wpt (modify _) _ _ => apply wpt_modify
  | |- wpt (callBase _) _ _ => apply wpt_callBase
  end; cbv beta.

(** [SetLrWpanMacState (MAC_IDLE)] is the base class's. *)
Lemma SetLrWpanMacState_idle w :
  Mac.SetLrWpanMacState MAC_IDLE w = callBase (LrWpanMac_SetLrWpanMacState MAC_IDLE) w.
Proof.
  unfold Mac.SetLrWpanMacState, bind, gets. cbv beta iota.
  destruct (negb _); [reflexivity|]. now rewrite andb_false_r.
Qed.

Lemma wpt_SetLrWpanMacState_idle Q w :
  wpt (callBase (LrWpanMac_SetLrWpanMacState MAC_IDLE)) Q w ->
  wpt (Mac.SetLrWpanMacState MAC_IDLE) Q w.
Proof. unfold wpt. now rewrite SetLrWpanMacState_idle. Qed.

(** The three timers that [StopRitCycle] cancels. *)
Definition cycle_stopped (w : World) : Prop :=
  m_periodicRitDataRequestEvent (self w) = None
  /\ m_ritDataWaitTimeout (self w) = None
  /\ m_ritTxWaitTimeout (self w) = None
  /\ m_ritMacMode (self w) = RIT_MODE_DISABLED.

Lemma StopRitCycle_stops w :
  NS3_ASSERT_ENABLE = false \/ Mac.IsRitModeEnabled (self w) = true ->
  wpt Mac.StopRitCycle
      (fun _ w' => cycle_stopped w' /\ now w' = now w
                   /\ forall e, In e (orphans w') ->
                        In e (orphans w)
                        \/ In e (br_orphans (LrWpanMac_SetLrWpanMacState MAC_IDLE (now w)
                                               (base (self w))))) w.
Proof.
  intros Hen. unfold Mac.StopRitCycle, Mac.ChangeRitMacMode. prim.
  wpt_step. wpt_step. wpt_step. apply wpt_assert; [exact Hen|].
  repeat wpt_step.
  destruct (RitMacMode_eqb _ _) eqn:Hm; repeat wpt_step;
    apply wpt_SetLrWpanMacState_idle; wpt_step;
    unfold cycle_stopped; cbn; modes;
    (repeat split; auto; intros e He; apply in_app_or in He; exact He).
Qed.

(** *** Calls that stop *)

(** A call that stops, and why. *)
Definition stops {A} (m : M A) (why : StopReason) (w : World) : Prop :=
  m w = Stop why.

Lemma stops_bind {A B} (m : M A) (k : A -> M B) why w :
  wpt m (fun a w1 => stops (k a) why w1) w -> stops (bind m k) why w.
Proof. unfold wpt, stops, bind. destruct (m w) as [[a w1]|]; [auto|contradiction]. Qed.

Lemma stops_first {A B} (m : M A) (k : A -> M B) why w :
  stops m why w -> stops (bind m k) why w.
Proof. unfold stops, bind. now intros ->. Qed.

Lemma stops_assert what c w :
  NS3_ASSERT_ENABLE = true -> c = false -> stops (NS_ASSERT what c) (AssertFailed what) w.
Proof. unfold stops, NS_ASSERT. now intros -> ->. Qed.

Lemma stops_exec {A} (m : M A) why w : stops m why w -> exec m w = Stop why.
Proof. unfold stops, exec. now intros ->. Qed.

Ltac stops_step :=
  match goal with
  | |- stops (bind (if _ then _ else _) _) _ _ => fail 1
  | |- stops (bind _ _) _ _ => apply stops_bind; cbv beta
  end.

(** *** MCPS-DATA.request: what is rejected, and how *)

Inductive Verdict : Type :=
| Rejected (status : MacStatus)
| Aborted
| Accepted.

(** One of the three addressing modes that [McpsDataRequest] serves. *)
Definition defined_mode (mode : Z) : bool :=
  (mode =? NO_PANID_ADDR) || (mode =? SHORT_ADDR) || (mode =? EXT_ADDR).

(** The checks of [McpsDataRequest] in the order the function makes
    them, with the reserved addressing mode told apart from a value
    outside the enumeration. *)
Definition verdict (params : McpsDataRequestParams) (p : Packet) : Verdict :=
  if aMaxPhyPacketSize - aMinMPDUOverhead <? Packet_GetSize p then Rejected FRAME_TOO_LONG
  else if (req_srcAddrMode params =? NO_PANID_ADDR)
          && (req_dstAddrMode params =? NO_PANID_ADDR) then Rejected INVALID_ADDRESS
  else if req_srcAddrMode params =? ADDR_MODE_RESERVED then Aborted
  else if negb (defined_mode (req_srcAddrMode params)) then Rejected INVALID_ADDRESS
  else if req_dstAddrMode params =? ADDR_MODE_RESERVED then Aborted
  else if negb (defined_mode (req_dstAddrMode params)) then Rejected INVALID_ADDRESS
  else if (Z.land (req_txOptions params) TX_OPTION_GTS =? TX_OPTION_GTS)
          || (Z.land (req_txOptions params) TX_OPTION_INDIRECT =? TX_OPTION_INDIRECT)
       then Rejected INVALID_PARAMETER
  else Accepted.

(** The confirm a rejected request makes: one, with the request's handle,
    when a confirm callback is bound. *)
Definition confirmed (w : World) (params : McpsDataRequestParams) (status : MacStatus) :
    list Action :=
  if m_mcpsDataConfirmCallback (base (self w))
  then [McpsDataConfirmCallback (mkMcpsDataConfirmParams (req_msduHandle params) status)]
  else [].

(** The world after a rejected request: the sequence number was taken,
    the confirm was made, nothing else moved. *)
Definition rejected (w : World) (params : McpsDataRequestParams) (status : MacStatus) : World :=
  let w1 := upd_base (set_m_macDsn (wrap8 (m_macDsn (base (self w)) + 1))) w in
  if m_mcpsDataConfirmCallback (base (self w))
  then set_out (out w1 ++ confirmed w params status) w1
  else w1.

Ltac zb :=
  repeat match goal with
  | H : (_ =? _) = true |- _ => apply Z.eqb_eq in H
  | H : (_ =? _) = false |- _ => apply Z.eqb_neq in H
  end.

Lemma McpsDataRequest_verdict (w : World) (params : McpsDataRequestParams) (p : Packet) :
  Mac.IsRitModeEnabled (self w) = true ->
  match verdict params p with
  | Rejected status => exec (Mac.McpsDataRequest params p) w = Ok (rejected w params status)
  | Aborted => exists what, exec (Mac.McpsDataRequest params p) w = Stop (AbortMsg what)
  | Accepted => True
  end.
Proof.
  intros Hen.
  unfold verdict, Mac.McpsDataRequest, Mac.switchSrcAddrMode, Mac.switchDstAddrMode,
    defined_mode, rejected, confirmed.
  unfold exec, bind, ret, gets, getm, getb, setm, setb, modify, emit, when, stop, Mac.confirm.
  rewrite Hen. cbn [negb].
  destruct (_ <? Packet_GetSize p).
  { cbn. destruct (m_mcpsDataConfirmCallback _); reflexivity. }
  destruct (req_srcAddrMode params =? NO_PANID_ADDR) eqn:Hs0;
  destruct (req_dstAddrMode params =? NO_PANID_ADDR) eqn:Hd0;
  destruct (req_srcAddrMode params =? ADDR_MODE_RESERVED) eqn:Hs1;
  destruct (req_dstAddrMode params =? ADDR_MODE_RESERVED) eqn:Hd1;
  destruct (req_srcAddrMode params =? SHORT_ADDR) eqn:Hs2;
  destruct (req_dstAddrMode params =? SHORT_ADDR) eqn:Hd2;
  destruct (req_srcAddrMode params =? EXT_ADDR) eqn:Hs3;
  destruct (req_dstAddrMode params =? EXT_ADDR) eqn:Hd3;
  try (exfalso; zb; unfold NO_PANID_ADDR, ADDR_MODE_RESERVED, SHORT_ADDR, EXT_ADDR in *; lia);
  cbn [andb orb negb];
  try (eexists; reflexivity);
  try (cbn; destruct (m_mcpsDataConfirmCallback _); reflexivity);
  destruct (_ || _); try exact I; cbn; destruct (m_mcpsDataConfirmCallback _); reflexivity.
Qed.

(** C2 (as amended). On a RIT-enabled MAC the checks of [McpsDataRequest]
    are made in the order of [verdict] and the first that applies decides.
    A rejected request returns having made one confirm (when a confirm
    callback is bound), with the request's handle and the status of the
    check (FRAME_TOO_LONG for a packet above [aMaxPhyPacketSize -
    aMinMPDUOverhead], INVALID_ADDRESS for two absent addresses or for a
    mode outside the enumeration, INVALID_PARAMETER for the GTS or the
    INDIRECT option), and leaves the transmit queue, the mode and every
    timer as they were. A source or destination mode equal to
    ADDR_MODE_RESERVED makes no confirm: the run is aborted. *)
Theorem C2_mcps_data_request_rejections
    (w : World) (params : McpsDataRequestParams) (p : Packet) :
  Mac.IsRitModeEnabled (self w) = true ->
  (forall status, verdict params p = Rejected status ->
     exists w', exec (Mac.McpsDataRequest params p) w = Ok w'
       /\ out w' = out w ++ confirmed w params status
       /\ m_txQueue (base (self w')) = m_txQueue (base (self w))
       /\ m_ritMacMode (self w') = m_ritMacMode (self w)
       /\ m_periodicRitDataRequestEvent (self w') = m_periodicRitDataRequestEvent (self w)
       /\ m_ritDataWaitTimeout (self w') = m_ritDataWaitTimeout (self w)
       /\ m_ritTxWaitTimeout (self w') = m_ritTxWaitTimeout (self w))
  /\ (verdict params p = Aborted ->
        exists what, exec (Mac.McpsDataRequest params p) w = Stop (AbortMsg what))
  /\ (aMaxPhyPacketSize - aMinMPDUOverhead < Packet_GetSize p ->
        verdict params p = Rejected FRAME_TOO_LONG)
  /\ (Packet_GetSize p <= aMaxPhyPacketSize - aMinMPDUOverhead ->
      req_srcAddrMode params = NO_PANID_ADDR -> req_dstAddrMode params = NO_PANID_ADDR ->
        verdict params p = Rejected INVALID_ADDRESS)
  /\ (Packet_GetSize p <= aMaxPhyPacketSize - aMinMPDUOverhead ->
      req_srcAddrMode params = ADDR_MODE_RESERVED ->
        verdict params p = Aborted)
  /\ (Packet_GetSize p <= aMaxPhyPacketSize - aMinMPDUOverhead ->
      req_srcAddrMode params = SHORT_ADDR -> req_dstAddrMode params = SHORT_ADDR ->
      Z.land (req_txOptions params) TX_OPTION_GTS = TX_OPTION_GTS
      \/ Z.land (req_txOptions params) TX_OPTION_INDIRECT = TX_OPTION_INDIRECT ->
        verdict params p = Rejected INVALID_PARAMETER).
Proof.
  intros Hen. pose proof (McpsDataRequest_verdict w params p Hen) as Hv.
  split; [|split; [|split; [|split; [|split]]]].
  - intros status Hs. rewrite Hs in Hv. exists (rejected w params status).
    split; [exact Hv|]. unfold rejected, confirmed.
    destruct (m_mcpsDataConfirmCallback _); cbn; rewrite ?app_nil_r; auto 10.
  - intros Ha. now rewrite Ha in Hv.
  - intros Hlen. unfold verdict.
    destruct (Z.ltb_spec (aMaxPhyPacketSize - aMinMPDUOverhead) (Packet_GetSize p));
      [reflexivity | lia].
  - intros Hlen Hs Hd. unfold verdict.
    destruct (Z.ltb_spec (aMaxPhyPacketSize - aMinMPDUOverhead) (Packet_GetSize p));
      [lia|]. now rewrite Hs, Hd.
  - intros Hlen Hs. unfold verdict.
    destruct (Z.ltb_spec (aMaxPhyPacketSize - aMinMPDUOverhead) (Packet_GetSize p));
      [lia|]. now rewrite Hs.
  - intros Hlen Hs Hd Hopt. unfold verdict, defined_mode.
    destruct (Z.ltb_spec (aMaxPhyPacketSize - aMinMPDUOverhead) (Packet_GetSize p));
      [lia|]. rewrite Hs, Hd. cbn.
    destruct Hopt as [-> | ->]; cbn; [reflexivity|]. now rewrite orb_true_r.
Qed.

(** *** MLME-SET of the RIT period *)

(** The value of [GetRitPeriodTime] and of [GetRitDataWaitDurationTime]. *)
Definition effectivePeriod (m : RitWpanMac) : Time :=
  if m_useTimeBasedRitParams m then m_macRitPeriodTime m
  else SymbolsToTime ((m_macRitPeriod m * aBaseSuperframeDuration) mod 2 ^ 64).

Definition effectiveDataWait (m : RitWpanMac) : Time :=
  if m_useTimeBasedRitParams m then m_macRitDataWaitDurationTime m
  else SymbolsToTime ((m_macRitDataWaitDuration m * aBaseSuperframeDuration) mod 2 ^ 64).

Lemma GetRitPeriodTime_value w :
  Mac.GetRitPeriodTime w = Ok (effectivePeriod (self w), w).
Proof.
  unfold Mac.GetRitPeriodTime, Mac.DurationToTime, effectivePeriod, bind, gets, getm, ret,
    NS_ASSERT.
  cbv beta iota. destruct (m_useTimeBasedRitParams (self w)) eqn:Htb; [reflexivity|].
  cbn. rewrite Htb. cbn. now rewrite andb_false_r.
Qed.

Lemma GetRitDataWaitDurationTime_value w :
  Mac.GetRitDataWaitDurationTime w = Ok (effectiveDataWait (self w), w).
Proof.
  unfold Mac.GetRitDataWaitDurationTime, Mac.DurationToTime, effectiveDataWait, bind, gets,
    getm, ret, NS_ASSERT.
  cbv beta iota. destruct (m_useTimeBasedRitParams (self w)) eqn:Htb; [reflexivity|].
  cbn. rewrite Htb. cbn. now rewrite andb_false_r.
Qed.

Lemma wpt_GetRitPeriodTime Q w :
  Q (effectivePeriod (self w)) w -> wpt Mac.GetRitPeriodTime Q w.
Proof. unfold wpt. now rewrite GetRitPeriodTime_value. Qed.

Lemma wpt_GetRitDataWaitDurationTime Q w :
  Q (effectiveDataWait (self w)) w -> wpt Mac.GetRitDataWaitDurationTime Q w.
Proof. unfold wpt. now rewrite GetRitDataWaitDurationTime_value. Qed.

(** When the call started the cycle. *)
Definition cycle_started (w w' : World) : Prop :=
  m_ritMacMode (self w') = SLEEP_MODE
  /\ m_periodicRitDataRequestEvent (self w')
     = Some (mkEvent
               (now w + Seconds_of_double
                          (UniformRandomVariable_GetValue (draws w) 0
                             (TimeDriftApplier.GetSeconds (effectivePeriod (self w)))))
               H_PeriodicRitDataRequest).

(** When the call left the cycle as it was. *)
Definition cycle_untouched (w w' : World) : Prop :=
  m_ritMacMode (self w') = m_ritMacMode (self w)
  /\ m_periodicRitDataRequestEvent (self w') = m_periodicRitDataRequestEvent (self w)
  /\ m_ritDataWaitTimeout (self w') = m_ritDataWaitTimeout (self w)
  /\ m_ritTxWaitTimeout (self w') = m_ritTxWaitTimeout (self w).

(** What [StartRitCycle] does, case by case. *)
Lemma StartRitCycle_cases w :
  Mac.IsRitModeEnabled (self w) = true ->
  if NS3_ASSERT_ENABLE && (effectivePeriod (self w) <? effectiveDataWait (self w))
  then stops Mac.StartRitCycle (AssertFailed "period >= dataWait") w
  else if negb (MacState_eqb (m_macState (base (self w))) MAC_IDLE)
  then wpt Mac.StartRitCycle (fun _ w' => now w' = now w /\ cycle_untouched w w') w
  else if NS3_ASSERT_ENABLE && IsPending (m_periodicRitDataRequestEvent (self w))
  then stops Mac.StartRitCycle
         (AssertFailed "!m_periodicRitDataRequestEvent.IsPending()") w
  else wpt Mac.StartRitCycle (fun _ w' => now w' = now w /\ cycle_started w w') w.
Proof.
  intros Hen.
  destruct (NS3_ASSERT_ENABLE && (_ <? _)) eqn:Hwait.
  { apply andb_prop in Hwait. destruct Hwait as [Hon Hlt].
    unfold Mac.StartRitCycle.
    apply stops_bind. wpt_step. apply stops_bind. apply wpt_assert; [now right|].
    apply stops_bind. apply wpt_GetRitPeriodTime.
    apply stops_bind. apply wpt_GetRitDataWaitDurationTime.
    apply stops_first. apply stops_assert; [exact Hon|].
    apply Z.leb_gt. now apply Z.ltb_lt. }
  assert (Hle : NS3_ASSERT_ENABLE = false
                \/ (effectiveDataWait (self w) <=? effectivePeriod (self w)) = true).
  { destruct NS3_ASSERT_ENABLE; [right|now left]. cbn in Hwait.
    apply Z.leb_le. apply Z.ltb_ge in Hwait. exact Hwait. }
  destruct (MacState_eqb (m_macState (base (self w))) MAC_IDLE) eqn:Hst; cbn [negb].
  2: { unfold Mac.StartRitCycle. wpt_step. wpt_step. wpt_step.
       apply wpt_assert; [now right|].
       wpt_step. apply wpt_GetRitPeriodTime. wpt_step. apply wpt_GetRitDataWaitDurationTime.
       wpt_step. apply wpt_assert; [exact Hle|]. rewrite Hst. cbn [negb].
       wpt_step. unfold cycle_untouched. auto. }
  destruct (NS3_ASSERT_ENABLE && IsPending _) eqn:Hpend.
  { apply andb_prop in Hpend. destruct Hpend as [Hon Hp].
    unfold Mac.StartRitCycle.
    apply stops_bind. wpt_step. apply stops_bind. apply wpt_assert; [now right|].
    apply stops_bind. apply wpt_GetRitPeriodTime.
    apply stops_bind. apply wpt_GetRitDataWaitDurationTime.
    apply stops_bind. apply wpt_assert; [exact Hle|]. rewrite Hst. cbn [negb].
    apply stops_first. apply stops_assert; [exact Hon|]. now rewrite Hp. }
  unfold Mac.StartRitCycle, Mac.ChangeRitMacMode. prim.
  wpt_step. wpt_step. wpt_step. apply wpt_assert; [now right|].
  wpt_step. apply wpt_GetRitPeriodTime. wpt_step. apply wpt_GetRitDataWaitDurationTime.
  wpt_step. apply wpt_assert; [exact Hle|]. rewrite Hst. cbn [negb].
  wpt_step. apply wpt_assert.
  { destruct NS3_ASSERT_ENABLE; [right|now left]. cbn in Hpend. now rewrite Hpend. }
  repeat wpt_step.
  destruct (RitMacMode_eqb _ _) eqn:Hm; repeat wpt_step;
    unfold cycle_started; cbn; modes; repeat split; auto.
Qed.

(** The two attributes that carry the RIT period. *)
Definition is_period_attribute (id : MacPibAttributeIdentifier) : bool :=
  match id with
  | macRitPeriod | macRitPeriodTime => true
  | _ => false
  end.

Definition period_value (id : MacPibAttributeIdentifier) (attribute : MacPibAttributes) : Z :=
  match id with
  | macRitPeriod => pib_macRitPeriod attribute
  | _ => pib_macRitPeriodTime attribute
  end.

(** The MAC once the attribute is stored. *)
Definition with_period (id : MacPibAttributeIdentifier) (attribute : MacPibAttributes)
    (w : World) : World :=
  match id with
  | macRitPeriod => upd_self (set_m_macRitPeriod (pib_macRitPeriod attribute)) w
  | _ => upd_self (set_m_macRitPeriodTime (pib_macRitPeriodTime attribute)) w
  end.

Ltac wpt_confirm :=
  match goal with
  | |- wpt (if ?c then _ else _) _ _ => destruct c
  end; repeat wpt_step.

(** The MAC is enabled once a period that is not negative is stored. *)
Lemma with_period_enabled (w : World) id attribute :
  is_period_attribute id = true ->
  (forall t, 0 <= t -> Time_IsPositive t = true) ->
  m_useTimeBasedRitParams (self w) = true ->
  0 <= m_macRitPeriodTime (self w) ->
  0 <= period_value id attribute ->
  Mac.IsRitModeEnabled (self (with_period id attribute w)) = true.
Proof.
  intros Hid Hpos Htb Hold Hnew. unfold Mac.IsRitModeEnabled.
  destruct id; try discriminate Hid; cbn in *; rewrite Htb; auto.
Qed.

(** C1 (as amended). The parameters are time-based, as the constructor
    leaves them and no member changes them, [Time::IsPositive] is
    [>= 0] as in ns-3, and the time period of the MAC is not negative.
    Storing a zero period through MLME-SET (either attribute) cancels
    the periodic event, the data-wait timeout and the TX-wait timeout and
    makes the mode Disabled before the call returns, at the same virtual
    instant; none of the cancelled events is left in the simulator's
    queue. Storing a positive period while the mode is Disabled:
    - in a build with assertions, when the data-wait duration exceeds
      the period, the run stops at [StartRitCycle]'s assertion, whatever
      the state of the base MAC;
    - otherwise, when the base MAC is not idle, the call returns with the
      mode and the timers as they were;
    - otherwise, in a build with assertions, when a periodic event is
      pending, the run stops at the assertion that none is;
    - otherwise the cycle is started: the mode is Sleep and the periodic
      event is scheduled after the drawn initial delay. *)
Theorem C1_period_stops_and_starts_cycle
    (w : World) (id : MacPibAttributeIdentifier) (attribute : MacPibAttributes) :
  is_period_attribute id = true ->
  (forall t, 0 <= t -> Time_IsPositive t = true) ->
  m_useTimeBasedRitParams (self w) = true ->
  0 <= m_macRitPeriodTime (self w) ->
  (period_value id attribute = 0 ->
   exists w', exec (Mac.MlmeSetRequest id attribute) w = Ok w'
     /\ cycle_stopped w' /\ now w' = now w
     /\ forall e, In e (orphans w') ->
          In e (orphans w)
          \/ In e (br_orphans (LrWpanMac_SetLrWpanMacState MAC_IDLE (now w)
                                 (base (self w)))))
  /\ (0 < period_value id attribute ->
      m_ritMacMode (self w) = RIT_MODE_DISABLED ->
      if NS3_ASSERT_ENABLE
         && (effectivePeriod (self (with_period id attribute w))
             <? effectiveDataWait (self (with_period id attribute w)))
      then exec (Mac.MlmeSetRequest id attribute) w
           = Stop (AssertFailed "period >= dataWait")
      else if negb (MacState_eqb (m_macState (base (self w))) MAC_IDLE)
      then exists w', exec (Mac.MlmeSetRequest id attribute) w = Ok w'
             /\ now w' = now w /\ cycle_untouched w w'
      else if NS3_ASSERT_ENABLE && IsPending (m_periodicRitDataRequestEvent (self w))
      then exec (Mac.MlmeSetRequest id attribute) w
           = Stop (AssertFailed "!m_periodicRitDataRequestEvent.IsPending()")
      else exists w', exec (Mac.MlmeSetRequest id attribute) w = Ok w'
             /\ now w' = now w /\ cycle_started (with_period id attribute w) w').
Proof.
  intros Hid Hpos Htb Hold. split.
  - intros Hz.
    assert (Hen : Mac.IsRitModeEnabled (self (with_period id attribute w)) = true)
      by (apply with_period_enabled; auto; lia).
    apply wpt_exec.
    destruct id; try discriminate Hid; cbn in Hz;
      unfold Mac.MlmeSetRequest; cbn [pib_in_rit_range]; prim;
      repeat wpt_step;
      (destruct (_ =? 0) eqn:E; [|exfalso; cbn in E; rewrite Hz in E; discriminate E]);
      (eapply wpt_mono; [apply StopRitCycle_stops; right; exact Hen|]);
      cbv beta; intros _ w1 (Hs & Hn & Ho); repeat wpt_step; wpt_confirm;
      unfold cycle_stopped in *; cbn; auto.
  - intros Hnew Hmode.
    assert (Hen : Mac.IsRitModeEnabled (self (with_period id attribute w)) = true)
      by (apply with_period_enabled; auto; lia).
    pose proof (StartRitCycle_cases (with_period id attribute w) Hen) as Hc.
    assert (Hb : base (self (with_period id attribute w)) = base (self w))
      by (destruct id; reflexivity).
    assert (Hp : m_periodicRitDataRequestEvent (self (with_period id attribute w))
                 = m_periodicRitDataRequestEvent (self w))
      by (destruct id; reflexivity).
    rewrite Hb, Hp in Hc.
    destruct (NS3_ASSERT_ENABLE && (_ <? _)).
    2: destruct (negb _).
    3: destruct (NS3_ASSERT_ENABLE && IsPending _).
    all: try apply stops_exec; try apply wpt_exec.
    all: destruct id; try discriminate Hid; cbn in Hnew.
    all: unfold Mac.MlmeSetRequest; cbn [pib_in_rit_range]; prim.
    all: match goal with
         | |- stops _ _ _ =>
           apply stops_first; apply stops_bind; wpt_step; apply stops_bind; wpt_step
         | |- wpt _ _ _ => repeat wpt_step
         end.
    all: (destruct (_ =? 0) eqn:E; [exfalso; cbn in E; apply Z.eqb_eq in E; lia|]).
    all: (destruct (RitMacMode_eqb _ _) eqn:E2;
           [|exfalso; cbn in E2; rewrite Hmode in E2; discriminate E2]).
    all: try (apply stops_first; exact Hc).
    all: (eapply wpt_mono; [exact Hc|]); cbv beta; intros _ w1 (Hn & Hs);
      repeat wpt_step; wpt_confirm; cbn; (split; [exact Hn|]);
      unfold cycle_started, cycle_untouched in *; cbn in *; intuition.
Qed.

(** *** A data frame that asks for an acknowledgment, in receiver mode *)

Lemma wpt_ChangeMacState s Q w :
  Q tt (upd_base (set_m_macState s)
          (set_out (out w ++ [MacStateLogger (m_macState (base (self w))) s]) w)) ->
  wpt (Mac.ChangeMacState s) Q w.
Proof. intros H. unfold Mac.ChangeMacState. prim. repeat wpt_step. exact H. Qed.

(** A frame to the MAC's own short address, on its PAN, of a frame
    version it knows, passes the level 3 filter. *)
Lemma acceptFrame_own_short (b : LrWpanMac) (h : LrWpanMacHeader) :
  m_fctrlFrmType h <> LRWPAN_MAC_RESERVED ->
  m_fctrlFrmVer h <= 1 ->
  m_fctrlDstAddrMode h = SHORT_ADDR ->
  m_addrDstPanId h = m_macPanId b ->
  m_addrShortDstAddr h = m_shortAddress b ->
  Mac.acceptFrame b h = true.
Proof.
  intros Hty Hver Hmode Hpan Haddr. unfold Mac.acceptFrame.
  rewrite Hmode, Hpan, Haddr. rewrite !Z.eqb_refl.
  destruct (m_fctrlFrmType h); try congruence; cbn;
    (destruct (Z.leb_spec (m_fctrlFrmVer h) 1); [reflexivity | lia]).
Qed.

Lemma skipn_out {A} (l k : list A) : skipn (length l) (l ++ k) = k.
Proof. induction l; simpl; auto. Qed.

(** What the call left in the log. *)
Definition logged (w w' : World) : list Action := skipn (length (out w)) (out w').

(** The part of [PdDataIndication] that a data frame with the ACK-request
    bit reaches in receiver mode, from the test of the base MAC's state. *)
Ltac to_ack_branch Hen Hmode Hst Hhdr Hfcs Hprom Hacc Hty Hack :=
  rewrite Hen; cbn [negb];
  unfold Packet_RemoveMacHeader at 1; cbn [Packet_RemoveTrailer pkt_headers];
  rewrite Hhdr; cbv iota; unfold CheckFcs in *; cbn [pkt_fcsGood Packet_RemoveTrailer];
  rewrite Hfcs, Hprom, Hacc; cbn [negb];
  unfold IsCommand, IsData, IsMultipurpose, IsAcknowledgment; rewrite Hty, Hmode, Hack;
  cbn [LrWpanMacType_eqb RitMacMode_eqb andb];
  unfold Mac.ReceiveData, Packet_RemoveMacHeader; cbn [Packet_RemoveTrailer pkt_headers];
  rewrite Hhdr; cbv iota; prim.

(** A RIT-enabled MAC in receiver mode, not in a channel access, is handed
    a data frame that passes the frame check and the level 3 filter and
    has the ACK-request bit set. The call returns; the data-wait timeout
    that was pending is cancelled (it is not left in the simulator's
    queue) and a new one is scheduled a full data-wait duration after the
    current instant; [SendAck] for the frame's sequence number is
    scheduled for the current instant, the pending state change it
    replaces being cancelled; the base MAC is idle; the mode is still
    Receiver. *)
Theorem ack_requested_data_restarts_data_wait
    (w : World) (psduLength lqi : Z) (p : Packet) (h : LrWpanMacHeader)
    (rest : list PacketHeader) :
  Mac.IsRitModeEnabled (self w) = true ->
  m_ritMacMode (self w) = RECEIVER_MODE ->
  m_macState (base (self w)) <> MAC_CSMA ->
  NS3_ASSERT_ENABLE = false
  \/ m_macState (base (self w)) = MAC_IDLE
  \/ m_macState (base (self w)) = MAC_ACK_PENDING ->
  pkt_headers p = PH_Mac h :: rest ->
  CheckFcs p = true ->
  m_macPromiscuousMode (base (self w)) = false ->
  Mac.acceptFrame (base (self w)) h = true ->
  m_fctrlFrmType h = LRWPAN_MAC_DATA ->
  m_fctrlAckReq h = true ->
  exists w', exec (Mac.PdDataIndication psduLength p lqi) w = Ok w'
    /\ m_ritDataWaitTimeout (self w')
       = Some (mkEvent (now w + effectiveDataWait (self w)) H_ReceiverCycleTimeout)
    /\ orphans w'
       = orphans w
         ++ (if MacState_eqb (m_macState (base (self w))) MAC_ACK_PENDING
             then br_orphans (PrepareRetransmission (now w)
                                (set_m_ackWaitTimeout None (base (self w))))
             else [])
    /\ m_setMacState (base (self w')) = Some (mkEvent (now w) (H_SendAck (m_SeqNum h)))
    /\ m_macState (base (self w')) = MAC_IDLE
    /\ m_ritMacMode (self w') = RECEIVER_MODE
    /\ now w' = now w.
Proof.
  intros Hen Hmode Hcsma Hst Hhdr Hfcs Hprom Hacc Hty Hack.
  apply wpt_exec. unfold Mac.PdDataIndication.
  wpt_step. wpt_step. wpt_step.
  apply wpt_assert.
  { destruct Hst as [Hst | [Hst | Hst]]; [now left | right; rewrite Hst; reflexivity ..]. }
  to_ack_branch Hen Hmode Hst Hhdr Hfcs Hprom Hacc Hty Hack.
  repeat wpt_step. cbn [self upd_self set_self set_out m_ritMacMode]. rewrite Hmode.
  cbn [RitMacMode_eqb]. repeat wpt_step.
  destruct (m_mcpsDataIndicationCallback _); repeat wpt_step.
  all: match goal with
       | |- wpt (if MacState_eqb ?s MAC_ACK_PENDING then _ else _) _ _ =>
         destruct (MacState_eqb s MAC_ACK_PENDING) eqn:Hap;
           [|destruct (MacState_eqb s MAC_CSMA) eqn:Hcs;
             [cbn in Hcs; apply MacState_eqb_eq in Hcs; contradiction|]]
       end.
  all: repeat wpt_step.
  all: apply wpt_ChangeMacState; repeat first [wpt_step | progress prim].
  all: apply wpt_GetRitDataWaitDurationTime; repeat wpt_step.
  all: cbn in Hap.
  all: cbn; rewrite ?Z.add_0_r, ?Hap, ?app_nil_r.
  all: repeat match goal with |- _ /\ _ => split end; try reflexivity; try assumption.
Qed.

(** The same frame while a channel access is in progress: the branch
    that cancels the channel-access modules starts with [m_preCsB->Cancel
    ()], on a [Ptr] that is null, and the run ends there; nothing is
    cancelled and nothing is scheduled. *)
Lemma PdDataIndication_csma_null_preCsB
    (w : World) (psduLength lqi : Z) (p : Packet) (h : LrWpanMacHeader)
    (rest : list PacketHeader) :
  Mac.IsRitModeEnabled (self w) = true ->
  m_ritMacMode (self w) = RECEIVER_MODE ->
  m_macState (base (self w)) = MAC_CSMA ->
  pkt_headers p = PH_Mac h :: rest ->
  CheckFcs p = true ->
  m_macPromiscuousMode (base (self w)) = false ->
  Mac.acceptFrame (base (self w)) h = true ->
  m_fctrlFrmType h = LRWPAN_MAC_DATA ->
  m_fctrlAckReq h = true ->
  exec (Mac.PdDataIndication psduLength p lqi) w = Stop (Undefined "m_preCsB->Cancel()").
Proof.
  intros Hen Hmode Hst Hhdr Hfcs Hprom Hacc Hty Hack.
  apply stops_exec. unfold Mac.PdDataIndication.
  apply stops_bind. wpt_step. apply stops_bind.
  apply wpt_assert. { right. rewrite Hst. reflexivity. }
  to_ack_branch Hen Hmode Hst Hhdr Hfcs Hprom Hacc Hty Hack.
  repeat first [wpt_step | stops_step].
  cbn [self upd_self set_self set_out m_ritMacMode]. rewrite Hmode.
  cbn [RitMacMode_eqb]. repeat first [wpt_step | stops_step].
  destruct (m_mcpsDataIndicationCallback _); repeat first [wpt_step | stops_step].
  all: apply stops_first; cbn; rewrite Hst; reflexivity.
Qed.

(** *** The destination of the data frame of a sender cycle *)

Lemma NS_ASSERT_passes what c w :
  NS3_ASSERT_ENABLE = false \/ c = true -> NS_ASSERT what c w = Ok (tt, w).
Proof. unfold NS_ASSERT. intros [-> | ->]; [reflexivity | now rewrite andb_false_r]. Qed.

(** *** Who writes the stored requester *)

(** The world [w] still has the requester address of [w0]. *)
Definition kept (w0 w : World) : Prop :=
  m_lastRxRitReqFrameSrcAddr (self w) = m_lastRxRitReqFrameSrcAddr (self w0).

Ltac kd := unfold kept in *; cbn in *; try congruence.

Ltac kept_call := fail.

Ltac kept_auto := repeat first [ wp_step | progress prim | kept_call ].

Lemma ChangeMacState_kept s w0 w :
  kept w0 w -> wp (Mac.ChangeMacState s) (fun _ w' => kept w0 w') w.
Proof. intros H. unfold Mac.ChangeMacState. kept_auto. kd. Qed.

Lemma SetSleep_kept w0 w : kept w0 w -> wp Mac.SetSleep (fun _ w' => kept w0 w') w.
Proof.
  intros H. unfold Mac.SetSleep, Mac.ChangeMacState, Mac.ChangeRitMacMode. kept_auto. all: kd.
Qed.

Ltac kept_call ::=
  eapply wp_mono;
  [ first [ apply ChangeMacState_kept | apply SetSleep_kept ]; first [ eassumption | kd ]
  | cbv beta; intros ].

Lemma EndReceiverCycle_kept w0 w :
  kept w0 w -> wp Mac.EndReceiverCycle (fun _ w' => kept w0 w') w.
Proof. intros H. unfold Mac.EndReceiverCycle. kept_auto. all: kd. Qed.

Lemma EndSenderCycle_kept w0 w :
  kept w0 w -> wp Mac.EndSenderCycle (fun _ w' => kept w0 w') w.
Proof. intros H. unfold Mac.EndSenderCycle. kept_auto. all: kd. Qed.

Ltac kept_call ::=
  eapply wp_mono;
  [ first [ apply ChangeMacState_kept | apply SetSleep_kept
          | apply EndReceiverCycle_kept | apply EndSenderCycle_kept ];
    first [ eassumption | kd ]
  | cbv beta; intros ].

Lemma SetLrWpanMacState_kept s w0 w :
  kept w0 w -> wp (Mac.SetLrWpanMacState s) (fun _ w' => kept w0 w') w.
Proof. intros H. unfold Mac.SetLrWpanMacState. kept_auto. all: kd. Qed.

Ltac kept_call ::=
  eapply wp_mono;
  [ first [ apply ChangeMacState_kept | apply SetSleep_kept
          | apply EndReceiverCycle_kept | apply EndSenderCycle_kept
          | apply SetLrWpanMacState_kept ];
    first [ eassumption | kd ]
  | cbv beta; intros ].

Lemma StartRitDataWaitPeriod_kept w0 w :
  kept w0 w -> wp Mac.StartRitDataWaitPeriod (fun _ w' => kept w0 w') w.
Proof. intros H. unfold Mac.StartRitDataWaitPeriod. unfold_time. kept_auto. all: kd. Qed.

Lemma StartRitTxWaitPeriod_kept w0 w :
  kept w0 w -> wp Mac.StartRitTxWaitPeriod (fun _ w' => kept w0 w') w.
Proof. intros H. unfold Mac.StartRitTxWaitPeriod. unfold_time. kept_auto. all: kd. Qed.

Ltac kept_call ::=
  eapply wp_mono;
  [ first [ apply ChangeMacState_kept | apply SetSleep_kept
          | apply EndReceiverCycle_kept | apply EndSenderCycle_kept
          | apply SetLrWpanMacState_kept
          | apply StartRitDataWaitPeriod_kept | apply StartRitTxWaitPeriod_kept ];
    first [ eassumption | kd ]
  | cbv beta; intros ].

Lemma CheckTxAndStartSender_kept w0 w :
  kept w0 w -> wp Mac.CheckTxAndStartSender (fun _ w' => kept w0 w') w.
Proof.
  intros H. unfold Mac.CheckTxAndStartSender, Mac.ChangeRitMacMode. kept_auto. all: kd.
Qed.

Lemma DoSendRitDataRequest_kept w0 w :
  kept w0 w -> wp Mac.DoSendRitDataRequest (fun _ w' => kept w0 w') w.
Proof. intros H. unfold Mac.DoSendRitDataRequest. kept_auto. all: kd. Qed.

Lemma DoSendRitBeaconAck_kept w0 w :
  kept w0 w -> wp Mac.DoSendRitBeaconAck (fun _ w' => kept w0 w') w.
Proof. intros H. unfold Mac.DoSendRitBeaconAck. kept_auto. all: kd. Qed.

Lemma DoSendRitData_kept w0 w :
  kept w0 w -> wp Mac.DoSendRitData (fun _ w' => kept w0 w') w.
Proof. intros H. unfold Mac.DoSendRitData. kept_auto. all: kd. Qed.

Ltac kept_call ::=
  eapply wp_mono;
  [ first [ apply ChangeMacState_kept | apply SetSleep_kept
          | apply EndReceiverCycle_kept | apply EndSenderCycle_kept
          | apply SetLrWpanMacState_kept
          | apply StartRitDataWaitPeriod_kept | apply StartRitTxWaitPeriod_kept
          | apply CheckTxAndStartSender_kept | apply DoSendRitDataRequest_kept
          | apply DoSendRitBeaconAck_kept | apply DoSendRitData_kept ];
    first [ eassumption | kd ]
  | cbv beta; intros ].

Lemma SendRitData_kept w0 w : kept w0 w -> wp Mac.SendRitData (fun _ w' => kept w0 w') w.
Proof. intros H. unfold Mac.SendRitData. kept_auto. all: kd. Qed.

Lemma ReceiveData_kept lqi p w0 w :
  kept w0 w -> wp (Mac.ReceiveData lqi p) (fun _ w' => kept w0 w') w.
Proof. intros H. unfold Mac.ReceiveData. kept_auto. all: kd. Qed.

Lemma SenderCycleTimeout_kept w0 w :
  kept w0 w -> wp Mac.SenderCycleTimeout (fun _ w' => kept w0 w') w.
Proof. intros H. unfold Mac.SenderCycleTimeout. kept_auto. all: kd. Qed.

Lemma ReceiverCycleTimeout_kept w0 w :
  kept w0 w -> wp Mac.ReceiverCycleTimeout (fun _ w' => kept w0 w') w.
Proof. intros H. unfold Mac.ReceiverCycleTimeout. kept_auto. all: kd. Qed.

Lemma AckWaitTimeout_kept w0 w :
  kept w0 w -> wp Mac.AckWaitTimeout (fun _ w' => kept w0 w') w.
Proof. intros H. unfold Mac.AckWaitTimeout. kept_auto. all: kd. Qed.

Ltac kept_call ::=
  eapply wp_mono;
  [ first [ apply ChangeMacState_kept | apply SetSleep_kept
          | apply EndReceiverCycle_kept | apply EndSenderCycle_kept
          | apply SetLrWpanMacState_kept
          | apply StartRitDataWaitPeriod_kept | apply StartRitTxWaitPeriod_kept
          | apply CheckTxAndStartSender_kept | apply DoSendRitDataRequest_kept
          | apply DoSendRitBeaconAck_kept | apply DoSendRitData_kept
          | apply SendRitData_kept | apply ReceiveData_kept
          | apply SenderCycleTimeout_kept | apply ReceiverCycleTimeout_kept
          | apply AckWaitTimeout_kept ];
    first [ eassumption | kd ]
  | cbv beta; intros ].

Lemma McpsDataRequest_kept params p w0 w :
  kept w0 w -> wp (Mac.McpsDataRequest params p) (fun _ w' => kept w0 w') w.
Proof. intros H. unfold Mac.McpsDataRequest. kept_auto. all: kd. Qed.

Lemma PdDataConfirm_body_kept status txPkt w0 w :
  kept w0 w -> wp (Mac.PdDataConfirm_body status txPkt) (fun _ w' => kept w0 w') w.
Proof. intros H. unfold Mac.PdDataConfirm_body. kept_auto. all: kd. Qed.

Lemma PdDataConfirm_kept status w0 w :
  kept w0 w -> wp (Mac.PdDataConfirm status) (fun _ w' => kept w0 w') w.
Proof.
  intros H. unfold Mac.PdDataConfirm. kept_auto.
  all: try (eapply wp_mono; [apply PdDataConfirm_body_kept; eassumption|cbv beta; intros]).
  all: kept_auto. all: kd.
Qed.

Lemma PlmeSetTRXStateConfirm_kept status w0 w :
  kept w0 w -> wp (Mac.PlmeSetTRXStateConfirm status) (fun _ w' => kept w0 w') w.
Proof. intros H. unfold Mac.PlmeSetTRXStateConfirm. kept_auto. all: kd. Qed.

Lemma MlmeGetRequest_kept id w0 w :
  kept w0 w -> wp (Mac.MlmeGetRequest id) (fun _ w' => kept w0 w') w.
Proof. intros H. unfold Mac.MlmeGetRequest. kept_auto. all: kd. Qed.

Lemma IfsWaitTimeout_kept t w0 w :
  kept w0 w -> wp (Mac.IfsWaitTimeout t) (fun _ w' => kept w0 w') w.
Proof. intros H. unfold Mac.IfsWaitTimeout. kept_auto. all: kd. Qed.

Lemma StartRitCycle_kept w0 w :
  kept w0 w -> wp Mac.StartRitCycle (fun _ w' => kept w0 w') w.
Proof.
  intros H. unfold Mac.StartRitCycle, Mac.ChangeRitMacMode. unfold_time. kept_auto. all: kd.
Qed.

Lemma StopRitCycle_kept w0 w :
  kept w0 w -> wp Mac.StopRitCycle (fun _ w' => kept w0 w') w.
Proof.
  intros H. unfold Mac.StopRitCycle, Mac.ChangeRitMacMode. kept_auto. all: kd.
Qed.

Lemma MlmeSetRequest_kept id attribute w0 w :
  kept w0 w -> wp (Mac.MlmeSetRequest id attribute) (fun _ w' => kept w0 w') w.
Proof.
  intros H. unfold Mac.MlmeSetRequest. kept_auto.
  all: try (eapply wp_mono; [first [apply (StartRitCycle_kept w0) | apply (StopRitCycle_kept w0)]; kd
                            |cbv beta; intros]).
  all: kept_auto. all: kd.
Qed.

Lemma PeriodicRitDataRequest_kept w0 w :
  kept w0 w -> wp Mac.PeriodicRitDataRequest (fun _ w' => kept w0 w') w.
Proof.
  intros H. unfold Mac.PeriodicRitDataRequest, Mac.ChangeRitMacMode. unfold_time.
  kept_auto. all: kd.
Qed.

Lemma run_handler_kept h w0 w :
  kept w0 w -> wp (Mac.run_handler h) (fun _ w' => kept w0 w') w.
Proof.
  intros H. destruct h; simpl.
  - now apply PeriodicRitDataRequest_kept.
  - now apply ReceiverCycleTimeout_kept.
  - now apply SenderCycleTimeout_kept.
  - now apply AckWaitTimeout_kept.
  - now apply SetLrWpanMacState_kept.
  - wp_step. kd.
  - now apply IfsWaitTimeout_kept.
Qed.

(** The frames an enabled MAC hands on: they pass the frame check and the
    level 3 filter. *)
Definition accepted (w : World) (p : Packet) : bool :=
  Mac.IsRitModeEnabled (self w)
  && CheckFcs (snd (Packet_RemoveMacHeader (Packet_RemoveTrailer p)))
  && negb (m_macPromiscuousMode (base (self w)))
  && Mac.acceptFrame (base (self w)) (fst (Packet_RemoveMacHeader (Packet_RemoveTrailer p))).

Definition isRitDataRequest (p : Packet) : bool :=
  IsCommand (fst (Packet_RemoveMacHeader (Packet_RemoveTrailer p)))
  && match Packet_PeekCommandHeader (snd (Packet_RemoveMacHeader p)) with
     | RIT_DATA_REQ => true
     | _ => false
     end.

(** A RIT data request that the MAC takes: it is accepted in sender mode,
    before the MAC has started sending. *)
Definition takesRequest (w : World) (p : Packet) : bool :=
  accepted w p && isRitDataRequest p
  && RitMacMode_eqb (m_ritMacMode (self w)) SENDER_MODE
  && negb (m_ritSending (self w)).

(** The requester after the input [i] was handled in [w], when it was [r]
    before. *)
Definition requesterAfter (i : Mac.Input) (w : World) (r : Mac16Address) : Mac16Address :=
  match i with
  | Mac.PhyPdDataIndication _ p _ =>
    if takesRequest w p then m_addrShortSrcAddr (fst (Packet_RemoveMacHeader p)) else r
  | _ => r
  end.

Lemma ReceiveCommand_requester lqi p w0 w :
  self w = self w0 ->
  wp (Mac.ReceiveCommand lqi p)
     (fun _ w' =>
        m_lastRxRitReqFrameSrcAddr (self w')
        = if match Packet_PeekCommandHeader (snd (Packet_RemoveMacHeader p)) with
             | RIT_DATA_REQ => true
             | _ => false
             end
             && RitMacMode_eqb (m_ritMacMode (self w0)) SENDER_MODE
             && negb (m_ritSending (self w0))
          then m_addrShortSrcAddr (fst (Packet_RemoveMacHeader p))
          else m_lastRxRitReqFrameSrcAddr (self w0)) w.
Proof.
  intros H. unfold Mac.ReceiveCommand.
  destruct (Packet_RemoveMacHeader p) as [receivedMacHdr p1]. cbn [fst snd].
  destruct (Packet_PeekCommandHeader p1); cbn [andb]; try (wp_step; now rewrite H).
  wp_step. wp_step. rewrite H.
  destruct (m_ritMacMode (self w0)); cbn [RitMacMode_eqb andb]; try (wp_step; now rewrite H).
  destruct (m_ritSending (self w0)); cbn [negb]; [wp_step; now rewrite H|].
  kept_auto. all: reflexivity.
Qed.

Lemma PdDataIndication_requester len p lqi w :
  wp (Mac.PdDataIndication len p lqi)
     (fun _ w' => m_lastRxRitReqFrameSrcAddr (self w')
                  = requesterAfter (Mac.PhyPdDataIndication len p lqi) w
                      (m_lastRxRitReqFrameSrcAddr (self w))) w.
Proof.
  assert (Hk : kept w w) by reflexivity.
  unfold requesterAfter, takesRequest, accepted, isRitDataRequest, Mac.PdDataIndication.
  wp_step. wp_step. wp_step. wp_step.
  all: destruct (Mac.IsRitModeEnabled (self w)); cbn [negb andb];
    [|wp_step; reflexivity].
  all: destruct (Packet_RemoveMacHeader (Packet_RemoveTrailer p)) as [h p1]; cbn [fst snd].
  all: destruct (CheckFcs p1); cbn [negb andb]; [|kept_auto; reflexivity].
  all: destruct (m_macPromiscuousMode (base (self w))); cbn [negb andb];
    [wp_step; reflexivity|].
  all: destruct (Mac.acceptFrame (base (self w)) h); cbn [negb andb];
    [|kept_auto; reflexivity].
  all: wp_step; prim; wp_step.
  all: destruct (IsCommand h); cbn [andb];
    [ eapply wp_mono; [apply (ReceiveCommand_requester lqi p w); reflexivity|];
      cbv beta; intros; assumption |].
  all: change (wp ?m _ ?x) with (wp m (fun _ w' => kept w w') x).
  all: unfold_time; kept_auto.
  all: kd.
Qed.

(** Between two instants of the simulation the stored requester changes
    only when a RIT data request is taken, and then it is the source of
    that request. *)
Lemma step_requester (i : Mac.Input) (w w' : World) :
  exec (Mac.step i) w = Ok w' ->
  m_lastRxRitReqFrameSrcAddr (self w')
  = requesterAfter i w (m_lastRxRitReqFrameSrcAddr (self w)).
Proof.
  assert (Hk : kept w w) by reflexivity.
  destruct i; simpl; intros Hexec.
  9: { exact (wp_exec _ _ _ _ (PdDataIndication_requester psduLength p lqi w) Hexec). }
  all: change (kept w w'); revert Hexec; apply wp_exec.
  - now apply McpsDataRequest_kept.
  - now apply MlmeSetRequest_kept.
  - now apply MlmeGetRequest_kept.
  - now apply SendRitData_kept.
  - unfold Mac.SetModuleConfig. kept_auto. kd.
  - unfold Mac.SetRxAlwaysOn. kept_auto. kd.
  - unfold Mac.DoInitialize, Mac.ChangeRitMacMode. kept_auto. all: kd.
  - unfold Mac.DoDispose. kept_auto. kd.
  - now apply PdDataConfirm_kept.
  - now apply PlmeSetTRXStateConfirm_kept.
  - now apply SetLrWpanMacState_kept.
  - unfold Mac.fire. wp_step. wp_step.
    destruct (ef_get (Mac.field t) w) as [ev|]; [|now wp_step].
    do 4 wp_step. apply run_handler_kept.
    destruct t; kd.
  - unfold Mac.fire_orphan. wp_step. wp_step.
    destruct (nth_error (orphans w) i) as [ev|]; [|now wp_step].
    do 4 wp_step. apply run_handler_kept. kd.
  - wp_step. kd.
Qed.

(** The inputs handled one after the other. *)
Fixpoint steps (inputs : list Mac.Input) (w : World) : Outcome World :=
  match inputs with
  | [] => Ok w
  | i :: rest =>
    match exec (Mac.step i) w with
    | Ok w' => steps rest w'
    | Stop why => Stop why
    end
  end.

(** The source of the last RIT data request the MAC took while it handled
    the inputs, from [w] on; [r] when it took none. *)
Fixpoint lastTaken (inputs : list Mac.Input) (w : World) (r : Mac16Address) : Mac16Address :=
  match inputs with
  | [] => r
  | i :: rest =>
    match exec (Mac.step i) w with
    | Ok w' => lastTaken rest w' (requesterAfter i w r)
    | Stop _ => r
    end
  end.

Lemma steps_requester (inputs : list Mac.Input) (w v : World) :
  steps inputs w = Ok v ->
  m_lastRxRitReqFrameSrcAddr (self v)
  = lastTaken inputs w (m_lastRxRitReqFrameSrcAddr (self w)).
Proof.
  revert w. induction inputs as [|i rest IH]; intros w; simpl.
  - now intros [= ->].
  - destruct (exec (Mac.step i) w) as [w'|] eqn:Hstep; [|discriminate].
    intros Hrest. rewrite (IH _ Hrest). now rewrite (step_requester i w w' Hstep).
Qed.

(** The places that call [DoSendRitData], as the simulator reaches them:
    [SendRitData] on an idle MAC without beacon acknowledgment,
    [PdDataConfirm] for a data frame without ACK request under continuous
    transmission, and [IfsWaitTimeout], run by its event. *)
Inductive dispatches (v : World) : Mac.Input -> Prop :=
| dispatch_SendRitData :
    m_macState (base (self v)) = MAC_IDLE ->
    beaconAckEnabled (m_moduleConfig (self v)) = false ->
    dispatches v Mac.CallSendRitData
| dispatch_PdDataConfirm status txPkt :
    m_macState (base (self v)) = MAC_SENDING ->
    Phy_is_SUCCESS status = true ->
    m_txPkt (base (self v)) = Some txPkt ->
    m_fctrlFrmType (Packet_PeekMacHeader txPkt) = LRWPAN_MAC_DATA ->
    m_fctrlAckReq (Packet_PeekMacHeader txPkt) = false ->
    continuousTxEnabled (m_moduleConfig (self v)) = true ->
    dispatches v (Mac.PhyPdDataConfirm status)
| dispatch_IfsWaitTimeout t ev ifsTime :
    ef_get (Mac.field t) v = Some ev ->
    ev_handler ev = H_IfsWaitTimeout ifsTime ->
    continuousTxEnabled (m_moduleConfig (self v))
    || beaconAckEnabled (m_moduleConfig (self v)) = true ->
    dispatches v (Mac.Fire t)
| dispatch_orphan n ev ifsTime :
    nth_error (orphans v) n = Some ev ->
    ev_handler ev = H_IfsWaitTimeout ifsTime ->
    continuousTxEnabled (m_moduleConfig (self v))
    || beaconAckEnabled (m_moduleConfig (self v)) = true ->
    dispatches v (Mac.FireOrphan n).

(** What [DoSendRitData] reads is in [v1] as it is in [v]. *)
Definition sameSender (v v1 : World) : Prop :=
  m_lastRxRitReqFrameSrcAddr (self v1) = m_lastRxRitReqFrameSrcAddr (self v)
  /\ Mac.IsRitModeEnabled (self v1) = Mac.IsRitModeEnabled (self v)
  /\ m_ritMacMode (self v1) = m_ritMacMode (self v)
  /\ m_moduleConfig (self v1) = m_moduleConfig (self v)
  /\ m_txQueue (base (self v1)) = m_txQueue (base (self v))
  /\ m_macPanId (base (self v1)) = m_macPanId (base (self v)).

(** The call [m], made in [w], ends as [DoSendRitData] made in [v1]
    does, and then returns [a]. *)
Definition enters {A} (a : A) (m : M A) (w v1 : World) : Prop :=
  m w = bind Mac.DoSendRitData (fun _ => ret a) v1.

Lemma enters_bind {A B} (b : B) (m : M A) (k : A -> M B) w v1 :
  wpt m (fun a w1 => enters b (k a) w1 v1) w -> enters b (bind m k) w v1.
Proof. unfold wpt, enters, bind. destruct (m w) as [[a w1]|]; [auto|contradiction]. Qed.

Lemma enters_then {A B} (a : A) (b : B) (m : M A) (k : A -> M B) w v1 :
  enters a m w v1 -> (forall w', k a w' = Ok (b, w')) -> enters b (bind m k) w v1.
Proof.
  unfold enters, bind, ret. intros -> Hk.
  destruct (Mac.DoSendRitData v1) as [[[] w1]|]; [apply Hk | reflexivity].
Qed.

Lemma enters_here v1 : enters tt Mac.DoSendRitData v1 v1.
Proof.
  unfold enters, bind, ret. now destruct (Mac.DoSendRitData v1) as [[[] w1]|].
Qed.

Lemma enters_exec {A} (a : A) (m : M A) w v1 :
  enters a m w v1 -> exec m w = exec Mac.DoSendRitData v1.
Proof.
  unfold enters, exec, bind, ret. intros ->.
  now destruct (Mac.DoSendRitData v1) as [[[] w1]|].
Qed.

Ltac enters_step :=
  match goal with
  | |- enters _ (bind Mac.DoSendRitData _) _ _ =>
    eapply enters_then; [apply enters_here | reflexivity]
  | |- enters _ (bind _ _) _ _ => apply enters_bind
  | |- enters _ Mac.DoSendRitData _ _ => apply enters_here
  end; cbv beta.

Lemma IfsWaitTimeout_enters ifsTime e q v0 :
  Mac.IsRitModeEnabled (self v0) = true ->
  m_ritMacMode (self v0) = SENDER_MODE ->
  m_txQueue (base (self v0)) = e :: q ->
  continuousTxEnabled (m_moduleConfig (self v0))
  || beaconAckEnabled (m_moduleConfig (self v0)) = true ->
  enters tt (Mac.IfsWaitTimeout ifsTime) v0
    (set_out (out v0 ++ [MacIfsEndTrace ifsTime]) v0).
Proof.
  intros Hen Hmode Hq Hcfg. unfold Mac.IfsWaitTimeout.
  enters_step. wpt_step. enters_step. rewrite Hen. cbn [negb when]. wpt_step.
  enters_step. prim. wpt_step. enters_step. wpt_step.
  cbn [self set_out]. rewrite Hmode. enters_step.
  apply wpt_assert; [right; now rewrite Hcfg, Hq|]. enters_step.
Qed.

Lemma dispatch_enters (v : World) (i : Mac.Input) e q :
  Mac.IsRitModeEnabled (self v) = true ->
  m_ritMacMode (self v) = SENDER_MODE ->
  m_txQueue (base (self v)) = e :: q ->
  dispatches v i ->
  exists v1, enters tt (Mac.step i) v v1 /\ sameSender v v1.
Proof.
  intros Hen Hmode Hq Hd. destruct Hd as [Hst Hba | status txPkt Hst Hok Htx Hty Hack Hct
                                         | t ev ifsTime Hev Hh Hcfg | n ev ifsTime Hev Hh Hcfg].
  - eexists. split.
    + cbn [Mac.step]. unfold Mac.SendRitData.
      enters_step. wpt_step. enters_step.
      apply wpt_assert; [right; now rewrite Hen, Hmode|]. enters_step.
      apply wpt_assert; [right; now rewrite Hq|]. enters_step. wpt_step.
      rewrite Hst. cbn [MacState_eqb]. enters_step. prim. wpt_step.
      enters_step. wpt_step. rewrite Hba. enters_step.
    + unfold sameSender. cbn. auto 10.
  - destruct (m_mcpsDataConfirmCallback (base (self v))) eqn:Hcb.
    all: eexists; split;
      [ cbn [Mac.step]; unfold Mac.PdDataConfirm;
        enters_step; wpt_step; enters_step;
        (apply wpt_assert; [right; now rewrite Hst|]);
        rewrite Hen; cbn [negb]; enters_step; rewrite Htx; prim; wpt_step;
        apply (enters_then None); [|reflexivity]; unfold Mac.PdDataConfirm_body;
        enters_step; wpt_step; rewrite Hok;
        unfold IsAcknowledgment, IsCommand, IsData; rewrite Hty, Hack;
        cbn [LrWpanMacType_eqb negb]; rewrite Hcb, Hct, Hq; cbn [andb];
        repeat first [enters_step | wpt_step | progress prim];
        try (change (m_txQueue (base (self (set_out _ (upd_self (set_m_ritSending false) v)))))
               with (m_txQueue (base (self v)));
             rewrite Hq; cbn [head];
             repeat first [enters_step | wpt_step | progress prim])
      | unfold sameSender; cbn; auto 10 ].
  - eexists. split.
    + cbn [Mac.step]. unfold Mac.fire. enters_step. wpt_step. rewrite Hev.
      enters_step. wpt_step. enters_step. wpt_step. rewrite Hh. cbn [Mac.run_handler].
      apply (IfsWaitTimeout_enters ifsTime e q); destruct t; assumption.
    + unfold sameSender. destruct t; cbn; auto 10.
  - eexists. split.
    + cbn [Mac.step]. unfold Mac.fire_orphan. enters_step. wpt_step. rewrite Hev.
      enters_step. wpt_step. enters_step. wpt_step. rewrite Hh. cbn [Mac.run_handler].
      apply (IfsWaitTimeout_enters ifsTime e q); assumption.
    + unfold sameSender. cbn. auto 10.
Qed.

(** [DoSendRitData] returns the frame at the head of the queue to the
    queue with its destination set to the stored requester. *)
Lemma DoSendRitData_readdresses
    (v : World) (e : TxQueueElement) (q : list TxQueueElement)
    (h0 : LrWpanMacHeader) (rest0 : list PacketHeader) :
  Mac.IsRitModeEnabled (self v) = true ->
  m_ritMacMode (self v) = SENDER_MODE ->
  dataCsmaEnabled (m_moduleConfig (self v))
  && dataPreCsEnabled (m_moduleConfig (self v)) = false ->
  m_txQueue (base (self v)) = e :: q ->
  pkt_headers (txQPkt e) = PH_Mac h0 :: rest0 ->
  let hdr := SetDstAddrFields (m_macPanId (base (self v)))
               (m_lastRxRitReqFrameSrcAddr (self v))
               (set_m_fctrlDstAddrMode SHORT_ADDR h0) in
  let pkt := mkPacket (PH_Mac hdr :: rest0) (pkt_data (txQPkt e))
               (pkt_trailer (txQPkt e)) (pkt_fcsGood (txQPkt e)) in
  let queue := mkTxQueueElement (txQMsduHandle e) pkt :: q in
  if dataCsmaEnabled (m_moduleConfig (self v))
     || dataPreCsEnabled (m_moduleConfig (self v))
     || dataPreCsBEnabled (m_moduleConfig (self v))
  then exec Mac.DoSendRitData v
       = exec (callBase CheckQueue) (upd_base (set_m_txQueue queue) v)
  else exists v', exec Mac.DoSendRitData v = Ok v'
         /\ m_txQueue (base (self v')) = queue
         /\ m_txPkt (base (self v')) = Some pkt
         /\ m_macState (base (self v')) = MAC_SENDING
         /\ logged v v' = [MacStateLogger (m_macState (base (self v))) MAC_SENDING;
                           PlmeSetTRXStateRequest IEEE_802_15_4_PHY_TX_ON].
Proof.
  intros Hen Hmode Hcfg Hqueue Hhead hdr pkt queue.
  assert (Ha1 : NS3_ASSERT_ENABLE = false
                \/ Mac.IsRitModeEnabled (self v)
                   && RitMacMode_eqb (m_ritMacMode (self v)) SENDER_MODE = true)
    by (right; now rewrite Hen, Hmode).
  assert (Ha2 : NS3_ASSERT_ENABLE = false
                \/ negb (dataCsmaEnabled (m_moduleConfig (self v))
                         && dataPreCsEnabled (m_moduleConfig (self v))) = true)
    by (right; now rewrite Hcfg).
  destruct (dataCsmaEnabled (m_moduleConfig (self v))
            || dataPreCsEnabled (m_moduleConfig (self v))
            || dataPreCsBEnabled (m_moduleConfig (self v))) eqn:Hcsma.
  - unfold exec, Mac.DoSendRitData, bind, gets. cbv beta iota.
    rewrite !(NS_ASSERT_passes _ _ _ Ha1). cbv beta iota.
    rewrite Hqueue. rewrite NS_ASSERT_passes by now right.
    cbn [head deref ret]. unfold Packet_RemoveMacHeader. rewrite Hhead. cbv beta iota.
    rewrite Hcsma. unfold setb, modify. rewrite NS_ASSERT_passes by exact Ha2.
    cbv beta iota.
    unfold upd_base at 1, upd_self at 1. cbn [self base set_self].
    rewrite Hqueue. reflexivity.
  - apply wpt_exec. unfold Mac.DoSendRitData.
    wpt_step. wpt_step. wpt_step. apply wpt_assert; [exact Ha1|].
    wpt_step. rewrite Hqueue. apply wpt_assert; [now right|].
    cbn [head deref]. wpt_step. wpt_step.
    unfold Packet_RemoveMacHeader. rewrite Hhead. cbv beta iota. rewrite Hcsma.
    repeat first [wpt_step | progress prim].
    apply wpt_ChangeMacState. repeat first [wpt_step | progress prim].
    cbn. rewrite Hqueue. repeat split.
    unfold logged. cbn. rewrite <- ?app_assoc, skipn_out. reflexivity.
Qed.

(** C4 (as amended). The MAC has handled [inputs] from [w0] and is in
    sender mode with a frame at the head of its queue; [requester] is the
    source of the last RIT data request it took on the way (one it
    accepted in sender mode before it had started sending; a request
    that arrives later is ignored), or the address stored in [w0] when it
    took none. That address is the stored one. At each of the places
    that dispatch the queued frame ([SendRitData], [PdDataConfirm] under
    continuous transmission, [IfsWaitTimeout]) the frame at the head of
    the queue is returned to the queue with its destination mode set to
    short and its destination address set to [requester], whatever they
    were, the rest of the frame and of the queue being as before; without
    channel access for data, that frame becomes [m_txPkt] and the MAC
    starts sending; with channel access, the base class's [CheckQueue]
    runs on the queue so rewritten. *)
Theorem C4_queue_head_readdressed_to_requester
    (inputs : list Mac.Input) (w0 v : World) (i : Mac.Input)
    (e : TxQueueElement) (q : list TxQueueElement)
    (h0 : LrWpanMacHeader) (rest0 : list PacketHeader) :
  steps inputs w0 = Ok v ->
  Mac.IsRitModeEnabled (self v) = true ->
  m_ritMacMode (self v) = SENDER_MODE ->
  dataCsmaEnabled (m_moduleConfig (self v))
  && dataPreCsEnabled (m_moduleConfig (self v)) = false ->
  m_txQueue (base (self v)) = e :: q ->
  pkt_headers (txQPkt e) = PH_Mac h0 :: rest0 ->
  dispatches v i ->
  let requester := lastTaken inputs w0 (m_lastRxRitReqFrameSrcAddr (self w0)) in
  let hdr := SetDstAddrFields (m_macPanId (base (self v))) requester
               (set_m_fctrlDstAddrMode SHORT_ADDR h0) in
  let pkt := mkPacket (PH_Mac hdr :: rest0) (pkt_data (txQPkt e))
               (pkt_trailer (txQPkt e)) (pkt_fcsGood (txQPkt e)) in
  let queue := mkTxQueueElement (txQMsduHandle e) pkt :: q in
  m_lastRxRitReqFrameSrcAddr (self v) = requester
  /\ m_fctrlDstAddrMode hdr = SHORT_ADDR
  /\ m_addrShortDstAddr hdr = requester
  /\ m_addrDstPanId hdr = m_macPanId (base (self v))
  /\ (if dataCsmaEnabled (m_moduleConfig (self v))
         || dataPreCsEnabled (m_moduleConfig (self v))
         || dataPreCsBEnabled (m_moduleConfig (self v))
      then exists v1, m_txQueue (base (self v1)) = queue
             /\ exec (Mac.step i) v = exec (callBase CheckQueue) v1
      else exists v', exec (Mac.step i) v = Ok v'
             /\ m_txQueue (base (self v')) = queue
             /\ m_txPkt (base (self v')) = Some pkt
             /\ m_macState (base (self v')) = MAC_SENDING).
Proof.
  intros Hrun Hen Hmode Hcfg Hqueue Hhead Hd requester hdr pkt queue.
  assert (Hr : m_lastRxRitReqFrameSrcAddr (self v) = requester)
    by exact (steps_requester inputs w0 v Hrun).
  split; [exact Hr|]. split; [reflexivity|]. split; [reflexivity|]. split; [reflexivity|].
  destruct (dispatch_enters v i e q Hen Hmode Hqueue Hd)
    as (v1 & Henters & Hlast & Hen1 & Hmode1 & Hcfg1 & Hq1 & Hpan1).
  rewrite (enters_exec _ _ _ _ Henters).
  pose proof (DoSendRitData_readdresses v1 e q h0 rest0) as Hsend.
  rewrite Hlast, Hen1, Hmode1, Hcfg1, Hq1, Hpan1, Hr in Hsend.
  specialize (Hsend Hen Hmode Hcfg Hqueue Hhead). cbv zeta in Hsend.
  fold hdr pkt queue in Hsend.
  destruct (dataCsmaEnabled (m_moduleConfig (self v))
            || dataPreCsEnabled (m_moduleConfig (self v))
            || dataPreCsBEnabled (m_moduleConfig (self v))).
  - eexists. split; [|exact Hsend]. cbn. reflexivity.
  - destruct Hsend as (v' & Hexec & Hq' & Htx & Hst & _). eauto.
Qed.

(** *** The interval of the periodic event *)

(** The period after the clock drift has been applied, and the jitter the
    random variable then draws for it. *)
Definition driftedPeriod (w : World) : Time :=
  ClockDriftApplier_Apply (draws w) (effectivePeriod (self w)).

Definition jitter (w : World) : Q :=
  UniformRandomVariable_GetValue (S (draws w))
    (TimeDriftApplier.minDrift (driftedPeriod w) 50)
    (TimeDriftApplier.maxDrift (driftedPeriod w) 50).

(** What [PeriodicRitDataRequest] asserts on its way, in a cycle that is
    about to send its beacon or is in sender mode; or no assertions. *)
Definition periodic_asserts_hold (w : World) : Prop :=
  NS3_ASSERT_ENABLE = false
  \/ (Mac.IsRitModeEnabled (self w) = true
      /\ m_periodicRitDataRequestEvent (self w) = None
      /\ (m_ritMacMode (self w) = SENDER_MODE
          \/ (m_txQueue (base (self w)) = []
              /\ m_macState (base (self w)) = MAC_IDLE
              /\ CsmaCa_IsUnSlottedCsmaCa = true))).

Lemma jitter_bound (T : Time) (d : Q) (x : Z) :
  0 <= T ->
  (TimeDriftApplier.minDrift T 50 <= d <= TimeDriftApplier.maxDrift T 50)%Q ->
  (Qabs (inject_Z x) <= Qabs d * 1000000)%Q ->
  T <= 2 * (T + x) <= 3 * T.
Proof.
  unfold TimeDriftApplier.minDrift, TimeDriftApplier.maxDrift, TimeDriftApplier.GetMilliSeconds.
  intros HT [Hlo Hhi] Hx.
  set (ms := Z.quot T 1000000) in *.
  assert (Hms : 0 <= ms /\ ms * 1000000 <= T).
  { unfold ms. rewrite Z.quot_div_nonneg by lia.
    pose proof (Z.mul_div_le T 1000000). split; [apply Z.div_pos|]; lia. }
  assert (Hd : (Qabs d <= inject_Z ms * (1 # 2))%Q).
  { apply Qabs_Qle_condition. clearbody ms. generalize dependent (inject_Z ms).
    intros q Hlo Hhi. unfold Qdiv in Hlo, Hhi.
    change (/ 100)%Q with (1 # 100)%Q in Hlo, Hhi. split; lra. }
  assert (Hq : (inject_Z (Z.abs x) <= inject_Z (ms * 500000))%Q).
  { change (inject_Z (Z.abs x)) with (Qabs (inject_Z x)).
    rewrite inject_Z_mult. change (inject_Z 500000) with (500000 # 1)%Q. lra. }
  rewrite <- Zle_Qle in Hq. lia.
Qed.

(** The interval [PeriodicRitDataRequest] computes. *)
Definition rearmInterval (w : World) : Time :=
  if beaconRandomizeEnabled (m_moduleConfig (self w))
  then driftedPeriod w + MilliSeconds_of_double (jitter w)
  else driftedPeriod w.

Lemma wp_GetRitPeriodTime Q w :
  Q (effectivePeriod (self w)) w -> wp Mac.GetRitPeriodTime Q w.
Proof. unfold wp. now rewrite GetRitPeriodTime_value. Qed.

Lemma ApplyByRatio_half (T : Time) :
  TimeDriftApplier.ApplyByRatio T 50
  = (randomDelay <- draw (fun n => UniformRandomVariable_GetValue n
                                     (TimeDriftApplier.minDrift T 50)
                                     (TimeDriftApplier.maxDrift T 50));;
     ret (T + MilliSeconds_of_double randomDelay)).
Proof. reflexivity. Qed.

Lemma wpt_is_ok {A} (m : M A) w : wpt m (fun _ _ => True) w -> is_ok (exec m w) = true.
Proof. unfold wpt, exec. now destruct (m w) as [[a w1]|]. Qed.

Ltac wpt_off Hoff :=
  repeat first
    [ wpt_step
    | progress prim
    | apply wpt_assert; [left; exact Hoff|]
    | apply wpt_SetLrWpanMacState_idle
    | apply wpt_ChangeMacState
    | rewrite ApplyByRatio_half
    | apply wpt_GetRitPeriodTime
    | match goal with
      | |- wpt (if ?c then _ else _) _ _ => destruct c
      | |- wpt (match ?x with _ => _ end) _ _ => destruct x
      end ].

Ltac assert_holds rw :=
  right; cbn; rw;
  first [ assumption | reflexivity
        | unfold Mac.IsRitModeEnabled in *; cbn in *; rw; first [assumption | reflexivity] ].

Ltac wpt_on rw :=
  repeat first
    [ wpt_step
    | progress prim
    | apply wpt_assert; [assert_holds rw|]
    | apply wpt_SetLrWpanMacState_idle
    | apply wpt_ChangeMacState
    | rewrite ApplyByRatio_half
    | apply wpt_GetRitPeriodTime
    | match goal with
      | |- wpt ?m _ _ =>
        lazymatch m with
        | NS_ASSERT _ _ => fail
        | match ?x with _ => _ end =>
          let x' := eval cbn in x in
          change x with x'; first [progress cbv iota | progress rw | destruct x']
        end
      end ].

(** C7. A firing of the periodic event that returns has re-armed the
    event: [PeriodicRitDataRequest] is pending again, due after the period
    to which the clock drift was applied, or, with beacon randomization,
    after that time plus the jitter, which is between half of it and one
    and a half times it whatever the random variable drew between the
    bounds it was given. The firing returns when assertions are compiled
    out, in sender mode, and when the MAC is idle with nothing queued. *)
Theorem C7_periodic_rearm_interval (w : World) :
  0 <= driftedPeriod w ->
  (TimeDriftApplier.minDrift (driftedPeriod w) 50 <= jitter w
   <= TimeDriftApplier.maxDrift (driftedPeriod w) 50)%Q ->
  (Qabs (inject_Z (MilliSeconds_of_double (jitter w))) <= Qabs (jitter w) * 1000000)%Q ->
  (periodic_asserts_hold w -> is_ok (exec Mac.PeriodicRitDataRequest w) = true)
  /\ (forall w', exec Mac.PeriodicRitDataRequest w = Ok w' ->
        m_periodicRitDataRequestEvent (self w')
        = Some (mkEvent (now w + rearmInterval w) H_PeriodicRitDataRequest))
  /\ (if beaconRandomizeEnabled (m_moduleConfig (self w))
      then driftedPeriod w <= 2 * rearmInterval w <= 3 * driftedPeriod w
      else rearmInterval w = driftedPeriod w).
Proof.
  intros HT Hdraw Hms. split; [|split].
  - intros Hpre. apply wpt_is_ok.
    unfold Mac.PeriodicRitDataRequest.
    destruct Hpre as [Hoff | (Hen & Hper & Hrest)].
    + unfold Mac.CheckTxAndStartSender, Mac.StartRitTxWaitPeriod, Mac.ChangeRitMacMode,
        Mac.DoSendRitDataRequest, Mac.GetRitTxWaitDurationTime, Mac.DurationToTime.
      wpt_off Hoff. all: exact I.
    + destruct Hrest as [Hsender | (Hq & Hidle & Hcsma)].
      * wpt_on ltac:(rewrite ?Hper, ?Hsender). all: exact I.
      * unfold Mac.CheckTxAndStartSender, Mac.ChangeRitMacMode, Mac.DoSendRitDataRequest.
        wpt_on ltac:(rewrite ?Hper, ?Hq, ?Hidle, ?Hcsma). all: exact I.
  - intros w' He.
    refine (wp_exec _ (fun w' => m_periodicRitDataRequestEvent (self w') = _) w w' _ He).
    unfold Mac.PeriodicRitDataRequest.
    repeat first [ wp_tail | wp_step | progress prim | rewrite ApplyByRatio_half
                 | apply wp_GetRitPeriodTime ].
    all: unfold periodic_of in *; cbn in *.
    all: unfold rearmInterval, jitter, driftedPeriod.
    all: match goal with H : beaconRandomizeEnabled _ = _ |- _ => rewrite H end.
    all: congruence.
  - unfold rearmInterval. destruct (beaconRandomizeEnabled _); [|reflexivity].
    apply jitter_bound with (d := jitter w); assumption.
Qed.

(** *** A data request with short addresses returns *)

Lemma McpsDataRequest_returns (params : McpsDataRequestParams) (p : Packet) (w : World) :
  NS3_ASSERT_ENABLE = false ->
  req_srcAddrMode params = SHORT_ADDR ->
  req_dstAddrMode params = SHORT_ADDR ->
  is_ok (exec (Mac.McpsDataRequest params p) w) = true.
Proof.
  intros Hoff Hsrc Hdst. apply wpt_is_ok.
  unfold Mac.McpsDataRequest, Mac.switchSrcAddrMode, Mac.switchDstAddrMode.
  rewrite Hsrc, Hdst. cbn [Z.eqb SHORT_ADDR NO_PANID_ADDR ADDR_MODE_RESERVED EXT_ADDR Pos.eqb andb].
  unfold Mac.CheckTxAndStartSender, Mac.StartRitTxWaitPeriod, Mac.ChangeRitMacMode,
    Mac.GetRitTxWaitDurationTime, Mac.DurationToTime.
  wpt_off Hoff. all: exact I.
Qed.

(** *** The cycle invariant, in a build with assertions *)

Section WithAssertions.
Hypothesis asserts_on : NS3_ASSERT_ENABLE = true.

Lemma ChangeMacState_inCycle s w0 w :
  inCycle w0 w -> wp (Mac.ChangeMacState s) (fun _ w' => inCycle w0 w') w.
Proof. intros H. unfold Mac.ChangeMacState. prim. wp_auto. cyc. Qed.

Ltac wp_call ::=
  eapply wp_mono;
  [ first [ apply ChangeMacState_inCycle ]; first [ eassumption | cyc ]
  | cbv beta; intros ].

Lemma SetSleep_inCycle w0 w :
  inCycle w0 w -> mode_of w <> RIT_MODE_DISABLED ->
  wp Mac.SetSleep (fun _ w' => inCycle w0 w') w.
Proof.
  intros H Hm. unfold Mac.SetSleep, Mac.ChangeRitMacMode. prim. wp_auto. all: cyc.
Qed.

Lemma EndReceiverCycle_inCycle w0 w :
  inCycle w0 w -> wp Mac.EndReceiverCycle (fun _ w' => inCycle w0 w') w.
Proof using asserts_on.
  intros H. unfold Mac.EndReceiverCycle. prim. wp_auto.
  all: (eapply wp_mono; [apply SetSleep_inCycle|cbv beta; intros]); cyc.
Qed.

Lemma EndSenderCycle_inCycle w0 w :
  inCycle w0 w -> wp Mac.EndSenderCycle (fun _ w' => inCycle w0 w') w.
Proof using asserts_on.
  intros H. unfold Mac.EndSenderCycle. prim. wp_auto.
  all: (eapply wp_mono; [apply SetSleep_inCycle|cbv beta; intros]); cyc.
Qed.

Ltac wp_call ::=
  eapply wp_mono;
  [ first [ apply ChangeMacState_inCycle | apply EndReceiverCycle_inCycle
          | apply EndSenderCycle_inCycle ]; first [ eassumption | cyc ]
  | cbv beta; intros ].

Lemma SetLrWpanMacState_inCycle s w0 w :
  inCycle w0 w -> wp (Mac.SetLrWpanMacState s) (fun _ w' => inCycle w0 w') w.
Proof using asserts_on.
  intros H. unfold Mac.SetLrWpanMacState. prim. wp_auto. all: cyc.
Qed.

Ltac wp_call ::=
  eapply wp_mono;
  [ first [ apply ChangeMacState_inCycle | apply EndReceiverCycle_inCycle
          | apply EndSenderCycle_inCycle | apply SetLrWpanMacState_inCycle ];
    first [ eassumption | cyc ]
  | cbv beta; intros ].

Lemma StartRitDataWaitPeriod_inCycle w0 w :
  inCycle w0 w -> wp Mac.StartRitDataWaitPeriod (fun _ w' => inCycle w0 w') w.
Proof using asserts_on.
  intros H. unfold Mac.StartRitDataWaitPeriod. unfold_time. wp_auto. all: cyc.
Qed.

Lemma StartRitTxWaitPeriod_inCycle w0 w :
  inCycle w0 w -> wp Mac.StartRitTxWaitPeriod (fun _ w' => inCycle w0 w') w.
Proof using asserts_on.
  intros H. unfold Mac.StartRitTxWaitPeriod. unfold_time. wp_auto. all: cyc.
Qed.

Ltac wp_call ::=
  eapply wp_mono;
  [ first [ apply ChangeMacState_inCycle | apply EndReceiverCycle_inCycle
          | apply EndSenderCycle_inCycle | apply SetLrWpanMacState_inCycle
          | apply StartRitDataWaitPeriod_inCycle | apply StartRitTxWaitPeriod_inCycle ];
    first [ eassumption | cyc ]
  | cbv beta; intros ].

Lemma CheckTxAndStartSender_inCycle w0 w :
  inCycle w0 w -> mode_of w <> RIT_MODE_DISABLED ->
  wp Mac.CheckTxAndStartSender (fun _ w' => inCycle w0 w') w.
Proof using asserts_on.
  intros H Hm. unfold Mac.CheckTxAndStartSender, Mac.ChangeRitMacMode. wp_auto. all: cyc.
Qed.

Lemma SenderCycleTimeout_inCycle w0 w :
  inCycle w0 w -> wp Mac.SenderCycleTimeout (fun _ w' => inCycle w0 w') w.
Proof using asserts_on.
  intros H. unfold Mac.SenderCycleTimeout. wp_auto. all: cyc.
Qed.

Lemma ReceiverCycleTimeout_inCycle w0 w :
  inCycle w0 w -> wp Mac.ReceiverCycleTimeout (fun _ w' => inCycle w0 w') w.
Proof using asserts_on.
  intros H. unfold Mac.ReceiverCycleTimeout. wp_auto. all: cyc.
Qed.

Lemma AckWaitTimeout_inCycle w0 w :
  inCycle w0 w -> wp Mac.AckWaitTimeout (fun _ w' => inCycle w0 w') w.
Proof using asserts_on.
  intros H. unfold Mac.AckWaitTimeout. wp_auto. all: cyc.
Qed.

Lemma DoSendRitDataRequest_inCycle w0 w :
  inCycle w0 w -> wp Mac.DoSendRitDataRequest (fun _ w' => inCycle w0 w') w.
Proof.
  intros H. unfold Mac.DoSendRitDataRequest. wp_auto. all: cyc.
Qed.

Lemma DoSendRitBeaconAck_inCycle w0 w :
  inCycle w0 w -> wp Mac.DoSendRitBeaconAck (fun _ w' => inCycle w0 w') w.
Proof.
  intros H. unfold Mac.DoSendRitBeaconAck. wp_auto. all: cyc.
Qed.

Lemma DoSendRitData_inCycle w0 w :
  inCycle w0 w -> wp Mac.DoSendRitData (fun _ w' => inCycle w0 w') w.
Proof.
  intros H. unfold Mac.DoSendRitData. wp_auto. all: cyc.
Qed.

Ltac wp_call ::=
  eapply wp_mono;
  [ first [ apply ChangeMacState_inCycle | apply EndReceiverCycle_inCycle
          | apply EndSenderCycle_inCycle | apply SetLrWpanMacState_inCycle
          | apply StartRitDataWaitPeriod_inCycle | apply StartRitTxWaitPeriod_inCycle
          | apply CheckTxAndStartSender_inCycle
          | apply DoSendRitDataRequest_inCycle | apply DoSendRitBeaconAck_inCycle
          | apply DoSendRitData_inCycle ];
    first [ eassumption | cyc ]
  | cbv beta; intros ].

Lemma SendRitData_inCycle w0 w :
  inCycle w0 w -> wp Mac.SendRitData (fun _ w' => inCycle w0 w') w.
Proof.
  intros H. unfold Mac.SendRitData. wp_auto. all: cyc.
Qed.

Lemma ReceiveCommand_inCycle lqi p w0 w :
  inCycle w0 w -> wp (Mac.ReceiveCommand lqi p) (fun _ w' => inCycle w0 w') w.
Proof.
  intros H. unfold Mac.ReceiveCommand. wp_auto. all: cyc.
Qed.

Lemma ReceiveData_inCycle lqi p w0 w :
  inCycle w0 w -> wp (Mac.ReceiveData lqi p) (fun _ w' => inCycle w0 w') w.
Proof.
  intros H. unfold Mac.ReceiveData. wp_auto. all: cyc.
Qed.

Ltac wp_call ::=
  eapply wp_mono;
  [ first [ apply ChangeMacState_inCycle | apply EndReceiverCycle_inCycle
          | apply EndSenderCycle_inCycle | apply SetLrWpanMacState_inCycle
          | apply StartRitDataWaitPeriod_inCycle | apply StartRitTxWaitPeriod_inCycle
          | apply CheckTxAndStartSender_inCycle
          | apply DoSendRitDataRequest_inCycle | apply DoSendRitBeaconAck_inCycle
          | apply DoSendRitData_inCycle | apply SendRitData_inCycle
          | apply ReceiveCommand_inCycle | apply ReceiveData_inCycle
          | apply SenderCycleTimeout_inCycle | apply ReceiverCycleTimeout_inCycle
          | apply AckWaitTimeout_inCycle ];
    first [ eassumption | cyc ]
  | cbv beta; intros ].

Lemma McpsDataRequest_inCycle params p w0 w :
  inCycle w0 w -> wp (Mac.McpsDataRequest params p) (fun _ w' => inCycle w0 w') w.
Proof using asserts_on.
  intros H. unfold Mac.McpsDataRequest. wp_auto. all: cyc.
Qed.

Lemma PdDataIndication_inCycle len p lqi w0 w :
  inCycle w0 w -> wp (Mac.PdDataIndication len p lqi) (fun _ w' => inCycle w0 w') w.
Proof using asserts_on.
  intros H. unfold Mac.PdDataIndication. unfold_time. wp_auto. all: cyc.
Qed.

Lemma PdDataConfirm_body_inCycle status txPkt w0 w :
  inCycle w0 w ->
  wp (Mac.PdDataConfirm_body status txPkt) (fun _ w' => inCycle w0 w') w.
Proof using asserts_on.
  intros H. unfold Mac.PdDataConfirm_body. wp_auto. all: cyc.
Qed.

Lemma PdDataConfirm_inCycle status w0 w :
  inCycle w0 w -> wp (Mac.PdDataConfirm status) (fun _ w' => inCycle w0 w') w.
Proof using asserts_on.
  intros H. unfold Mac.PdDataConfirm. wp_auto.
  all: try (eapply wp_mono; [apply PdDataConfirm_body_inCycle; eassumption|cbv beta; intros]).
  all: wp_auto. all: cyc.
Qed.

Lemma PlmeSetTRXStateConfirm_inCycle status w0 w :
  inCycle w0 w -> wp (Mac.PlmeSetTRXStateConfirm status) (fun _ w' => inCycle w0 w') w.
Proof.
  intros H. unfold Mac.PlmeSetTRXStateConfirm. wp_auto. all: cyc.
Qed.

Lemma MlmeGetRequest_inCycle id w0 w :
  inCycle w0 w -> wp (Mac.MlmeGetRequest id) (fun _ w' => inCycle w0 w') w.
Proof.
  intros H. unfold Mac.MlmeGetRequest. wp_auto. all: cyc.
Qed.

Lemma IfsWaitTimeout_inCycle t w0 w :
  inCycle w0 w -> wp (Mac.IfsWaitTimeout t) (fun _ w' => inCycle w0 w') w.
Proof using asserts_on.
  intros H. unfold Mac.IfsWaitTimeout. wp_auto. all: cyc.
Qed.

Lemma inCycle_invariant w0 w : inCycle w0 w -> cycle_invariant w0 -> cycle_invariant w.
Proof.
  unfold inCycle, cycle_invariant. intros [Hp Hm] [H1 H2]. rewrite Hp. split; [|exact H2].
  rewrite H1. destruct Hm as [->|[Ha Hb]]; [reflexivity|].
  apply RitMacMode_eqb_neq in Ha, Hb. now rewrite Ha, Hb.
Qed.

Ltac by_inCycle lem :=
  eapply wp_mono; [ apply lem; apply inCycle_refl | cbv beta; intros; eapply inCycle_invariant; eassumption ].

Lemma run_handler_invariant h w :
  cycle_invariant w -> wp (Mac.run_handler h) (fun _ w' => cycle_invariant w') w.
Proof using asserts_on.
  intros H. destruct h; simpl.
  - apply PeriodicRitDataRequest_invariant.
  - by_inCycle ReceiverCycleTimeout_inCycle.
  - by_inCycle SenderCycleTimeout_inCycle.
  - by_inCycle AckWaitTimeout_inCycle.
  - by_inCycle SetLrWpanMacState_inCycle.
  - wp_step. exact H.
  - by_inCycle IfsWaitTimeout_inCycle.
Qed.

Lemma fire_invariant t w :
  cycle_invariant w -> wp (Mac.fire t) (fun _ w' => cycle_invariant w') w.
Proof using asserts_on.
  intros H. unfold Mac.fire. wp_step. wp_step.
  destruct (ef_get (Mac.field t) w) as [ev|] eqn:He; [|wp_step; exact H].
  wp_step. wp_step. wp_step. wp_step.
  destruct t; cbn [Mac.field ef_set f_ritDataWaitTimeout f_ritTxWaitTimeout
                     f_periodicRitDataRequestEvent f_setMacState f_ackWaitTimeout f_ifsEvent].
  3: { (* the periodic event itself *)
       cbn in He. destruct H as [_ H2]. rewrite (H2 _ He). simpl.
       apply PeriodicRitDataRequest_invariant. }
  all: apply run_handler_invariant; exact H.
Qed.

Lemma fire_orphan_invariant i w :
  cycle_invariant w -> wp (Mac.fire_orphan i) (fun _ w' => cycle_invariant w') w.
Proof using asserts_on.
  intros H. unfold Mac.fire_orphan. wp_step. wp_step.
  destruct (nth_error (orphans w) i) as [ev|]; [|wp_step; exact H].
  wp_step. wp_step. wp_step. wp_step.
  apply run_handler_invariant; exact H.
Qed.

(** The inputs considered: a MAC is not used after [DoDispose], and
    [DoInitialize] runs on a MAC whose cycle was started. *)
Definition admitted_input (i : Mac.Input) (w : World) : Prop :=
  match i with
  | Mac.CallDoDispose => False
  | Mac.CallDoInitialize => mode_of w <> RIT_MODE_DISABLED
  | _ => True
  end.

Inductive reachable : World -> Prop :=
| reachable_initial (b : LrWpanMac) (continuousRx : bool) :
    reachable (Mac.initialWorld b continuousRx)
| reachable_step (w w' : World) (i : Mac.Input) :
    reachable w -> admitted_input i w -> exec (Mac.step i) w = Ok w' -> reachable w'.

Lemma step_invariant i w :
  admitted_input i w -> cycle_invariant w ->
  wp (Mac.step i) (fun _ w' => cycle_invariant w') w.
Proof using asserts_on.
  intros Ha H. destruct i; simpl in *.
  - by_inCycle McpsDataRequest_inCycle.
  - apply MlmeSetRequest_invariant; exact H.
  - by_inCycle MlmeGetRequest_inCycle.
  - by_inCycle SendRitData_inCycle.
  - unfold Mac.SetModuleConfig. prim. wp_step. exact H.
  - unfold Mac.SetRxAlwaysOn. prim. wp_step. exact H.
  - apply DoInitialize_invariant; assumption.
  - contradiction.
  - by_inCycle PdDataIndication_inCycle.
  - by_inCycle PdDataConfirm_inCycle.
  - by_inCycle PlmeSetTRXStateConfirm_inCycle.
  - by_inCycle SetLrWpanMacState_inCycle.
  - apply fire_invariant; exact H.
  - apply fire_orphan_invariant; exact H.
  - wp_step. exact H.
Qed.

(** C3 (as amended). In a build with assertions, in every world reached
    from a freshly constructed MAC by any sequence of calls, PHY and
    channel-access callbacks and event executions that returns, with
    [DoInitialize] run only once the cycle is started and the MAC not used
    after [DoDispose], the periodic RIT data request event is pending
    exactly when the mode is not Disabled. *)
Theorem C3_periodic_pending_iff_not_disabled (w : World) :
  reachable w ->
  IsPending (m_periodicRitDataRequestEvent (self w)) = true
  <-> m_ritMacMode (self w) <> RIT_MODE_DISABLED.
Proof using asserts_on.
  intros Hr.
  assert (Hinv : cycle_invariant w).
  { induction Hr as [b c | w w' i Hr IH Ha Hs].
    - split; [reflexivity | discriminate].
    - exact (wp_exec _ _ _ _ (step_invariant i w Ha IH) Hs). }
  destruct Hinv as [H _]. unfold mode_of, periodic_of in H. rewrite H.
  rewrite negb_true_iff. apply RitMacMode_eqb_neq.
Qed.

End WithAssertions.

End MacProperties.

(** ** The network layer *)

Section NwkProperties.
Context {ns3 : Ns3} {ops : LrWpanMacOps}.

(** The two sequence numbers of the network layer. *)
Definition handles (n : Nwk.t) : Z * Z := (Nwk.m_nwkHandle n, Nwk.m_macHandle n).

(** Retry counts are [uint8_t]: none is negative. *)
Definition retries_wf (n : Nwk.t) : Prop :=
  map_Forall (fun _ r => 0 <= r) (Nwk.m_retryCountMap n).

(** A confirm changes neither sequence number. *)
Lemma McpsDataConfirm_handles d params n n' :
  Nwk.McpsDataConfirm d params n = Ok n' -> handles n' = handles n.
Proof.
  unfold Nwk.McpsDataConfirm.
  repeat match goal with
         | |- context [match ?x with _ => _ end] => destruct x eqn:?
         end; intros [= <-]; reflexivity.
Qed.

(** A confirm is handled whenever the retry counts are well formed, and
    leaves them so. *)
Lemma McpsDataConfirm_returns d params n :
  retries_wf n ->
  exists n', Nwk.McpsDataConfirm d params n = Ok n' /\ retries_wf n'.
Proof.
  unfold retries_wf, Nwk.McpsDataConfirm. intros Hwf.
  destruct (Nwk.m_msduToNwkHandleMap n !! cfm_msduHandle params) as [h|]; [|eauto].
  destruct (Nwk.m_handleToPktMap n !! h) as [[packet dst]|]; [|eauto].
  assert (Hr : 0 <= default 0 (Nwk.m_retryCountMap n !! h)).
  { destruct (Nwk.m_retryCountMap n !! h) as [r|] eqn:Hh; cbn; [|lia]. exact (Hwf _ _ Hh). }
  assert (Hlt : (default 0 (Nwk.m_retryCountMap n !! h) <? Nwk.MAX_RETRIES) = false).
  { apply Z.ltb_ge. unfold Nwk.MAX_RETRIES. lia. }
  rewrite Hlt.
  destruct (cfm_status params); eexists; (split; [reflexivity|]); cbn;
    apply map_Forall_delete, map_Forall_insert_2; assumption.
Qed.

Lemma deliverConfirms_handles d cs n n' :
  Nwk.deliverConfirms d cs n = Ok n' -> handles n' = handles n.
Proof.
  revert n. induction cs as [|c cs IH]; intros n; cbn.
  - now intros [= <-].
  - destruct (Nwk.McpsDataConfirm d c n) as [n1|] eqn:Hc; [|discriminate].
    intros H. rewrite (IH _ H). exact (McpsDataConfirm_handles _ _ _ _ Hc).
Qed.

Lemma deliverConfirms_returns d cs n :
  retries_wf n -> exists n', Nwk.deliverConfirms d cs n = Ok n' /\ retries_wf n'.
Proof.
  revert n. induction cs as [|c cs IH]; intros n Hwf; cbn; [eauto|].
  destruct (McpsDataConfirm_returns d c n Hwf) as (n1 & -> & Hwf1). now apply IH.
Qed.

(** The frame [SendRequest] hands to the MAC and keeps a copy of. *)
Definition framed (n : Nwk.t) (packet : Packet) (dst : Mac16Address) : Packet :=
  Nwk.Packet_AddNwkHeader (RitNwkHeader.mk (Nwk.m_rank n) (Nwk.m_shortAddr n) dst) packet.

(** What one call of the two-argument [SendRequest] does to the network
    layer: the sequence numbers, and, when the MAC made no confirm during
    the call, the three map entries the call registered. *)
Definition registered (packet : Packet) (dst : Mac16Address) (nd nd' : Nwk.Node) : Prop :=
  let n := Nwk.nwk nd in
  let n' := Nwk.nwk nd' in
  Nwk.m_nwkHandle n' = Nwk.m_nwkHandle n
  /\ Nwk.m_macHandle n' = wrap8 (Nwk.m_macHandle n + 1)
  /\ (Nwk.confirmsBetween (Nwk.macWorld nd) (Nwk.macWorld nd') = [] ->
      Nwk.m_handleToPktMap n' !! Nwk.m_nwkHandle n = Some (framed n packet dst, dst)
      /\ Nwk.m_retryCountMap n' !! Nwk.m_nwkHandle n = Some 0
      /\ Nwk.m_msduToNwkHandleMap n' !! Nwk.m_macHandle n = Some (Nwk.m_nwkHandle n)
      /\ (forall k, k <> Nwk.m_macHandle n ->
            Nwk.m_msduToNwkHandleMap n' !! k = Nwk.m_msduToNwkHandleMap n !! k)).

Lemma SendRequest_registered packet dst nd nd' :
  Nwk.SendRequest packet dst nd = Ok nd' -> registered packet dst nd nd'.
Proof.
  unfold Nwk.SendRequest, Nwk.SendRequest3, registered. cbn [Nwk.nwk Nwk.macWorld].
  destruct (exec _ (Nwk.macWorld nd)) as [w'|] eqn:Hmac; [|discriminate].
  destruct (Nwk.deliverConfirms _ _ _) as [n'|] eqn:Hc; [|discriminate].
  intros [= <-]. cbn [Nwk.nwk Nwk.macWorld].
  pose proof (deliverConfirms_handles _ _ _ _ Hc) as Hh. injection Hh as Hn Hm.
  split; [exact Hn|]. split; [exact Hm|].
  intros Hnone. rewrite Hnone in Hc. injection Hc as <-. cbn.
  rewrite !lookup_insert_eq. repeat split.
  intros k Hk. now rewrite lookup_insert_ne.
Qed.

Lemma SendRequest_returns packet dst nd :
  NS3_ASSERT_ENABLE = false -> retries_wf (Nwk.nwk nd) ->
  exists nd', Nwk.SendRequest packet dst nd = Ok nd' /\ retries_wf (Nwk.nwk nd').
Proof.
  intros Hoff Hwf. unfold Nwk.SendRequest, Nwk.SendRequest3. cbn [Nwk.nwk Nwk.macWorld].
  match goal with
  | |- context [exec (Mac.McpsDataRequest ?params ?p) ?w] =>
    pose proof (McpsDataRequest_returns params p w Hoff eq_refl eq_refl) as Hret;
    destruct (exec (Mac.McpsDataRequest params p) w) as [w'|]; [clear Hret|discriminate Hret]
  end.
  match goal with
  | |- context [Nwk.deliverConfirms ?d ?cs ?n] =>
    destruct (deliverConfirms_returns d cs n) as (n' & -> & Hwf')
  end.
  - unfold retries_wf. cbn. now apply map_Forall_insert_2.
  - eauto.
Qed.

Lemma wrap8_succ_ne (v : Z) : wrap8 (v + 1) <> v.
Proof. unfold wrap8. intros H. Z.div_mod_to_equations. lia. Qed.

(** C10. The two-argument [SendRequest] leaves [m_nwkHandle] as it was
    and advances [m_macHandle] by one (modulo 256). So two requests in a
    row register under one NWK handle: when the MAC has confirmed neither
    by the time the second returns, the packet and destination stored
    under that handle are the second request's, the retry count stored
    under it is zero, and both MSDU handles lead to it. A build without
    assertions returns from both calls whenever the retry counts are
    well formed. *)
Theorem C10_send_request_reuses_nwk_handle
    (p1 p2 : Packet) (d1 d2 : Mac16Address) (nd : Nwk.Node) :
  (forall nd1 nd2,
     Nwk.SendRequest p1 d1 nd = Ok nd1 ->
     Nwk.SendRequest p2 d2 nd1 = Ok nd2 ->
     let h := Nwk.m_nwkHandle (Nwk.nwk nd) in
     Nwk.m_nwkHandle (Nwk.nwk nd1) = h
     /\ Nwk.m_nwkHandle (Nwk.nwk nd2) = h
     /\ Nwk.m_macHandle (Nwk.nwk nd1) = wrap8 (Nwk.m_macHandle (Nwk.nwk nd) + 1)
     /\ Nwk.m_macHandle (Nwk.nwk nd2) = wrap8 (Nwk.m_macHandle (Nwk.nwk nd1) + 1)
     /\ (Nwk.confirmsBetween (Nwk.macWorld nd) (Nwk.macWorld nd1) = [] ->
         Nwk.m_handleToPktMap (Nwk.nwk nd1) !! h = Some (framed (Nwk.nwk nd) p1 d1, d1)
         /\ Nwk.m_retryCountMap (Nwk.nwk nd1) !! h = Some 0
         /\ Nwk.m_msduToNwkHandleMap (Nwk.nwk nd1) !! Nwk.m_macHandle (Nwk.nwk nd) = Some h)
     /\ (Nwk.confirmsBetween (Nwk.macWorld nd1) (Nwk.macWorld nd2) = [] ->
         Nwk.m_handleToPktMap (Nwk.nwk nd2) !! h = Some (framed (Nwk.nwk nd1) p2 d2, d2)
         /\ Nwk.m_retryCountMap (Nwk.nwk nd2) !! h = Some 0
         /\ Nwk.m_msduToNwkHandleMap (Nwk.nwk nd2) !! Nwk.m_macHandle (Nwk.nwk nd1) = Some h
         /\ (Nwk.confirmsBetween (Nwk.macWorld nd) (Nwk.macWorld nd1) = [] ->
             Nwk.m_msduToNwkHandleMap (Nwk.nwk nd2) !! Nwk.m_macHandle (Nwk.nwk nd) = Some h)))
  /\ (NS3_ASSERT_ENABLE = false -> retries_wf (Nwk.nwk nd) ->
      exists nd1 nd2,
        Nwk.SendRequest p1 d1 nd = Ok nd1 /\ Nwk.SendRequest p2 d2 nd1 = Ok nd2).
Proof.
  split.
  - intros nd1 nd2 H1 H2 h.
    destruct (SendRequest_registered _ _ _ _ H1) as (Hn1 & Hm1 & Hmaps1).
    destruct (SendRequest_registered _ _ _ _ H2) as (Hn2 & Hm2 & Hmaps2).
    rewrite Hn1 in Hn2, Hmaps2. fold h in Hn1, Hn2, Hmaps1, Hmaps2.
    repeat split; try assumption.
    + now apply Hmaps1.
    + now apply Hmaps1.
    + now apply Hmaps1.
    + now apply Hmaps2.
    + now apply Hmaps2.
    + now apply Hmaps2.
    + intros Hnone1. destruct (Hmaps2 H) as (_ & _ & _ & Hrest).
      rewrite Hrest; [now apply Hmaps1|].
      rewrite Hm1. intros Heq. symmetry in Heq. exact (wrap8_succ_ne _ Heq).
  - intros Hoff Hwf.
    destruct (SendRequest_returns p1 d1 nd Hoff Hwf) as (nd1 & H1 & Hwf1).
    destruct (SendRequest_returns p2 d2 nd1 Hoff Hwf1) as (nd2 & H2 & _).
    eauto.
Qed.

End NwkProperties.

(** * The model on concrete inputs *)

(** The stand-in of [Module Ref], in a build with assertions; the random
    variables return the lower bound they are given. *)
Module Scenario.

Definition env : Ns3 := Ref.ns3 true 0.

#[local] Existing Instance env.
#[local] Existing Instance Ref.ops.

(** Running the inputs one after the other. *)
Fixpoint run (inputs : list Mac.Input) (w : World) : Outcome World :=
  match inputs with
  | [] => Ok w
  | i :: rest =>
    match exec (Mac.step i) w with
    | Ok w' => run rest w'
    | Stop why => Stop why
    end
  end.

(** Node 1, freshly constructed. *)
Definition start : World := Mac.initialWorld (Ref.baseMac 1) false.

(** The world the inputs lead to from [start]. *)
Definition after (inputs : list Mac.Input) : World :=
  match run inputs start with
  | Ok w => w
  | Stop _ => start
  end.

Definition seconds (n : Z) : Time := n * 1000000000.

Definition periodTime (t : Time) : MacPibAttributes := mkPib 0 0 0 [] t 0 0.

Definition continuousTx : RitWpanMacModuleConfig :=
  mkModuleConfig false false false false false false true false false false.

Definition randomized : RitWpanMacModuleConfig :=
  mkModuleConfig false false false false false false false true false false.

(** The RIT data request of the node with short address [a]. *)
Definition requestHeader (a : Mac16Address) : LrWpanMacHeader :=
  mkMacHeader LRWPAN_MAC_COMMAND 0 1 false false false
    SHORT_ADDR 0 a 0 SHORT_ADDR 0 Mac16_broadcast 0.

Definition ritDataRequestFrom (a : Mac16Address) : Packet :=
  Packet_AddTrailer
    (Packet_AddHeader (PH_Mac (requestHeader a))
       (Packet_AddHeader (PH_Command RIT_DATA_REQ) (Packet_Create []))).

(** A data frame from node [a] to node 1 that asks for an acknowledgment. *)
Definition dataHeader (a : Mac16Address) (seq : Z) : LrWpanMacHeader :=
  mkMacHeader LRWPAN_MAC_DATA seq 0 true true false
    SHORT_ADDR 0 a 0 SHORT_ADDR 0 1 0.

Definition dataFrom (a : Mac16Address) (seq : Z) : Packet :=
  Packet_AddTrailer (Packet_AddHeader (PH_Mac (dataHeader a seq)) (Ref.payload 4)).

(** MCPS-DATA.request of ten octets for node 9. *)
Definition request (srcMode dstMode handle txOptions : Z) : McpsDataRequestParams :=
  mkMcpsDataRequestParams srcMode dstMode 0 9 0 handle txOptions.

Definition dataRequest (handle txOptions : Z) : Mac.Input :=
  Mac.CallMcpsDataRequest (request SHORT_ADDR SHORT_ADDR handle txOptions) (Ref.payload 10).

(** The cycle was started with a period of one second. *)
Definition cycling : list Mac.Input :=
  [ Mac.CallMlmeSetRequest macRitPeriodTime (periodTime (seconds 1)) ].

(** A frame was queued and the periodic event has put the MAC in sender
    mode, waiting for a RIT data request. *)
Definition waiting : list Mac.Input :=
  cycling ++ [ dataRequest 7 0; Mac.Fire Mac.T_periodicRitDataRequestEvent ].

(** Node 2 has asked for data and the frame went to the PHY. *)
Definition sending : list Mac.Input :=
  Mac.CallSetModuleConfig continuousTx
  :: waiting
  ++ [ Mac.PhyPdDataIndication 12 (ritDataRequestFrom 2) 255;
       Mac.CallSendRitData;
       Mac.PhyPlmeSetTRXStateConfirm IEEE_802_15_4_PHY_TX_ON ].

(** The periodic event found nothing queued: the beacon was sent and the
    MAC listens for data. *)
Definition listening : list Mac.Input :=
  cycling
  ++ [ Mac.Fire Mac.T_periodicRitDataRequestEvent;
       Mac.PhyPlmeSetTRXStateConfirm IEEE_802_15_4_PHY_TX_ON;
       Mac.PhyPdDataConfirm IEEE_802_15_4_PHY_SUCCESS;
       Mac.Fire Mac.T_setMacState ].

Lemma cycling_runs : run cycling start = Ok (after cycling).
Proof. vm_compute. reflexivity. Qed.

Lemma waiting_runs : run waiting start = Ok (after waiting).
Proof. vm_compute. reflexivity. Qed.

Lemma sending_runs : run sending start = Ok (after sending).
Proof. vm_compute. reflexivity. Qed.

Lemma listening_runs : run listening start = Ok (after listening).
Proof. vm_compute. reflexivity. Qed.

End Scenario.

Import Scenario.

#[local] Existing Instance Scenario.env.
#[local] Existing Instance Ref.ops.

(** ** C1 on concrete inputs *)

Definition milliseconds (n : Z) : Time := n * 1000000.

(** The time period of a cycle that runs with a period of one second is
    set to zero: the cycle is stopped. The period is set to one second
    on the fresh MAC: the cycle is started. *)
Lemma C1_period_stops_and_starts_cycle_witness :
  (m_macRitPeriodTime (self (after cycling)) = seconds 1
   /\ IsPending (m_periodicRitDataRequestEvent (self (after cycling))) = true
   /\ exists w', exec (Mac.MlmeSetRequest macRitPeriodTime (periodTime 0)) (after cycling)
                 = Ok w'
        /\ cycle_stopped w' /\ now w' = now (after cycling))
  /\ (m_ritMacMode (self start) = RIT_MODE_DISABLED
      /\ exists w', exec (Mac.MlmeSetRequest macRitPeriodTime (periodTime (seconds 1))) start
                    = Ok w'
           /\ m_ritMacMode (self w') = SLEEP_MODE
           /\ IsPending (m_periodicRitDataRequestEvent (self w')) = true).
Proof.
  assert (Hpos : forall t, 0 <= t -> Time_IsPositive t = true)
    by (intros t Ht; apply Z.leb_le; exact Ht).
  split.
  - split; [vm_compute; reflexivity|]. split; [vm_compute; reflexivity|].
    assert (Htb : m_useTimeBasedRitParams (self (after cycling)) = true)
      by (vm_compute; reflexivity).
    assert (Hold : 0 <= m_macRitPeriodTime (self (after cycling)))
      by (vm_compute; discriminate).
    destruct (proj1 (C1_period_stops_and_starts_cycle (after cycling) macRitPeriodTime
                       (periodTime 0) eq_refl Hpos Htb Hold) eq_refl)
      as (w' & Hexec & Hstopped & Hnow & _).
    exists w'. auto.
  - split; [reflexivity|].
    assert (Htb : m_useTimeBasedRitParams (self start) = true) by reflexivity.
    assert (Hold : 0 <= m_macRitPeriodTime (self start)) by (vm_compute; discriminate).
    assert (Hnew : 0 < period_value macRitPeriodTime (periodTime (seconds 1)))
      by reflexivity.
    pose proof (proj2 (C1_period_stops_and_starts_cycle start macRitPeriodTime
                         (periodTime (seconds 1)) eq_refl Hpos Htb Hold)
                  Hnew eq_refl) as Hstart.
    change (NS3_ASSERT_ENABLE
            && (effectivePeriod
                  (self (with_period macRitPeriodTime (periodTime (seconds 1)) start))
                <? effectiveDataWait
                     (self (with_period macRitPeriodTime (periodTime (seconds 1)) start))))
      with false in Hstart.
    change (negb (MacState_eqb (m_macState (base (self start))) MAC_IDLE))
      with false in Hstart.
    change (NS3_ASSERT_ENABLE && IsPending (m_periodicRitDataRequestEvent (self start)))
      with false in Hstart.
    cbv iota in Hstart.
    destruct Hstart as (w' & Hexec & _ & Hmode & Hperiodic).
    exists w'. split; [exact Hexec|]. split; [exact Hmode|]. now rewrite Hperiodic.
Defined.

(** The base MAC of a fresh node is in the middle of a channel access
    when the period is set to one second: the call returns, and the
    cycle is not started. The period of the fresh node, idle, is set to
    five milliseconds, half of its data-wait duration: the run stops at
    the assertion of [StartRitCycle]. *)
Definition busy : World := upd_base (set_m_macState MAC_CSMA) start.

Lemma C1_start_is_conditional_counterexample :
  (m_ritMacMode (self busy) = RIT_MODE_DISABLED
   /\ exists w', exec (Mac.MlmeSetRequest macRitPeriodTime (periodTime (seconds 1))) busy
                 = Ok w'
        /\ m_macRitPeriodTime (self w') = seconds 1
        /\ m_ritMacMode (self w') = RIT_MODE_DISABLED
        /\ IsPending (m_periodicRitDataRequestEvent (self w')) = false)
  /\ (m_ritMacMode (self start) = RIT_MODE_DISABLED
      /\ m_macState (base (self start)) = MAC_IDLE
      /\ m_macRitDataWaitDurationTime (self start) = milliseconds 10
      /\ exec (Mac.MlmeSetRequest macRitPeriodTime (periodTime (milliseconds 5))) start
         = Stop (AssertFailed "period >= dataWait")).
Proof.
  split.
  - split; [reflexivity|]. vm_compute. eexists. repeat split.
  - repeat match goal with |- _ /\ _ => split end; vm_compute; reflexivity.
Qed.

(** ** C2 on concrete inputs *)

Lemma C2_mcps_data_request_rejections_witness :
  Mac.IsRitModeEnabled (self start) = true
  /\ (exists w',
        exec (Mac.McpsDataRequest (request SHORT_ADDR SHORT_ADDR 7 0) (Ref.payload 200)) start
        = Ok w'
        /\ out w' = [McpsDataConfirmCallback (mkMcpsDataConfirmParams 7 FRAME_TOO_LONG)]
        /\ m_txQueue (base (self w')) = [])
  /\ (exists w',
        exec (Mac.McpsDataRequest (request SHORT_ADDR SHORT_ADDR 8 TX_OPTION_GTS)
                (Ref.payload 10)) start
        = Ok w'
        /\ out w' = [McpsDataConfirmCallback (mkMcpsDataConfirmParams 8 INVALID_PARAMETER)]
        /\ m_txQueue (base (self w')) = []).
Proof.
  assert (Hen : Mac.IsRitModeEnabled (self start) = true) by reflexivity.
  split; [exact Hen|]. split.
  - destruct (proj1 (C2_mcps_data_request_rejections start
                       (request SHORT_ADDR SHORT_ADDR 7 0) (Ref.payload 200) Hen)
                FRAME_TOO_LONG)
      as (w' & Hexec & Hout & Hqueue & _); [vm_compute; reflexivity|].
    exists w'. auto.
  - destruct (proj1 (C2_mcps_data_request_rejections start
                       (request SHORT_ADDR SHORT_ADDR 8 TX_OPTION_GTS) (Ref.payload 10) Hen)
                INVALID_PARAMETER)
      as (w' & Hexec & Hout & Hqueue & _); [vm_compute; reflexivity|].
    exists w'. auto.
Defined.

(** A reserved source addressing mode: no confirm, the run is aborted. *)
Lemma C2_reserved_mode_aborts_counterexample :
  exec (Mac.McpsDataRequest (request ADDR_MODE_RESERVED SHORT_ADDR 7 0) (Ref.payload 10)) start
  = Stop (AbortMsg "Can not set source address type to ADDR_MODE_RESERVED. Aborting.").
Proof. vm_compute. reflexivity. Qed.

(** ** C3 on concrete inputs *)

Lemma C3_periodic_pending_iff_not_disabled_witness :
  reachable (after cycling)
  /\ (IsPending (m_periodicRitDataRequestEvent (self (after cycling))) = true
      <-> m_ritMacMode (self (after cycling)) <> RIT_MODE_DISABLED).
Proof.
  assert (Hr : reachable (after cycling)).
  { eapply reachable_step with (i := Mac.CallMlmeSetRequest macRitPeriodTime
                                       (periodTime (seconds 1))).
    - apply (reachable_initial (Ref.baseMac 1) false).
    - exact I.
    - vm_compute. reflexivity. }
  split; [exact Hr|].
  apply C3_periodic_pending_iff_not_disabled; [reflexivity | exact Hr].
Defined.

(** [DoInitialize] on the fresh MAC: the MAC is enabled (the constructor's
    period is five seconds), the mode is Sleep, nothing is scheduled. *)
Lemma C3_initialized_before_start_counterexample :
  exists w', exec (Mac.step Mac.CallDoInitialize) start = Ok w'
    /\ Mac.IsRitModeEnabled (self w') = true
    /\ m_ritMacMode (self w') = SLEEP_MODE
    /\ IsPending (m_periodicRitDataRequestEvent (self w')) = false.
Proof. vm_compute. eexists. repeat split. Qed.

(** ** C4 on concrete inputs *)

(** The frame queued for node 9. *)
Definition queuedFrame : TxQueueElement :=
  match m_txQueue (base (self (after waiting))) with
  | e :: _ => e
  | [] => mkTxQueueElement 0 (Packet_Create [])
  end.

Definition queuedHeader : LrWpanMacHeader := Packet_PeekMacHeader (txQPkt queuedFrame).

(** The waiting sender has taken the request of node 2. *)
Definition answered : list Mac.Input :=
  waiting ++ [ Mac.PhyPdDataIndication 12 (ritDataRequestFrom 2) 255 ].

Lemma C4_queue_head_readdressed_to_requester_witness :
  steps answered start = Ok (after answered)
  /\ m_addrShortDstAddr queuedHeader = 9
  /\ lastTaken answered start (m_lastRxRitReqFrameSrcAddr (self start)) = 2
  /\ exists v', exec (Mac.step Mac.CallSendRitData) (after answered) = Ok v'
       /\ (exists pkt, m_txPkt (base (self v')) = Some pkt
             /\ m_addrShortDstAddr (Packet_PeekMacHeader pkt) = 2
             /\ map txQPkt (m_txQueue (base (self v'))) = [pkt])
       /\ m_macState (base (self v')) = MAC_SENDING.
Proof.
  assert (Hrun : steps answered start = Ok (after answered)) by (vm_compute; reflexivity).
  assert (Hlast : lastTaken answered start (m_lastRxRitReqFrameSrcAddr (self start)) = 2)
    by (vm_compute; reflexivity).
  split; [exact Hrun|]. split; [vm_compute; reflexivity|]. split; [exact Hlast|].
  assert (Hd : dispatches (after answered) Mac.CallSendRitData)
    by (apply dispatch_SendRitData; vm_compute; reflexivity).
  destruct (C4_queue_head_readdressed_to_requester
              answered start (after answered) Mac.CallSendRitData
              queuedFrame [] queuedHeader [] Hrun)
    as (_ & _ & _ & _ & Hsend); try (vm_compute; reflexivity); [exact Hd|].
  change (dataCsmaEnabled (m_moduleConfig (self (after answered)))
          || dataPreCsEnabled (m_moduleConfig (self (after answered)))
          || dataPreCsBEnabled (m_moduleConfig (self (after answered))))
    with false in Hsend.
  cbv iota in Hsend. rewrite Hlast in Hsend.
  destruct Hsend as (v' & Hexec & Hqueue & Htx & Hstate).
  exists v'. split; [exact Hexec|]. split; [|exact Hstate].
  eexists. split; [exact Htx|]. split; [reflexivity|]. now rewrite Hqueue.
Defined.

(** With beacon acknowledgment the sender answers the request of node 2
    with an acknowledgment and dispatches the queued frame an
    inter-frame space later. In between the request of node 3 arrives:
    it passes the frame check and the level 3 filter, and the MAC, which
    has started sending, ignores it. *)
Definition beaconAck : RitWpanMacModuleConfig :=
  mkModuleConfig false false false false false false false false false true.

Definition acknowledged : list Mac.Input :=
  Mac.CallSetModuleConfig beaconAck
  :: answered
  ++ [ Mac.CallSendRitData;
       Mac.PhyPlmeSetTRXStateConfirm IEEE_802_15_4_PHY_TX_ON;
       Mac.PhyPdDataConfirm IEEE_802_15_4_PHY_SUCCESS;
       Mac.Fire Mac.T_setMacState ].

Definition overtaken : list Mac.Input :=
  acknowledged
  ++ [ Mac.PhyPdDataIndication 12 (ritDataRequestFrom 3) 255;
       Mac.Fire Mac.T_ifsEvent ].

Lemma C4_request_while_sending_is_ignored_counterexample :
  run overtaken start = Ok (after overtaken)
  /\ m_ritMacMode (self (after acknowledged)) = SENDER_MODE
  /\ m_macState (base (self (after acknowledged))) = MAC_IDLE
  /\ accepted (after acknowledged) (ritDataRequestFrom 3) = true
  /\ isRitDataRequest (ritDataRequestFrom 3) = true
  /\ m_addrShortSrcAddr (fst (Packet_RemoveMacHeader (ritDataRequestFrom 3))) = 3
  /\ m_ritSending (self (after acknowledged)) = true
  /\ option_map (fun pkt => m_addrShortDstAddr (Packet_PeekMacHeader pkt))
       (m_txPkt (base (self (after overtaken)))) = Some 2
  /\ m_macState (base (self (after overtaken))) = MAC_SENDING.
Proof.
  repeat match goal with |- _ /\ _ => split end; vm_compute; reflexivity.
Qed.

(** ** C5 on concrete inputs *)

(** The receiver restarts the data wait on an idle base MAC. *)
Lemma ack_requested_data_restarts_data_wait_witness :
  m_ritMacMode (self (after listening)) = RECEIVER_MODE
  /\ m_ritDataWaitTimeout (self (after listening))
     = Some (mkEvent 10000000 H_ReceiverCycleTimeout)
  /\ exists w',
       exec (Mac.PdDataIndication 17 (dataFrom 2 5) 255)
            (set_now 4000000 (after listening)) = Ok w'
       /\ m_ritDataWaitTimeout (self w') = Some (mkEvent 14000000 H_ReceiverCycleTimeout)
       /\ orphans w' = []
       /\ m_setMacState (base (self w')) = Some (mkEvent 4000000 (H_SendAck 5))
       /\ m_ritMacMode (self w') = RECEIVER_MODE.
Proof.
  split; [vm_compute; reflexivity|]. split; [vm_compute; reflexivity|].
  destruct (ack_requested_data_restarts_data_wait
              (set_now 4000000 (after listening)) 17 255 (dataFrom 2 5) (dataHeader 2 5) [])
    as (w' & Hexec & Hwait & Horphans & Hack & _ & Hmode & _); try (vm_compute; reflexivity).
  { vm_compute. discriminate. }
  { right. left. reflexivity. }
  exists w'. split; [exact Hexec|]. split; [exact Hwait|]. split; [exact Horphans|].
  split; [exact Hack | exact Hmode].
Defined.

(** With a channel access before the beacon, the periodic event found
    nothing queued and the base MAC contends for the channel. *)
Definition beaconCsma : RitWpanMacModuleConfig :=
  mkModuleConfig false false false true false false false false false false.

Definition contending : list Mac.Input :=
  Mac.CallSetModuleConfig beaconCsma
  :: cycling
  ++ [ Mac.Fire Mac.T_periodicRitDataRequestEvent;
       Mac.Fire Mac.T_setMacState ].

(** C5. Node 1 is in receiver mode and its base MAC is in the middle of
    the channel access for its beacon when a data frame for it arrives
    from node 2, with the ACK-request bit set. The frame passes the
    frame check and the level 3 filter and is indicated to the upper
    layer; the branch that cancels the channel access then calls
    [Cancel] through [m_preCsB], which is null: the run ends there, and
    no acknowledgment is scheduled and no data-wait timeout is armed. *)
Theorem C5_csma_cancel_dereferences_null :
  run contending start = Ok (after contending)
  /\ m_ritMacMode (self (after contending)) = RECEIVER_MODE
  /\ m_macState (base (self (after contending))) = MAC_CSMA
  /\ accepted (after contending) (dataFrom 2 5) = true
  /\ m_fctrlAckReq (Packet_PeekMacHeader (dataFrom 2 5)) = true
  /\ exec (Mac.PdDataIndication 17 (dataFrom 2 5) 255) (after contending)
     = Stop (Undefined "m_preCsB->Cancel()")
  /\ run (contending ++ [Mac.PhyPdDataIndication 17 (dataFrom 2 5) 255]) start
     = Stop (Undefined "m_preCsB->Cancel()").
Proof.
  repeat match goal with |- _ /\ _ => split end; vm_compute; reflexivity.
Qed.

(** ** C6 on concrete inputs *)

(** C6. With continuous transmission and no channel access for data, node
    1 has handed its only queued frame to the PHY, from the idle state.
    The PHY confirms the transmission: [PdDataConfirm] confirms the frame
    to the upper layer and, the frame still being in the queue, hands it
    to the PHY again, going to the sending state from the sending state;
    no return to idle is scheduled, and the queue is as it was. *)
Theorem C6_continuous_tx_sends_while_sending :
  run sending start = Ok (after sending)
  /\ m_macState (base (self (after sending))) = MAC_SENDING
  /\ exists w',
       exec (Mac.PdDataConfirm IEEE_802_15_4_PHY_SUCCESS) (after sending) = Ok w'
       /\ logged (after sending) w'
          = [MacTxOkTrace (m_txPkt (base (self (after sending))));
             McpsDataConfirmCallback (mkMcpsDataConfirmParams 7 SUCCESS);
             MacStateLogger MAC_SENDING MAC_SENDING;
             PlmeSetTRXStateRequest IEEE_802_15_4_PHY_TX_ON]
       /\ m_macState (base (self w')) = MAC_SENDING
       /\ m_setMacState (base (self w')) = None
       /\ m_txQueue (base (self w')) = m_txQueue (base (self (after sending)))
       /\ m_txPkt (base (self w')) = m_txPkt (base (self (after sending)))
       /\ length (m_txQueue (base (self w'))) = 1%nat.
Proof.
  split; [exact sending_runs|]. split; [reflexivity|].
  vm_compute. eexists. repeat split.
Qed.

(** ** C7 on concrete inputs *)

(** The periodic event of a cycle with beacon randomization is firing,
    and the random variables return the point a quarter of the way from
    their lower bound. *)
Definition quarter : Ns3 := Ref.ns3 true (1 # 4).

Definition firing : World :=
  upd_self (set_m_periodicRitDataRequestEvent None)
    (upd_self (set_m_ritMacMode SLEEP_MODE)
       (upd_self (set_m_moduleConfig randomized)
          (upd_self (set_m_macRitPeriodTime (seconds 1)) start))).

Lemma C7_periodic_rearm_interval_witness :
  driftedPeriod (ns3 := quarter) firing = seconds 1
  /\ exists w', exec (Mac.PeriodicRitDataRequest (ns3 := quarter)) firing = Ok w'
       /\ m_periodicRitDataRequestEvent (self w')
          = Some (mkEvent 750000000 H_PeriodicRitDataRequest).
Proof.
  split; [reflexivity|].
  destruct (C7_periodic_rearm_interval (ns3 := quarter) firing)
    as (Hreturns & Hrearm & _).
  - vm_compute. discriminate.
  - vm_compute. split; discriminate.
  - vm_compute. discriminate.
  - assert (Hok : is_ok (exec (Mac.PeriodicRitDataRequest (ns3 := quarter)) firing) = true).
    { apply Hreturns. right. vm_compute. auto 10. }
    destruct (exec (Mac.PeriodicRitDataRequest (ns3 := quarter)) firing) as [w'|] eqn:Hexec;
      [|discriminate Hok].
    exists w'. split; [reflexivity|]. rewrite (Hrearm w' eq_refl). reflexivity.
Defined.

(** ** C10 on concrete inputs *)

(** The network layer of node 1 over the fresh MAC, and the node after a
    request for node 9 and after a second one for node 8. *)
Definition node : Nwk.Node := Nwk.mkNode Nwk.constructor start.

Definition sentOnce : Nwk.Node :=
  match Nwk.SendRequest (Ref.payload 3) 9 node with
  | Ok nd => nd
  | Stop _ => node
  end.

Definition sentTwice : Nwk.Node :=
  match Nwk.SendRequest (Ref.payload 5) 8 sentOnce with
  | Ok nd => nd
  | Stop _ => sentOnce
  end.

Lemma C10_send_request_reuses_nwk_handle_witness :
  Nwk.SendRequest (Ref.payload 3) 9 node = Ok sentOnce
  /\ Nwk.SendRequest (Ref.payload 5) 8 sentOnce = Ok sentTwice
  /\ Nwk.m_nwkHandle (Nwk.nwk sentTwice) = 0
  /\ Nwk.m_macHandle (Nwk.nwk sentTwice) = 2
  /\ Nwk.m_handleToPktMap (Nwk.nwk sentOnce) !! 0
     = Some (framed (Nwk.nwk node) (Ref.payload 3) 9, 9)
  /\ Nwk.m_handleToPktMap (Nwk.nwk sentTwice) !! 0
     = Some (framed (Nwk.nwk sentOnce) (Ref.payload 5) 8, 8)
  /\ Nwk.m_msduToNwkHandleMap (Nwk.nwk sentTwice) !! 0 = Some 0
  /\ Nwk.m_msduToNwkHandleMap (Nwk.nwk sentTwice) !! 1 = Some 0.
Proof.
  assert (H1 : Nwk.SendRequest (Ref.payload 3) 9 node = Ok sentOnce)
    by (vm_compute; reflexivity).
  assert (H2 : Nwk.SendRequest (Ref.payload 5) 8 sentOnce = Ok sentTwice)
    by (vm_compute; reflexivity).
  split; [exact H1|]. split; [exact H2|].
  destruct (proj1 (C10_send_request_reuses_nwk_handle
                     (Ref.payload 3) (Ref.payload 5) 9 8 node) sentOnce sentTwice H1 H2)
    as (_ & Hn & _ & Hm & Hfirst & Hsecond).
  destruct Hfirst as (Hpkt1 & _); [vm_compute; reflexivity|].
  destruct Hsecond as (Hpkt2 & _ & Hmsdu2 & Hmsdu1); [vm_compute; reflexivity|].
  split; [exact Hn|]. split; [rewrite Hm; reflexivity|].
  split; [exact Hpkt1|]. split; [exact Hpkt2|].
  split; [apply Hmsdu1; vm_compute; reflexivity | exact Hmsdu2].
Defined.
